(** * obsgit: reconciliation between an OBS registry and a git tree

    A shallow embedding of the Python sources under [src/obsgit]
    ([asyncobs.py], [git.py], [storageobs.py], [storagelfs.py],
    [exporter.py], [importer.py]) together with the properties that the
    design document states about them.

    Conventions of the embedding.
    - A Python [str] is a Rocq [string] (a byte string holding the UTF-8
      encoding of the text), [bytes] is [list byte]; [str.encode("utf-8")]
      is therefore [list_byte_of_string].
    - A value that may be [None] is an [option]; [pyval] is "str or None".
    - Python [set]s are [gset]s.  Where the source iterates over a set the
      model iterates over [elements], the order of which is as arbitrary as
      Python's.
    - Coroutines are computations in the monad [M]: a reader over the
      outside world [Env] (what the registry answers, which calls fail), a
      state [World] (the working tree, the storage object, the memo caches
      and the log of calls issued to the collaborators) and exceptions.
    - [asyncio.gather] runs every awaitable and re-raises the first
      exception; the awaitables are run one after the other. *)

From stdpp Require Import base option list gmap sets strings sorting pretty.
From Stdlib Require Import ZArith QArith.
From Stdlib.Strings Require Import Ascii String Byte.

Set Warnings "-register-all".

Open Scope string_scope.
Open Scope Z_scope.
Open Scope list_scope.

(** ** Python values *)

Definition pyval := option string.

(** Truth value of a "str or None": [None] and [""] are false. *)
Definition truthy (v : pyval) : bool :=
  match v with
  | Some s => negb (String.eqb s "")
  | None => false
  end.

(** [a != b] between a "str or None" and a str. *)
Definition pyval_neq_str (v : pyval) (s : string) : bool :=
  match v with
  | Some x => negb (String.eqb x s)
  | None => true
  end.

(** Text of a "str or None" inside an f-string. *)
Definition fmt (v : pyval) : string :=
  match v with Some s => s | None => "None" end.

Definition bytes := list byte.

(** ["\t"] and ["\n"] *)
Definition tab : string := String "009" EmptyString.
Definition nl : string := String "010" EmptyString.

(** ** ElementTree documents *)

Module Xml.

Inductive element : Type :=
| Element (tag : string) (attrib : list (string * string)) (children : list element).

Definition tag (e : element) : string :=
  match e with Element t _ _ => t end.

Definition attrib (e : element) : list (string * string) :=
  match e with Element _ a _ => a end.

Definition children (e : element) : list element :=
  match e with Element _ _ c => c end.

(** [e.get(name)] *)
Definition get (name : string) (e : element) : pyval :=
  snd <$> List.find (fun kv => String.eqb (fst kv) name) (attrib e).

(** [e.iter()]: the element and all its descendants in document order. *)
Fixpoint iter (e : element) : list element :=
  match e with
  | Element _ _ cs =>
      e :: (fix iter_all (l : list element) : list element :=
              match l with
              | [] => []
              | c :: l' => iter c ++ iter_all l'
              end) cs
  end.

(** All elements strictly below [e], in document order. *)
Definition descendants (e : element) : list element :=
  match iter e with
  | [] => []
  | _ :: below => below
  end.

(** [e.findall(".//t")] *)
Definition findall (t : string) (e : element) : list element :=
  List.filter (fun x => String.eqb (tag x) t) (descendants e).

(** [e.find(".//t")] *)
Definition find (t : string) (e : element) : option element :=
  head (findall t e).

(** [e.find(".//t[@a='v']")] *)
Definition find_attr (t a v : string) (e : element) : option element :=
  head (List.filter
          (fun x => match get a x with
                    | Some v' => String.eqb v' v
                    | None => false
                    end)
          (findall t e)).

(** [ET.fromstring('<directory rev="latest"/>')] *)
Definition empty_directory : element :=
  Element "directory" [("rev", "latest")] [].

End Xml.

(** ** Paths of the working tree

    [git.path / ".obs" / name], [git.prefix / package / filename],
    [git.prefix / package / ".obs" / name] and [git.path / ".gitattributes"]. *)

Inductive path : Type :=
| ProjMeta (name : string)
| PkgFile (package filename : string)
| PkgMeta (package name : string)
| GitAttributes.

Inductive dir : Type :=
| DProjObs
| DPkg (package : string)
| DPkgObs (package : string).

Global Instance path_eq_dec : EqDecision path.
Proof. solve_decision. Defined.

Global Instance dir_eq_dec : EqDecision dir.
Proof. solve_decision. Defined.

Global Instance path_countable : Countable path.
Proof.
  refine (inj_countable
            (fun p => match p with
                      | ProjMeta n => inl (inl n)
                      | PkgFile pk f => inl (inr (pk, f))
                      | PkgMeta pk n => inr (inl (pk, n))
                      | GitAttributes => inr (inr ())
                      end)
            (fun x => match x with
                      | inl (inl n) => Some (ProjMeta n)
                      | inl (inr (pk, f)) => Some (PkgFile pk f)
                      | inr (inl (pk, n)) => Some (PkgMeta pk n)
                      | inr (inr _) => Some GitAttributes
                      end) _).
  by intros [].
Defined.

Global Instance dir_countable : Countable dir.
Proof.
  refine (inj_countable
            (fun d => match d with
                      | DProjObs => inl ()
                      | DPkg pk => inr (inl pk)
                      | DPkgObs pk => inr (inr pk)
                      end)
            (fun x => match x with
                      | inl _ => Some DProjObs
                      | inr (inl pk) => Some (DPkg pk)
                      | inr (inr pk) => Some (DPkgObs pk)
                      end) _).
  by intros [].
Defined.

(** ** The outside world, the state and the monad of coroutines *)

Inductive exn : Type :=
| AssertionError (msg : string)
| AttributeError
| TypeError
| ValueError
| KeyError (key : string)
| FileNotFoundError (p : path)
| ParseError
| ClientError (url : string).

Inductive result (A : Type) : Type :=
| Ok (a : A)
| Raise (e : exn).
Arguments Ok {A} a.
Arguments Raise {A} e.

Definition is_ok {A} (r : result A) : bool :=
  match r with Ok _ => true | Raise _ => false end.

(** Query parameters of a request, in keyword order. *)
Definition params := list (string * pyval).

(** Body of a PUT or POST: an open file of the tree, literal data, the
    serialisation [ET.tostring(root)] of a document, or the body of a
    response that is being streamed ([_transfer]). *)
Inductive payload : Type :=
| FromFile (p : path)
| Data (b : bytes)
| Document (root : Xml.element)
| Stream (url : string).

(** Truth value of a [data] argument: [None] and [b""] are false. *)
Definition has_data (d : option payload) : bool :=
  match d with
  | None | Some (Data []) => false
  | Some _ => true
  end.

(** Calls issued to the collaborators: the HTTP client of an [AsyncOBS],
    the file system below the git tree, the [git lfs] subprocess, the
    standard output and the logger. *)
Inductive event : Type :=
| Print (s : string)
| Warning (s : string)
| Get (url : string) (ps : params)
| Head (url : string)
| Put (url : string) (ps : params) (body : payload)
| Delete (url : string) (ps : params)
| Post (url : string) (ps : params) (body : payload)
| Unlink (p : path)
| Rmtree (package : string)
| Stat (p : path)
| ReadChunk (p : path) (n : Z)
| WriteFile (p : path)
| LfsTrack (pattern : string)
| GitAdd (p : path).

(** [(commit id, author name, author email, commit date)]; the date is a
    broken-down UTC [datetime]. *)
Record datetime : Type := {
  year : Z; month : Z; day : Z; hour : Z; minute : Z; second : Z;
  weekday : Z  (* Monday = 0 *)
}.

Record revision : Type := {
  commit_hash : string;
  author : string;
  email : string;
  commit_date : datetime
}.

Record Env : Type := {
  (** GET of a listing followed by [ET.fromstring]; [None]: one of them raises *)
  http_xml : string -> params -> option Xml.element;
  (** body of a GET; [None]: the request raises *)
  http_body : string -> params -> option bytes;
  (** status of a HEAD, PUT, DELETE or POST; [None]: the request raises *)
  http_status : event -> option Z;
  (** [hashlib.md5(b).hexdigest()] *)
  md5_hexdigest : bytes -> string;
  (** [chardet.detect(b)["confidence"]] *)
  chardet_confidence : bytes -> Q;
  (** [ET.parse] of a file of the tree; [None]: it raises *)
  xml_parse : bytes -> option Xml.element;
  (** [str.replace] *)
  str_replace : string -> string -> string -> string;
  (** [fnmatch.fnmatch(name, pattern)] *)
  fnmatch : string -> string -> bool;
  (** [pygit2.Repository(path).head.target] *)
  head_target : string;
  (** [datetime.datetime.now().strftime(...)] *)
  now_text : string;
  (** [git.path], and [git.prefix] relative to it ([""] when they coincide) *)
  git_path : string;
  git_prefix : string
}.

Record World : Type := {
  files : gmap path bytes;        (* regular files of the tree *)
  dirs : gset dir;                (* directories of the tree *)
  index : gset string;            (* storage.index *)
  sync : bool;                    (* StorageOBS.sync *)
  tracked : gset string;          (* StorageLFS.tracked *)
  first_entry : gmap string revision;       (* Git.first_entry *)
  project_name_cache : option pyval;        (* lru_cache of Importer.project_name *)
  changes_cache : gmap string string;       (* lru_cache of Importer.changes_git_entry *)
  log : list event                (* calls issued so far, oldest first *)
}.

Definition set_files (f : gmap path bytes -> gmap path bytes) (w : World) : World :=
  {| files := f (files w); dirs := dirs w; index := index w; sync := sync w;
     tracked := tracked w; first_entry := first_entry w;
     project_name_cache := project_name_cache w;
     changes_cache := changes_cache w; log := log w |}.

Definition set_dirs (f : gset dir -> gset dir) (w : World) : World :=
  {| files := files w; dirs := f (dirs w); index := index w; sync := sync w;
     tracked := tracked w; first_entry := first_entry w;
     project_name_cache := project_name_cache w;
     changes_cache := changes_cache w; log := log w |}.

Definition set_index (f : gset string -> gset string) (w : World) : World :=
  {| files := files w; dirs := dirs w; index := f (index w); sync := sync w;
     tracked := tracked w; first_entry := first_entry w;
     project_name_cache := project_name_cache w;
     changes_cache := changes_cache w; log := log w |}.

Definition set_sync (b : bool) (w : World) : World :=
  {| files := files w; dirs := dirs w; index := index w; sync := b;
     tracked := tracked w; first_entry := first_entry w;
     project_name_cache := project_name_cache w;
     changes_cache := changes_cache w; log := log w |}.

Definition set_tracked (f : gset string -> gset string) (w : World) : World :=
  {| files := files w; dirs := dirs w; index := index w; sync := sync w;
     tracked := f (tracked w); first_entry := first_entry w;
     project_name_cache := project_name_cache w;
     changes_cache := changes_cache w; log := log w |}.

Definition set_project_name_cache (v : option pyval) (w : World) : World :=
  {| files := files w; dirs := dirs w; index := index w; sync := sync w;
     tracked := tracked w; first_entry := first_entry w;
     project_name_cache := v;
     changes_cache := changes_cache w; log := log w |}.

Definition set_changes_cache (f : gmap string string -> gmap string string)
    (w : World) : World :=
  {| files := files w; dirs := dirs w; index := index w; sync := sync w;
     tracked := tracked w; first_entry := first_entry w;
     project_name_cache := project_name_cache w;
     changes_cache := f (changes_cache w); log := log w |}.

Definition set_first_entry (f : gmap string revision -> gmap string revision)
    (w : World) : World :=
  {| files := files w; dirs := dirs w; index := index w; sync := sync w;
     tracked := tracked w; first_entry := f (first_entry w);
     project_name_cache := project_name_cache w;
     changes_cache := changes_cache w; log := log w |}.

Definition set_log (f : list event -> list event) (w : World) : World :=
  {| files := files w; dirs := dirs w; index := index w; sync := sync w;
     tracked := tracked w; first_entry := first_entry w;
     project_name_cache := project_name_cache w;
     changes_cache := changes_cache w; log := f (log w) |}.

Definition M (A : Type) : Type := Env -> World -> result A * World.

Global Instance M_ret : MRet M := fun A a _ w => (Ok a, w).

Global Instance M_bind : MBind M := fun A B f m e w =>
  match m e w with
  | (Ok a, w') => f a e w'
  | (Raise x, w') => (Raise x, w')
  end.

Definition raise {A} (x : exn) : M A := fun _ w => (Raise x, w).
Definition ask : M Env := fun e w => (Ok e, w).
Definition get_world : M World := fun _ w => (Ok w, w).
Definition modify (f : World -> World) : M unit := fun _ w => (Ok (), f w).
Definition emit (ev : event) : M unit := modify (set_log (fun l => l ++ [ev])).

(** [try: r = Ok(m) except Exception as x: r = Raise(x)] *)
Definition attempt {A} (m : M A) : M (result A) := fun e w =>
  let '(r, w') := m e w in (Ok r, w').

(** [for x in l: f(x)] *)
Fixpoint for_each {A} (f : A -> M unit) (l : list A) : M unit :=
  match l with
  | [] => mret ()
  | x :: l' => f x ≫= fun _ => for_each f l'
  end.

(** [await asyncio.gather] of a sequence of awaitables (without [return_exceptions]): every
    awaitable is run; the first exception raised, if any, is what the
    awaiting coroutine sees. *)
Fixpoint gather (tasks : list (M unit)) : M unit :=
  match tasks with
  | [] => mret ()
  | t :: ts =>
      r ← attempt t;
      r' ← attempt (gather ts);
      match r, r' with
      | Raise x, _ => raise x
      | Ok _, Raise x => raise x
      | Ok _, Ok _ => mret ()
      end
  end.

(** [await asyncio.gather] where the results of the awaitables are used: the
    list of the results, in the order of the awaitables. *)
Fixpoint gather_results {A} (tasks : list (M A)) : M (list A) :=
  match tasks with
  | [] => mret []
  | t :: ts =>
      r ← attempt t;
      r' ← attempt (gather_results ts);
      match r, r' with
      | Raise x, _ => raise x
      | Ok _, Raise x => raise x
      | Ok a, Ok l => mret (a :: l)
      end
  end.

Definition run {A} (m : M A) (e : Env) (w : World) : result A * World := m e w.

(** ** Git: the working tree ([git.py]) *)

Module Git.

(** Directory that holds a path. *)
Definition parent (p : path) : option dir :=
  match p with
  | ProjMeta _ => Some DProjObs
  | PkgFile pk _ => Some (DPkg pk)
  | PkgMeta pk _ => Some (DPkgObs pk)
  | GitAttributes => None
  end.

(** [str(p.relative_to(git.path))] *)
Definition relative (prefix : string) (p : path) : string :=
  let below := if String.eqb prefix "" then "" else prefix +:+ "/" in
  match p with
  | ProjMeta n => ".obs/" +:+ n
  | PkgFile pk f => below +:+ pk +:+ "/" +:+ f
  | PkgMeta pk n => below +:+ pk +:+ "/.obs/" +:+ n
  | GitAttributes => ".gitattributes"
  end.

(** [str(p)] *)
Definition path_text (p : path) : M string :=
  e ← ask; mret (git_path e +:+ "/" +:+ relative (git_prefix e) p).

(** [path.open("rb").read()] *)
Definition read_file (p : path) : M bytes :=
  w ← get_world;
  match files w !! p with
  | Some b => mret b
  | None => raise (FileNotFoundError p)
  end.

(** [path.open("wb").write(b)] *)
Definition write_file (p : path) (b : bytes) : M unit :=
  w ← get_world;
  if match parent p with
     | Some d => bool_decide (d ∈ dirs w)
     | None => true
     end
  then emit (WriteFile p) ≫= fun _ => modify (set_files (insert p b))
  else raise (FileNotFoundError p).

(** [path.mkdir(exist_ok=True)] *)
Definition mkdir (d : dir) : M unit := modify (set_dirs (fun ds => ds ∪ {[d]})).

(** [path.exists()] *)
Definition exists_file (p : path) : M bool :=
  w ← get_world; mret (bool_decide (is_Some (files w !! p))).

Definition exists_dir (d : dir) : M bool :=
  w ← get_world; mret (bool_decide (d ∈ dirs w)).

(** Files of one package directory. *)
Definition package_files (pk : string) (fs : gmap path bytes) : list (string * bytes) :=
  omap (fun '(p, b) => match p with
                       | PkgFile pk' f => if String.eqb pk' pk then Some (f, b) else None
                       | _ => None
                       end)
       (map_to_list fs).

(** Whether a path lies below [git.prefix / package]. *)
Definition in_package (pk : string) (p : path) : bool :=
  match p with
  | PkgFile pk' _ | PkgMeta pk' _ => String.eqb pk' pk
  | _ => false
  end.

(** [Git.delete(package, filename=None)] *)
Definition delete (package : string) (filename : option string) : M unit :=
  if truthy filename then
    let p := PkgFile package (default "" filename) in
    emit (Unlink p) ;;
    w ← get_world;
    match files w !! p with
    | Some _ => modify (set_files (base.delete p))
    | None => raise (FileNotFoundError p)
    end
  else
    emit (Rmtree package) ;;
    w ← get_world;
    if bool_decide (DPkg package ∈ dirs w) then
      modify (set_files (filter (fun x => in_package package x.1 = false))) ;;
      modify (set_dirs (fun ds => ds ∖ {[DPkg package; DPkgObs package]}))
    else raise (FileNotFoundError (PkgFile package "")).

(** [Git.packages()] *)
Definition packages : M (list string) :=
  w ← get_world;
  mret (omap (fun d => match d with
                       | DPkg pk =>
                           if String.eqb pk ".git" || String.eqb pk ".obs"
                           then None else Some pk
                       | _ => None
                       end)
             (elements (dirs w))).

(** [Git.files_md5(package)] *)
Definition files_md5 (package : string) : M (list (string * string)) :=
  e ← ask;
  w ← get_world;
  if bool_decide (DPkg package ∈ dirs w) then
    mret ((fun '(f, b) => (f, md5_hexdigest e b)) <$> package_files package (files w))
  else raise (FileNotFoundError (PkgFile package "")).

(** The chunks that successive [f.read(size)] return until the first empty
    one.  Every chunk but the last empty one holds at least one byte, so a
    file of [n] bytes is read in at most [n] rounds. *)
Fixpoint read_chunks (rounds size : nat) (rest : bytes) : list bytes :=
  match rounds with
  | O => []
  | S rounds' =>
      match take size rest with
      | [] => []
      | chunk => chunk :: read_chunks rounds' size (drop size rest)
      end
  end.

(** [Git._md5(package, filename)]: the digest is updated chunk by chunk;
    [fed] is what it has been updated with. *)
Definition _md5 (package filename : string) : M string :=
  content ← read_file (PkgFile package filename);
  e ← ask;
  let fed := foldl (fun fed chunk => fed ++ chunk) []
                   (read_chunks (List.length content) (Z.to_nat (1024 * 4)) content) in
  mret (md5_hexdigest e fed).

(** [Git.files_md5(package)], file by file and chunk by chunk. *)
Definition files_md5_by_chunks (package : string) : M (list (string * string)) :=
  w ← get_world;
  if bool_decide (DPkg package ∈ dirs w) then
    let files := fst <$> package_files package (files w) in
    md5s ← gather_results (_md5 package <$> files);
    mret (zip files md5s)
  else raise (FileNotFoundError (PkgFile package "")).

(** [Git.head_hash()] *)
Definition head_hash : M string := e ← ask; mret (head_target e).

(** [Git.last_revision_to(package)] *)
Definition last_revision_to (package : string) : M revision :=
  w ← get_world;
  match first_entry w !! package with
  | Some r => mret r
  | None => raise (KeyError package)
  end.

End Git.

(** ** AsyncOBS: the registry client ([asyncobs.py]) *)

Module AsyncOBS.

Record t : Type := {
  url : string;
  username : string;
  link : string      (* "never", "auto" or "always" *)
}.

(** ["/".join(("source", project, *path))] *)
Definition source_path (project : string) (segments : list string) : string :=
  String.concat "/" ("source" :: project :: segments).

(** A request whose status is read from the world; it raises when the
    world says so. *)
Definition request (ev : event) : M Z :=
  e ← ask;
  emit ev ;;
  match http_status e ev with
  | Some status => mret status
  | None => raise (ClientError "")
  end.

Definition _download (self : t) (url_path : string) (filename_path : path)
    (ps : params) : M unit :=
  e ← ask;
  let u := url self +:+ "/" +:+ url_path in
  emit (Get u ps) ;;
  match http_body e u ps with
  | Some body => Git.write_file filename_path body
  | None => raise (ClientError u)
  end.

Definition download (self : t) (project : string) (segments : list string)
    (filename_path : path) (ps : params) : M unit :=
  _download self (source_path project segments) filename_path ps.

Definition _upload (self : t) (url_path : string) (filename_path : option path)
    (data : option payload) (ps : params) : M unit :=
  let u := url self +:+ "/" +:+ url_path in
  resp ← match filename_path, data with
         | Some p, _ =>
             Git.read_file p ;;
             status ← request (Put u ps (FromFile p));
             mret (Some status)
         | None, Some d =>
             status ← request (Put u ps d);
             mret (Some status)
         | None, None =>
             emit (Warning "Filename nor data provided. Nothing to upload") ;;
             mret None
         end;
  match resp with
  | Some status =>
      if negb (Z.eqb status 200)
      then emit (Warning ("PUT " +:+ pretty status +:+ " on " +:+ url_path))
      else mret ()
  | None => mret ()
  end.

Definition upload (self : t) (project : string) (segments : list string)
    (filename_path : option path) (data : option payload) (ps : params) : M unit :=
  _upload self (source_path project segments) filename_path data ps.

Definition _delete (self : t) (url_path : string) (ps : params) : M unit :=
  request (Delete (url self +:+ "/" +:+ url_path) ps) ;; mret ().

Definition delete (self : t) (project : string) (segments : list string)
    (ps : params) : M unit :=
  _delete self (source_path project segments) ps.

Definition _command (self : t) (url_path cmd : string)
    (filename_path : option path) (data : option payload) (ps : params) : M unit :=
  let ps := ps ++ [("cmd", Some cmd)] in
  let u := url self +:+ "/" +:+ url_path in
  match filename_path, data with
  | Some p, _ => Git.read_file p ;; request (Post u ps (FromFile p)) ;; mret ()
  | None, Some d =>
      if has_data data then request (Post u ps d) ;; mret () else mret ()
  | None, None => mret ()
  end.

Definition command (self : t) (project : string) (segments : list string)
    (cmd : string) (filename_path : option path) (data : option payload)
    (ps : params) : M unit :=
  _command self (source_path project segments) cmd filename_path data ps.

Definition _transfer (self : t) (url_path to_url_path : string) (to_obs : option t)
    (ps : params) : M unit :=
  let to_obs := default self to_obs in
  let u := url self +:+ "/" +:+ url_path in
  request (Get u []) ;;
  request (Put (url to_obs +:+ "/" +:+ to_url_path) ps (Stream u)) ;;
  mret ().

Definition transfer (self : t) (project package filename to_project : string)
    (to_package to_filename : pyval) (to_obs : option t) (ps : params) : M unit :=
  let to_package := if truthy to_package then default "" to_package else package in
  let to_filename := if truthy to_filename then default "" to_filename else filename in
  _transfer self
    ("source/" +:+ project +:+ "/" +:+ package +:+ "/" +:+ filename)
    ("source/" +:+ to_project +:+ "/" +:+ to_package +:+ "/" +:+ to_filename)
    to_obs ps.

Definition _xml (self : t) (url_path : string) (ps : params) : M Xml.element :=
  e ← ask;
  let u := url self +:+ "/" +:+ url_path in
  emit (Get u ps) ;;
  match http_xml e u ps with
  | Some root => mret root
  | None => mret Xml.empty_directory
  end.

(** [AsyncOBS.packages(project)] *)
Definition packages (self : t) (project : string) : M (list pyval) :=
  root ← _xml self ("source/" +:+ project) [];
  mret (Xml.get "name" <$> Xml.findall "entry" root).

(** [[(entry.get("name"), entry.get("md5")) for entry in root.findall(".//entry")]] *)
Definition entries (root : Xml.element) : list (pyval * pyval) :=
  (fun entry => (Xml.get "name" entry, Xml.get "md5" entry)) <$> Xml.findall "entry" root.

(** [project_link and project_link != project] *)
Definition crosses (project_link : pyval) (project : string) : bool :=
  truthy project_link && pyval_neq_str project_link project.

(** [AsyncOBS.files_md5_revision(project, package)] *)
Definition files_md5_revision (self : t) (project package : string)
    : M (list (pyval * pyval) * pyval) :=
  let listing := "/source/" +:+ project +:+ "/" +:+ package in
  root ← _xml self listing [("rev", Some "latest")];
  let revision := Xml.get "rev" root in
  match Xml.find_attr "entry" "name" "_link" root with
  | Some _ =>
      link_doc ← _xml self (listing +:+ "/_link") [("rev", Some "latest")];
      let project_link := Xml.get "project" link_doc in
      if crosses project_link project && String.eqb (link self) "never" then
        emit (Print ("ERROR: Link " +:+ project +:+ "/" +:+ package +:+
                     " pointing outside (" +:+ fmt project_link +:+ ")")) ;;
        mret ([], None)
      else if (crosses project_link project && String.eqb (link self) "auto")
              || String.eqb (link self) "always" then
        match Xml.find "linkinfo" root with
        | Some linkinfo =>
            let revision := Xml.get "xsrcmd5" linkinfo in
            root ← _xml self listing [("rev", revision)];
            mret (entries root, revision)
        | None => raise AttributeError
        end
      else mret (entries root, revision)
  | None => mret (entries root, revision)
  end.

(** [AsyncOBS.exists(project, package=None)] *)
Definition exists_ (self : t) (project : string) (package : pyval) : M bool :=
  let u := if truthy package
           then url self +:+ "/source/" +:+ project +:+ "/" +:+ default "" package
           else url self +:+ "/source/" +:+ project in
  status ← request (Head u);
  mret (negb (Z.eqb status 404)).

(** [AsyncOBS.authorized(project, package=None)] *)
Definition authorized (self : t) (project : string) (package : pyval) : M bool :=
  let u := if truthy package
           then url self +:+ "/source/" +:+ project +:+ "/" +:+ default "" package
           else url self +:+ "/source/" +:+ project in
  status ← request (Head u);
  mret (negb (Z.eqb status 401)).

(** The double quote of the XML attributes. *)
Definition quote : string := String "034" EmptyString.

(** The [_meta] documents that [create] sends. *)
Definition project_meta (self : t) (project : string) (disabled : bool) : string :=
  if negb disabled then
    "<project name=" +:+ quote +:+ project +:+ quote +:+ "><title/><description/>" +:+
    "<person userid=" +:+ quote +:+ username self +:+ quote +:+
    " role=" +:+ quote +:+ "maintainer" +:+ quote +:+ "/>" +:+
    "</project>"
  else
    "<project name=" +:+ quote +:+ project +:+ quote +:+ "><title/><description/>" +:+
    "<person userid=" +:+ quote +:+ username self +:+ quote +:+
    " role=" +:+ quote +:+ "maintainer" +:+ quote +:+ "/>" +:+
    "<build><disable/></build><publish><disable/></publish>" +:+
    "<useforbuild><disable/></useforbuild></project>".

Definition package_meta (project package : string) (disabled : bool) : string :=
  if negb disabled then
    "<package name=" +:+ quote +:+ package +:+ quote +:+
    " project=" +:+ quote +:+ project +:+ quote +:+ "><title/>" +:+
    "<description/></package>"
  else
    "<package name=" +:+ quote +:+ package +:+ quote +:+
    " project=" +:+ quote +:+ project +:+ quote +:+ "><title/>" +:+
    "<description/><build><disable/></build><publish><disable/>" +:+
    "</publish><useforbuild><disable/></useforbuild></package>".

(** [await a and not await b]: [b] is awaited only when [a] holds. *)
Definition and_not (a b : M bool) : M bool :=
  x ← a;
  if (x : bool) then y ← b; mret (negb y) else mret false.

(** [AsyncOBS.create(project, package=None, disabled=False)] *)
Definition create (self : t) (project : string) (package : pyval) (disabled : bool)
    : M unit :=
  missing ← and_not (authorized self project None) (exists_ self project None);
  (if (missing : bool) then
     request (Put (url self +:+ "/source/" +:+ project +:+ "/_meta") []
                  (Data (list_byte_of_string (project_meta self project disabled)))) ;;
     mret ()
   else mret ()) ;;
  if truthy package then
    let package_name := default "" package in
    missing ← and_not (authorized self project package) (exists_ self project package);
    if (missing : bool) then
      request (Put (url self +:+ "/source/" +:+ project +:+ "/" +:+ package_name +:+
                    "/_meta") []
                   (Data (list_byte_of_string (package_meta project package_name disabled)))) ;;
      mret ()
    else mret ()
  else mret ().

End AsyncOBS.

(** ** Builtins of Python used by the sources *)

Module Py.

(** Index of the last ["."] of [s], counted from [i]: [s.rfind(".")]. *)
Fixpoint rfind_dot (s : string) (i : nat) : option nat :=
  match s with
  | EmptyString => None
  | String c s' =>
      match rfind_dot s' (S i) with
      | Some j => Some j
      | None => if Ascii.eqb c "." then Some i else None
      end
  end.

(** [pathlib.PurePath(name).suffix] for a single path component. *)
Definition suffix (name : string) : string :=
  match rfind_dot name 0 with
  | Some i =>
      if (0 <? i)%nat && (i <? String.length name - 1)%nat
      then String.substring i (String.length name - i) name
      else ""
  | None => ""
  end.

(** [s.endswith(t)] *)
Definition endswith (s t : string) : bool :=
  (String.length t <=? String.length s)%nat &&
  String.eqb (String.substring (String.length s - String.length t) (String.length t) s) t.

Definition byte_val (b : byte) : Z := Z.of_N (Byte.to_N b).

Definition continuation (b : byte) : bool :=
  (128 <=? byte_val b) && (byte_val b <=? 191).

Definition between (lo hi : Z) (b : byte) : bool :=
  (lo <=? byte_val b) && (byte_val b <=? hi).

(** [b.decode("utf-8")] does not raise [UnicodeDecodeError]: strict UTF-8,
    without overlong forms, surrogates or code points above U+10FFFF. *)
Fixpoint utf8_decodes (l : bytes) : bool :=
  match l with
  | [] => true
  | b :: r =>
      if byte_val b <? 128 then utf8_decodes r
      else
        match r with
        | [] => false
        | c1 :: r1 =>
            if between 194 223 b then continuation c1 && utf8_decodes r1
            else
              match r1 with
              | [] => false
              | c2 :: r2 =>
                  if between 224 239 b then
                    (if byte_val b =? 224 then between 160 191 c1
                     else if byte_val b =? 237 then between 128 159 c1
                     else continuation c1)
                    && continuation c2 && utf8_decodes r2
                  else
                    match r2 with
                    | [] => false
                    | c3 :: r3 =>
                        if between 240 244 b then
                          (if byte_val b =? 240 then between 144 191 c1
                           else if byte_val b =? 244 then between 128 143 c1
                           else continuation c1)
                          && continuation c2 && continuation c3 && utf8_decodes r3
                        else false
                    end
              end
        end
  end%Z.

(** Two decimal digits, as [%02d]. *)
Definition pad2 (n : Z) : string :=
  if (0 <=? n) && (n <? 10) then "0" +:+ pretty n else pretty n.

(** Characters on which [str.split()] splits (the ASCII ones). *)
Definition is_space (c : ascii) : bool :=
  let n := nat_of_ascii c in
  ((9 <=? n) && (n <=? 13) || (28 <=? n) && (n <=? 32))%nat.

(** [s.split()]: the maximal runs of non-blank characters.  [cur] is the
    run being read, reversed. *)
Fixpoint split_ws (s : string) (cur : list ascii) : list string :=
  let flush := match cur with
               | [] => []
               | _ => [string_of_list_ascii (rev cur)]
               end in
  match s with
  | EmptyString => flush
  | String c s' =>
      if is_space c then flush ++ split_ws s' [] else split_ws s' (c :: cur)
  end.

Definition split (s : string) : list string := split_ws s [].

(** [f.readlines()] of a text file: lines end at ["\n"], ["\r"] or
    ["\r\n"]; the terminator is dropped here, [split] ignores it anyway. *)
Fixpoint lines_from (s : string) (cur : list ascii) : list string :=
  match s with
  | EmptyString =>
      match cur with
      | [] => []
      | _ => [string_of_list_ascii (rev cur)]
      end
  | String c s' =>
      if Ascii.eqb c "010" then string_of_list_ascii (rev cur) :: lines_from s' []
      else if Ascii.eqb c "013" then
        match s' with
        | String c' s'' =>
            if Ascii.eqb c' "010"
            then string_of_list_ascii (rev cur) :: lines_from s'' []
            else string_of_list_ascii (rev cur) :: lines_from s' []
        | EmptyString => [string_of_list_ascii (rev cur)]
        end
      else lines_from s' (c :: cur)
  end.

Definition readlines (s : string) : list string := lines_from s [].

(** Order of tuples of two [str]: lexicographic, code point by code point. *)
Definition pair_le (a b : string * string) : Prop :=
  match String.compare a.1 b.1 with
  | Lt => True
  | Eq => match String.compare a.2 b.2 with Gt => False | _ => True end
  | Gt => False
  end.

Global Instance pair_le_dec : RelDecision pair_le.
Proof.
  intros a b. unfold pair_le.
  destruct (String.compare a.1 b.1); [destruct (String.compare a.2 b.2)| |];
    first [left; exact I | right; intros []].
Defined.

(** [sorted(l)] for a list of pairs of [str]. *)
Definition sorted (l : list (string * string)) : list (string * string) :=
  merge_sort pair_le l.

(** [datetime.datetime.utcfromtimestamp(t)]: proleptic Gregorian calendar. *)
Definition civil_from_days (z : Z) : Z * Z * Z :=
  let z := z + 719468 in
  let era := z / 146097 in
  let doe := z - era * 146097 in
  let yoe := (doe - doe / 1460 + doe / 36524 - doe / 146096) / 365 in
  let y := yoe + era * 400 in
  let doy := doe - (365 * yoe + yoe / 4 - yoe / 100) in
  let mp := (5 * doy + 2) / 153 in
  let d := doy - (153 * mp + 2) / 5 + 1 in
  let m := if mp <? 10 then mp + 3 else mp - 9 in
  (if m <=? 2 then y + 1 else y, m, d).

Definition utcfromtimestamp (t : Z) : datetime :=
  let days := t / 86400 in
  let secs := t mod 86400 in
  let '(y, m, d) := civil_from_days days in
  {| year := y; month := m; day := d;
     hour := secs / 3600; minute := (secs mod 3600) / 60; second := secs mod 60;
     weekday := (days + 3) mod 7 |}.

Definition day_abbr (wd : Z) : string :=
  nth (Z.to_nat wd) ["Mon"; "Tue"; "Wed"; "Thu"; "Fri"; "Sat"; "Sun"] "".

Definition month_abbr (m : Z) : string :=
  nth (Z.to_nat (m - 1))
      ["Jan"; "Feb"; "Mar"; "Apr"; "May"; "Jun";
       "Jul"; "Aug"; "Sep"; "Oct"; "Nov"; "Dec"] "".

(** [d.strftime("%a %b %d %H:%M:%S UTC %Y")] in the C locale. *)
Definition strftime_changes (d : datetime) : string :=
  day_abbr (weekday d) +:+ " " +:+ month_abbr (month d) +:+ " " +:+
  pad2 (day d) +:+ " " +:+ pad2 (hour d) +:+ ":" +:+ pad2 (minute d) +:+ ":" +:+
  pad2 (second d) +:+ " UTC " +:+ pretty (year d).

(** [sorted(l, key=key)] for a Boolean key ([False < True]).  The sort of
    Python is stable: items with equal keys keep their order. *)
Fixpoint insert_by_key {A} (key : A -> bool) (x : A) (l : list A) : list A :=
  match l with
  | [] => [x]
  | y :: l' =>
      if negb (key y) && key x then y :: insert_by_key key x l' else x :: l
  end.

Definition sorted_by_key {A} (key : A -> bool) (l : list A) : list A :=
  foldr (insert_by_key key) [] l.

(** [range(0, stop, step)] *)
Definition range_step (stop step : nat) : list nat :=
  (fun k => k * step)%nat <$> seq 0 ((stop + step - 1) / step)%nat.

(** [[l[i : i + size] for i in range(0, len(l), size)]] *)
Definition slices {A} (size : nat) (l : list A) : list (list A) :=
  (fun i => take size (drop i l)) <$> range_step (List.length l) size.

(** [itertools.combinations(l, 2)] *)
Fixpoint combinations2 {A} (l : list A) : list (A * A) :=
  match l with
  | [] => []
  | x :: l' => (pair x <$> l') ++ combinations2 l'
  end.

(** Components of a relative POSIX path, [pathlib.PurePosixPath(s).parts]:
    the text is cut at every ["/"]; empty components and ["."] are dropped. *)
Fixpoint split_slash (s : string) (cur : list ascii) : list string :=
  match s with
  | EmptyString => [string_of_list_ascii (rev cur)]
  | String c s' =>
      if Ascii.eqb c "/" then string_of_list_ascii (rev cur) :: split_slash s' []
      else split_slash s' (c :: cur)
  end.

Definition parts (s : string) : list string :=
  List.filter (fun c => negb (String.eqb c "" || String.eqb c "."))
              (split_slash s []).

(** [p.parents] of a relative path given by its components: every proper
    prefix, down to the empty one (the path ["."]). *)
Definition parents (cs : list string) : list (list string) :=
  (fun k => take k cs) <$> rev (seq 0 (List.length cs)).

End Py.

(** Entries of a listing as pairs of [str].  The sources use both
    attributes as path components and as members of the index; an entry
    that lacks one of them makes that use raise [TypeError].  The model
    raises as soon as the listing is taken over. *)
Fixpoint str_pairs (l : list (pyval * pyval)) : M (list (string * string)) :=
  match l with
  | [] => mret []
  | (Some a, Some b) :: l' => r ← str_pairs l'; mret ((a, b) :: r)
  | _ => raise TypeError
  end.

Fixpoint strs (l : list pyval) : M (list string) :=
  match l with
  | [] => mret []
  | Some a :: l' => r ← strs l'; mret (a :: r)
  | None :: _ => raise TypeError
  end.

(** ** Git: the history of the repository ([git.py]) *)

Module GitHistory.

(** A commit as [repo.walk] hands it over.  [diff] holds
    [patch.delta.new_file.path] for every patch of the diff that [_patches]
    takes for the commit: against the tree of its only parent, or against
    the empty tree when it has no parent. *)
Record commit : Type := {
  oid : string;
  author_name : string;
  author_email : string;
  commit_time : Z;
  parents : nat;
  diff : list string
}.

(** [Git._patches()] over the commits that [repo.walk] enumerates from the
    head: commits with more than one parent yield nothing. *)
Definition _patches (walk : list commit) : list (commit * string) :=
  c ← walk;
  if (parents c =? 1)%nat then pair c <$> diff c
  else if (parents c =? 0)%nat then pair c <$> diff c
  else [].

(** The tuple stored in [first_entry]. *)
Definition entry_of (c : commit) : revision :=
  {| commit_hash := oid c; author := author_name c; email := author_email c;
     commit_date := Py.utcfromtimestamp (commit_time c) |}.

(** [(self.prefix / package).relative_to(self.path)], as components. *)
Definition package_path (prefix package : string) : list string :=
  Py.parts prefix ++ [package].

(** [packages_path & set(pathlib.Path(new_file).parents)]; the packages
    stand for their paths. *)
Definition touched (prefix : string) (packages : list string) (new_file : string)
    : list string :=
  List.filter (fun package =>
                 bool_decide (package_path prefix package ∈ Py.parents (Py.parts new_file)))
              packages.

(** [dict.setdefault(key, value)] *)
Definition setdefault `{Countable K} {V} (key : K) (value : V) (m : gmap K V)
    : gmap K V :=
  match m !! key with
  | Some _ => m
  | None => <[key := value]> m
  end.

(** [Git.analyze_history()] *)
Definition analyze_history (walk : list commit) : M unit :=
  e ← ask;
  packages ← Git.packages;
  for_each (fun '(c, new_file) =>
              let packages := touched (git_prefix e) packages new_file in
              if (List.length packages <=? 1)%nat then
                match packages with
                | package :: _ =>
                    modify (set_first_entry (setdefault package (entry_of c)))
                | [] => mret ()
                end
              else raise (AssertionError ""))
           (_patches walk).

End GitHistory.

(** ** StorageOBS: file storage in a registry package ([storageobs.py]) *)

Module StorageOBS.

Record t : Type := {
  s_obs : AsyncOBS.t;
  s_project : string;
  s_package : string
}.

Definition _update_index (self : t) : M unit :=
  '(files_md5, _) ← AsyncOBS.files_md5_revision (s_obs self) (s_project self)
                       (s_package self);
  files_md5 ← str_pairs files_md5;
  for_each (fun '(filename, md5) =>
              if String.eqb filename md5
              then modify (set_index (fun i => i ∪ {[filename]}))
              else raise (AssertionError
                            ("Storage " +:+ s_project self +:+ "/" +:+
                             s_package self +:+ " not valid")))
           files_md5.

(** [await StorageOBS(obs, project, package, git)] *)
Definition init (self : t) : M unit :=
  modify (set_index (fun _ => ∅)) ;;
  modify (set_sync true) ;;
  _update_index self.

Definition transfer (self : t) (md5 project package filename : string)
    (obs : AsyncOBS.t) (ps : params) : M unit :=
  w ← get_world;
  if bool_decide (md5 ∈ index w) then
    emit (Print ("(StorageOBS) transfering " +:+ project +:+ "/" +:+ package +:+
                 "/" +:+ filename)) ;;
    AsyncOBS.transfer (s_obs self) (s_project self) (s_package self) md5
      project (Some package) (Some filename) (Some obs) ps ;;
    emit (Print ("(StorageOBS) transferred " +:+ project +:+ "/" +:+ package +:+
                 "/" +:+ filename))
  else
    raise (AssertionError ("File " +:+ package +:+ "/" +:+ filename +:+ " (" +:+
                           md5 +:+ ") missing from storage")).

Definition _store (self : t) (filename_path : path) (md5 : string) : M unit :=
  modify (set_index (fun i => i ∪ {[md5]})) ;;
  modify (set_sync false) ;;
  text ← Git.path_text filename_path;
  emit (Print ("(StorageOBS) storing " +:+ text)) ;;
  AsyncOBS.upload (s_obs self) (s_project self) [s_package self; md5]
    (Some filename_path) None [("rev", Some "repository")] ;;
  emit (Print ("(StorageOBS) stored " +:+ text)).

(** One line of the pointer manifest [.obs/files]. *)
Definition pointer_line (entry : string * string) : string :=
  entry.1 +:+ "		" +:+ entry.2 +:+ "
".

Definition pointer_text (files_md5 : list (string * string)) : string :=
  String.concat "" (pointer_line <$> Py.sorted files_md5).

(** [StorageOBS.store_files(package, files_md5)], once the tree [w] has been
    looked at. *)
Definition store_files_body (s : t) (package : string)
    (files_md5 : list (string * string)) (w : World) : M unit :=
  let files_md5_exists :=
    List.filter (fun '(filename, _) =>
                   bool_decide (is_Some (files w !! PkgFile package filename)))
                files_md5 in
  gather ((fun '(filename, md5) => _store s (PkgFile package filename) md5)
            <$> files_md5_exists) ;;
  gather ((fun '(filename, _) => Git.delete package (Some filename))
            <$> files_md5_exists) ;;
  Git.write_file (PkgMeta package "files")
    (list_byte_of_string (pointer_text files_md5)).

Definition store_files (self : t) (package : string)
    (files_md5 : list (string * string)) : M unit :=
  w ← get_world;
  store_files_body self package files_md5 w.

Definition directory_of_index (i : gset string) : Xml.element :=
  Xml.Element "directory" []
    ((fun md5 => Xml.Element "entry" [("name", md5); ("md5", md5)] [])
       <$> elements i).

Definition commit (self : t) : M unit :=
  w ← get_world;
  if sync w then mret ()
  else
    e ← ask;
    AsyncOBS.command (s_obs self) (s_project self) [s_package self]
      "commitfilelist" None (Some (Document (directory_of_index (index w))))
      [("user", Some (AsyncOBS.username (s_obs self)));
       ("comment", Some ("Storage syncronization " +:+ now_text e))] ;;
    modify (set_sync true).

End StorageOBS.

(** ** StorageLFS: file storage in git LFS ([storagelfs.py]) *)

Module StorageLFS.

(** [StorageLFS(git)]: the index stays empty; [tracked] is read from the
    output of [git lfs track]. *)
Definition init (patterns : list string) : M unit :=
  modify (set_index (fun _ => ∅)) ;;
  modify (set_tracked (fun _ => list_to_set patterns)).

Definition transfer (md5 project package filename : string) (obs : AsyncOBS.t)
    : M unit :=
  mret ().

Definition _tracked (filename : string) : M bool :=
  e ← ask;
  w ← get_world;
  mret (existsb (fnmatch e filename) (elements (tracked w))).

(** [StorageLFS.overlaps()] *)
Definition overlaps : M (list (string * string)) :=
  e ← ask;
  w ← get_world;
  mret (List.filter (fun '(a, b) => fnmatch e a b)
                    (Py.combinations2 (elements (tracked w)))).

Definition commit : M unit := emit (GitAdd GitAttributes).

(** [filename_path] is already relative to [git.path] (or a bare pattern). *)
Definition _store (filename_path : string) : M unit :=
  emit (LfsTrack filename_path) ;;
  modify (set_tracked (fun t => t ∪ {[filename_path]})) ;;
  commit.

Definition store_files (package : string) (files_md5 : list (string * string))
    : M unit :=
  e ← ask;
  for_each (fun '(filename, _) =>
              t ← _tracked filename;
              if negb t
              then _store (Git.relative (git_prefix e) (PkgFile package filename))
              else mret ())
           files_md5.

End StorageLFS.

(** The storage handed to the exporter and the importer. *)
Inductive storage : Type :=
| OBS (s : StorageOBS.t)
| LFS.

Definition storage_store_files (st : storage) (package : string)
    (files_md5 : list (string * string)) : M unit :=
  match st with
  | OBS s => StorageOBS.store_files s package files_md5
  | LFS => StorageLFS.store_files package files_md5
  end.

Definition storage_commit (st : storage) : M unit :=
  match st with
  | OBS s => StorageOBS.commit s
  | LFS => StorageLFS.commit
  end.

(** ** Exporter: from the registry to git ([exporter.py]) *)

Module Exporter.

Definition BINARY : list string :=
  [".xz"; ".gz"; ".bz2"; ".zip"; ".gem"; ".tgz"; ".png"; ".pdf"; ".jar";
   ".oxt"; ".whl"; ".rpm"].

Definition NON_BINARY_EXCEPTIONS : list string := [".obscpio"].

Definition NON_BINARY : list string :=
  [".changes"; ".spec"; ".patch"; ".diff"; ".conf"; ".yml"; ".keyring";
   ".sig"; ".sh"; ".dif"; ".txt"; ".service"; ".asc"; ".cabal"; ".desktop";
   ".xml"; ".pom"; ".SUSE"; ".in"; ".obsinfo"; ".1"; ".init"; ".kiwi";
   ".rpmlintrc"; ".rules"; ".py"; ".sysconfig"; ".logrotate"; ".pl"; ".dsc";
   ".c"; ".install"; ".8"; ".md"; ".html"; ".script"; ".xml"; ".test";
   ".cfg"; ".el"; ".pamd"; ".sign"; ".macros"].

Definition mem (s : string) (l : list string) : bool := existsb (String.eqb s) l.

Record t : Type := {
  obs : AsyncOBS.t;
  store : storage;
  skip_project_meta : bool;
  skip_all_project_meta : bool;
  skip_all_package_meta : bool
}.

(** Last component of a path. *)
Definition name (p : path) : string :=
  match p with
  | ProjMeta n | PkgMeta _ n => n
  | PkgFile _ f => f
  | GitAttributes => ".gitattributes"
  end.

(** The double [0.8], exactly. *)
Definition confidence_threshold : Q := 3602879701896397 # 4503599627370496.

Definition Qltb (a b : Q) : bool :=
  match Qcompare a b with Lt => true | _ => false end.

(** [Exporter.is_binary(filename)] *)
Definition is_binary (filename : path) : M bool :=
  let suffix := Py.suffix (name filename) in
  if mem suffix BINARY || mem suffix NON_BINARY_EXCEPTIONS then mret true
  else if mem suffix NON_BINARY then mret false
  else
    emit (Stat filename) ;;
    content ← Git.read_file filename;
    if Z.of_nat (List.length content) <? 5 * 1024 then mret false
    else
      emit (ReadChunk filename (4 * 1024)) ;;
      let chunk := take (Z.to_nat (4 * 1024)) content in
      if Py.utf8_decodes chunk then mret false
      else
        e ← ask;
        mret (Qltb (chardet_confidence e chunk) confidence_threshold).

(** [files_download] of [Exporter.package] *)
Definition files_download (files_md5_obs files_md5_git : gset (string * string))
    (index : gset string) : gset string :=
  set_map fst (filter (fun entry => entry.2 ∉ index) (files_md5_obs ∖ files_md5_git)).

(** [{filename for filename, _ in files_md5}] *)
Definition filenames (files_md5 : gset (string * string)) : gset string :=
  set_map fst files_md5.

(** [files_delete] of [Exporter.package] *)
Definition files_delete (files_md5_obs files_md5_git : gset (string * string))
    : gset string :=
  filenames files_md5_git ∖ filenames files_md5_obs.

(** Filenames whose entry is the same on both sides. *)
Definition files_unchanged (files_md5_obs files_md5_git : gset (string * string))
    : gset string :=
  filenames (files_md5_obs ∩ files_md5_git).

(** Filenames of the registry entries that the tree lacks or holds with
    another hash, and whose hash is in the index of the storage: they are
    not downloaded. *)
Definition files_indexed (files_md5_obs files_md5_git : gset (string * string))
    (index : gset string) : gset string :=
  set_map fst (filter (fun entry => entry.2 ∈ index) (files_md5_obs ∖ files_md5_git)).

(** Within one file set a filename occurs once. *)
Definition unique_names (files_md5 : gset (string * string)) : Prop :=
  forall filename md5 md5',
    (filename, md5) ∈ files_md5 -> (filename, md5') ∈ files_md5 -> md5 = md5'.

(** The sets of [parts] are pairwise disjoint and cover [whole]. *)
Definition partitions (parts : list (gset string)) (whole : gset string) : Prop :=
  ⋃ parts = whole /\
  forall i j a b, parts !! i = Some a -> parts !! j = Some b -> i ≠ j -> a ## b.

Definition project_metadata (self : t) (project : string) : M unit :=
  Git.mkdir DProjObs ;;
  let metadata := ["_project"; "_attribute"; "_config"; "_pattern"] ++
                  (if negb (skip_project_meta self) then ["_meta"] else []) in
  gather ((fun meta => AsyncOBS.download (obs self) project [meta] (ProjMeta meta) [])
            <$> metadata).

Definition package_metadata (self : t) (project package : string) : M unit :=
  Git.mkdir (DPkgObs package) ;;
  let metadata := ["_meta"; "_attribute"; "_history"] in
  gather ((fun meta => AsyncOBS.download (obs self) project [package; meta]
                         (PkgMeta package meta) [])
            <$> metadata).

(** [[x for x in l if keep(x)]] with a test that reads the tree. *)
Fixpoint filter_m {A} (keep : A -> M bool) (l : list A) : M (list A) :=
  match l return M (list A) with
  | [] => mret []
  | x :: l' =>
      k ← keep x;
      r ← filter_m keep l';
      mret (if (k : bool) then x :: r else r)
  end.

(** [Exporter.package(project, package)], the store phase: the files that
    were downloaded and are binary, and the files whose hash the storage
    indexes, are handed to the storage. *)
Definition store_phase (self : t) (package : string)
    (files_md5_obs : gset (string * string)) (files_download : gset string)
    : M unit :=
  files_md5_store ← filter_m (fun '(filename, md5) =>
                                if bool_decide (filename ∈ files_download)
                                then is_binary (PkgFile package filename)
                                else mret false)
                             (elements files_md5_obs);
  w ← get_world;
  let files_md5_obs_store :=
    List.filter (fun '(filename, md5) => bool_decide (md5 ∈ index w))
                (elements files_md5_obs) in
  storage_store_files (store self) package (files_md5_store ++ files_md5_obs_store).

(** [Exporter.package(project, package)], second half: from the two
    listings to the end. *)
Definition synchronise (self : t) (project package : string)
    (files_md5_obs : gset (string * string)) (revision : pyval)
    (files_md5_git : gset (string * string)) : M unit :=
  w ← get_world;
  let files_download := files_download files_md5_obs files_md5_git (index w) in
  let files_delete := files_delete files_md5_obs files_md5_git in
  gather (((fun filename =>
              AsyncOBS.download (obs self) project [package; filename]
                (PkgFile package filename) [("rev", revision)])
             <$> elements files_download) ++
          ((fun filename => Git.delete package (Some filename))
             <$> elements files_delete)) ;;
  store_phase self package files_md5_obs files_download.

(** [Exporter.package(project, package)] *)
Definition package (self : t) (project package : string) : M unit :=
  Git.mkdir (DPkg package) ;;
  emit (Print (project +:+ "/" +:+ package +:+ " ...")) ;;
  has_meta ← Git.exists_dir (DPkgObs package);
  (if negb (has_meta && skip_all_package_meta self)
   then package_metadata self project package
   else mret ()) ;;
  '(files_md5_obs, revision) ← AsyncOBS.files_md5_revision (obs self) project package;
  files_md5_obs ← str_pairs files_md5_obs;
  files_md5_git ← Git.files_md5 package;
  synchronise self project package (list_to_set files_md5_obs) revision
    (list_to_set files_md5_git).

(** [Exporter.project(project)] *)
Definition project (self : t) (project : string) : M unit :=
  packages_obs ← AsyncOBS.packages (obs self) project;
  packages_obs ← strs packages_obs;
  let packages_obs : gset string := list_to_set packages_obs in
  packages_git ← Git.packages;
  let packages_git : gset string := list_to_set packages_git in
  let packages_delete := packages_git ∖ packages_obs in
  has_meta ← Git.exists_dir DProjObs;
  (if negb (has_meta && skip_all_project_meta self)
   then project_metadata self project
   else mret ()) ;;
  gather (((fun pk => package self project pk) <$> elements packages_obs) ++
          ((fun pk => Git.delete pk None) <$> elements packages_delete)) ;;
  storage_commit (store self).

End Exporter.

(** ** StorageLFS: enabling the extension ([storagelfs.py]) *)

Module LfsInstall.

(** [Exporter.BINARY | Exporter.NON_BINARY_EXCEPTIONS] *)
Definition default_extensions : gset string :=
  list_to_set Exporter.BINARY ∪ list_to_set Exporter.NON_BINARY_EXCEPTIONS.

(** [StorageLFS.is_installed()]; [returncode] is the exit status of
    [git lfs install].  A pattern such as ["*.gz"] is not below [git.path]:
    [relative_to] raises [ValueError] and the pattern is tracked as it is. *)
Definition is_installed (returncode : Z) : M bool :=
  let is_installed := Z.eqb returncode 0 in
  (if is_installed then
     for_each (fun binary => StorageLFS._store ("*" +:+ binary))
              (elements default_extensions)
   else mret ()) ;;
  mret is_installed.

End LfsInstall.

(** ** Importer: from git to the registry ([importer.py]) *)

Module Importer.

Record t : Type := {
  obs : AsyncOBS.t;
  store : storage;
  skip_project_meta : bool;
  skip_all_project_meta : bool;
  skip_all_package_meta : bool
}.

(** [Importer.project_name()], memoised by [functools.lru_cache]. *)
Definition project_name : M pyval :=
  w ← get_world;
  match project_name_cache w with
  | Some v => mret v
  | None =>
      content ← Git.read_file (ProjMeta "_meta");
      e ← ask;
      match xml_parse e content with
      | Some root =>
          let v := Xml.get "name" root in
          modify (set_project_name_cache (Some v)) ;;
          mret v
      | None => raise ParseError
      end
  end.

(** [Importer.replace_project(filename_path, project, project_name=None)] *)
Definition replace_project (filename_path : path) (project : string)
    (project_name_arg : pyval) : M string :=
  name ← (if truthy project_name_arg then mret project_name_arg else project_name);
  content ← Git.read_file filename_path;
  match name with
  | Some old =>
      e ← ask;
      mret (str_replace e (string_of_list_byte content) old project)
  | None => raise TypeError
  end.

(** ["-" * 67] *)
Definition separator : string := String.concat "" (repeat "-" 67).

(** The changelog entry built from a revision record. *)
Definition changes_entry (r : revision) : string :=
  let entry := separator in
  let commit_date := Py.strftime_changes (commit_date r) in
  let entry := entry +:+ nl +:+ commit_date +:+ " - " +:+ author r +:+
               " <" +:+ email r +:+ ">" in
  entry +:+ nl +:+ nl +:+ "- Last git synchronization: " +:+ commit_hash r +:+
  nl +:+ nl.

(** [Importer.changes_git_entry(package)], memoised by [functools.lru_cache]. *)
Definition changes_git_entry (package : string) : M string :=
  w ← get_world;
  match changes_cache w !! package with
  | Some entry => mret entry
  | None =>
      r ← Git.last_revision_to package;
      let entry := changes_entry r in
      modify (set_changes_cache (insert package entry)) ;;
      mret entry
  end.

(** [Importer.prepend_changes(filename_path, package)] *)
Definition prepend_changes (filename_path : path) (package : string) : M bytes :=
  content ← Git.read_file filename_path;
  entry ← changes_git_entry package;
  mret (list_byte_of_string entry ++ content).

(** [[f(x) for x in l]] with an [f] that reads the tree. *)
Fixpoint map_m {A B} (f : A -> M B) (l : list A) : M (list B) :=
  match l return M (list B) with
  | [] => mret []
  | x :: l' =>
      y ← f x;
      r ← map_m f l';
      mret (y :: r)
  end.

(** [Importer.project_metadata(project)] *)
Definition project_metadata (self : t) (project : string) : M unit :=
  let metadata := ["_attribute"; "_config"; "_pattern"] ++
                  (if negb (skip_project_meta self) then ["_meta"] else []) in
  uploads ← map_m (fun meta =>
                     data ← replace_project (ProjMeta meta) project None;
                     mret (AsyncOBS.upload (obs self) project [meta] None
                             (Some (Data (list_byte_of_string data))) []))
                  metadata;
  gather uploads.

(** [Importer._git_files_md5(package)] *)
Definition _git_files_md5 (package : string) : M (list (string * string)) :=
  files_md5 ← Git.files_md5 package;
  map_m (fun '(filename, md5) =>
           if String.eqb (Py.suffix filename) ".changes" then
             content ← prepend_changes (PkgFile package filename) package;
             e ← ask;
             mret (filename, md5_hexdigest e content)
           else mret (filename, md5))
        files_md5.

(** [Importer.package_metadata(project, package)] *)
Definition package_metadata (self : t) (project package : string) : M unit :=
  let metadata := ["_meta"] in
  name ← project_name;
  content ← Git.read_file (PkgMeta package "_meta");
  e ← ask;
  match xml_parse e content with
  | None => raise ParseError
  | Some root =>
      let package_project_name := Xml.get "project" root in
      (if bool_decide (name = package_project_name) then mret ()
       else emit (Warning ("Please, edit the metadata for " +:+ package))) ;;
      uploads ← map_m (fun meta =>
                         data ← replace_project (PkgMeta package meta) project
                                  package_project_name;
                         mret (AsyncOBS.upload (obs self) project [package; meta] None
                                 (Some (Data (list_byte_of_string data))) []))
                      metadata;
      gather uploads
  end.

(** The pointer manifest [.obs/files] as [{tuple(line.split()) for line in
    f.readlines()}]; every tuple is later unpacked as a pair, which raises
    [ValueError] for any other length. *)
Fixpoint pairs_of_tuples (l : list (list string)) : M (list (string * string)) :=
  match l return M (list (string * string)) with
  | [] => mret []
  | [a; b] :: l' => r ← pairs_of_tuples l'; mret ((a, b) :: r)
  | _ => raise ValueError
  end.

Definition read_pointer_manifest (package : string) : M (list (string * string)) :=
  present ← Git.exists_file (PkgMeta package "files");
  if (present : bool) then
    content ← Git.read_file (PkgMeta package "files");
    pairs_of_tuples (Py.split <$> Py.readlines (string_of_list_byte content))
  else mret [].

(** The three sets computed by [Importer.package]. *)
Definition files_md5_upload (files_md5_obs files_md5_git : gset (string * string))
    : gset (string * string) :=
  files_md5_git ∖ files_md5_obs.

Definition files_md5_transfer (files_md5_obs files_md5_git_store : gset (string * string))
    : gset (string * string) :=
  files_md5_git_store ∖ files_md5_obs.

Definition files_delete (files_md5_obs files_md5_git files_md5_git_store
                         : gset (string * string)) : gset string :=
  (Exporter.filenames files_md5_obs ∖ Exporter.filenames files_md5_git)
    ∖ Exporter.filenames files_md5_git_store.

(** Truth value of a set: it is not empty. *)
Definition nonempty `{Countable A} (s : gset A) : bool :=
  negb (bool_decide (elements s = [])).

(** The directory document of the commit. *)
Definition directory_of (manifest : gset (string * string)) : Xml.element :=
  Xml.Element "directory" []
    ((fun '(filename, md5) =>
        Xml.Element "entry" [("name", filename); ("md5", md5)] [])
       <$> elements manifest).

(** [Importer.package(project, package)], second half: from the three
    listings to the end. *)
Definition synchronise (self : t) (project package : string)
    (files_md5_obs files_md5_git files_md5_git_store : gset (string * string))
    : M unit :=
  let files_md5_upload := files_md5_upload files_md5_obs files_md5_git in
  let files_md5_transfer := files_md5_transfer files_md5_obs files_md5_git_store in
  let files_delete := files_delete files_md5_obs files_md5_git files_md5_git_store in
  (* the arguments of gather are built before any of them runs *)
  let plain := List.filter (fun '(filename, _) => negb (Py.endswith filename ".changes"))
                           (elements files_md5_upload) in
  let changes := List.filter (fun '(filename, _) => Py.endswith filename ".changes")
                             (elements files_md5_upload) in
  changes_uploads ←
    map_m (fun '(filename, _) =>
             data ← prepend_changes (PkgFile package filename) package;
             mret (AsyncOBS.upload (obs self) project [package; filename] None
                     (Some (Data data)) [("rev", Some "repository")]))
          changes;
  transfers ←
    match store self with
    | OBS s =>
        mret ((fun '(filename, md5) =>
                 StorageOBS.transfer s md5 project package filename (obs self)
                   [("rev", Some "repository")])
                <$> elements files_md5_transfer)
    | LFS =>
        (* StorageLFS.transfer takes no keyword [rev] *)
        if nonempty files_md5_transfer then raise TypeError else mret []
    end;
  gather (((fun '(filename, _) =>
              AsyncOBS.upload (obs self) project [package; filename]
                (Some (PkgFile package filename)) None [("rev", Some "repository")])
             <$> plain) ++
          changes_uploads ++
          transfers ++
          ((fun filename =>
              AsyncOBS.delete (obs self) project [package; filename]
                [("rev", Some "repository")])
             <$> elements files_delete)) ;;
  if nonempty files_md5_upload || nonempty files_md5_transfer || nonempty files_delete
  then
    let directory := directory_of (files_md5_git ∪ files_md5_git_store) in
    head_hash ← Git.head_hash;
    AsyncOBS.command (obs self) project [package] "commitfilelist" None
      (Some (Document directory))
      [("user", Some (AsyncOBS.username (obs self)));
       ("comment", Some ("Import " +:+ head_hash))]
  else mret ().

(** [Importer.package(project, package)], first part: the banner and the
    metadata. *)
Definition before_listings (self : t) (project package : string) : M unit :=
  emit (Print (project +:+ "/" +:+ package +:+ " ...")) ;;
  present ← AsyncOBS.exists_ (obs self) project (Some package);
  if negb (present && skip_all_package_meta self)
  then package_metadata self project package
  else mret ().

(** [Importer.package(project, package)], middle part: the listings of the
    registry, of the tree and of the pointer manifest. *)
Definition listings (self : t) (project package : string)
    : M (gset (string * string) * gset (string * string) * gset (string * string)) :=
  '(files_md5_obs, _) ← AsyncOBS.files_md5_revision (obs self) project package;
  files_md5_obs ← str_pairs files_md5_obs;
  files_md5_git ← _git_files_md5 package;
  files_md5_git_store ← read_pointer_manifest package;
  mret (list_to_set files_md5_obs, list_to_set files_md5_git,
        list_to_set files_md5_git_store).

(** [Importer.package(project, package)] *)
Definition package (self : t) (project package : string) : M unit :=
  emit (Print (project +:+ "/" +:+ package +:+ " ...")) ;;
  present ← AsyncOBS.exists_ (obs self) project (Some package);
  (if negb (present && skip_all_package_meta self)
   then package_metadata self project package
   else mret ()) ;;
  '(files_md5_obs, _) ← AsyncOBS.files_md5_revision (obs self) project package;
  files_md5_obs ← str_pairs files_md5_obs;
  files_md5_git ← _git_files_md5 package;
  files_md5_git_store ← read_pointer_manifest package;
  synchronise self project package (list_to_set files_md5_obs)
    (list_to_set files_md5_git) (list_to_set files_md5_git_store).

(** [Importer.project(project)] *)
Definition project (self : t) (project : string) : M unit :=
  present ← AsyncOBS.exists_ (obs self) project None;
  (if negb (present && skip_all_project_meta self)
   then project_metadata self project
   else mret ()) ;;
  packages_obs ← AsyncOBS.packages (obs self) project;
  let packages_obs : gset pyval := list_to_set packages_obs in
  packages_git ← Git.packages;
  let packages_git : gset string := list_to_set packages_git in
  let packages_delete := packages_obs ∖ set_map Some packages_git in
  w ← get_world;
  let packages_git :=
    Py.sorted_by_key (fun x => bool_decide (is_Some (files w !! PkgFile x "_link")))
                     (elements packages_git) in
  let group_size := 4%nat in
  let packages_git_groups := Py.slices group_size packages_git in
  for_each (fun packages_git_group =>
              gather ((fun pk => package self project pk) <$> packages_git_group))
           packages_git_groups ;;
  gather ((fun pk : pyval =>
             match pk with
             | Some pk => AsyncOBS.delete (obs self) project [pk] []
             | None => raise TypeError   (* "/".join of a None *)
             end)
            <$> elements packages_delete).

End Importer.

(** ** The command-line tool ([app.py])

    What lies outside the state of the model is handed over as it is found
    on the host: which patterns [git lfs track] lists, how [git lfs install]
    exits, whether the directory is a git repository, and the commits of
    its history.  Passwords, SSL verification and the closing of the client
    sessions have no counterpart in the state.  [git.create()] makes
    [git.prefix] and the repository, which the state takes for granted. *)

Module App.

(** The keys of the configuration file that [export] and [import_] read. *)
Record config : Type := {
  export_url : string;
  export_username : string;
  export_link : string;
  import_url : string;
  import_username : string;
  storage_type : string;
  storage_url : string;
  storage_username : string;
  storage_storage : string
}.

Record args : Type := {
  project : string;
  package : pyval;
  skip_project_meta : bool;
  skip_all_project_meta : bool;
  skip_all_package_meta : bool
}.

Record host : Type := {
  lfs_tracked : list string;
  lfs_install : Z;
  is_repository : bool;
  history : list GitHistory.commit
}.

(** How a run of the tool ends when no exception of the library escapes:
    it completes, it leaves through [sys.exit], or the storage type is
    unknown. *)
Inductive outcome : Type :=
| Completed
| SystemExit (code : Z)
| NotImplementedError (msg : string).

(** [AsyncOBS(url, username, password, link="auto")] *)
Definition client (url username link : string) : AsyncOBS.t :=
  {| AsyncOBS.url := url; AsyncOBS.username := username; AsyncOBS.link := link |}.

(** [storage_project, storage_package = pathlib.Path(text).parts] *)
Definition storage_location (text : string) : M (string * string) :=
  match Py.parts text with
  | [storage_project; storage_package] => mret (storage_project, storage_package)
  | _ => raise ValueError
  end.

(** [Git(repository, prefix)]: a fresh object, with no history recorded. *)
Definition new_git : M unit := modify (set_first_entry (fun _ => ∅)).

(** [export(args, config)] *)
Definition export (a : args) (c : config) (h : host) : M outcome :=
  let obs := client (export_url c) (export_username c) (export_link c) in
  authorized ← AsyncOBS.authorized obs (project a) (package a);
  if negb authorized then
    emit (Print "No authorization to access project or package in build service") ;;
    mret (SystemExit (-1))
  else
  present ← AsyncOBS.exists_ obs (project a) (package a);
  if negb present then
    emit (Print "Project or package not found in build service") ;;
    mret (SystemExit (-1))
  else
  new_git ;;
  emit (Print "Initialized the git repository") ;;
  st ← (if String.eqb (storage_type c) "obs" then
          let storage_obs := client (storage_url c) (storage_username c) "auto" in
          '(storage_project, storage_package) ← storage_location (storage_storage c);
          AsyncOBS.create storage_obs storage_project (Some storage_package) true ;;
          emit (Print "Remote storage in OBS initialized") ;;
          let s := {| StorageOBS.s_obs := storage_obs;
                      StorageOBS.s_project := storage_project;
                      StorageOBS.s_package := storage_package |} in
          StorageOBS.init s ;;
          mret (inl (OBS s))
        else if String.eqb (storage_type c) "lfs" then
          StorageLFS.init (lfs_tracked h) ;;
          installed ← LfsInstall.is_installed (lfs_install h);
          if negb installed then
            emit (Print "LFS extension not installed") ;;
            mret (inr (SystemExit (-1)))
          else
            emit (Print "Git LFS extension enabled in the repository") ;;
            overlaps ← StorageLFS.overlaps;
            match overlaps with
            | [] => mret ()
            | _ =>
                emit (Print "Multiple LFS tracks are overlaped. Fix them manually.") ;;
                for_each (fun '(x, y) => emit (Print ("* " +:+ x +:+ " - " +:+ y)))
                         overlaps
            end ;;
            mret (inl LFS)
        else
          mret (inr (NotImplementedError
                       ("Storage " +:+ storage_type c +:+ " not implemented"))));
  match st with
  | inr out => mret out
  | inl st =>
      let exporter := {| Exporter.obs := obs; Exporter.store := st;
                         Exporter.skip_project_meta := skip_project_meta a;
                         Exporter.skip_all_project_meta := skip_all_project_meta a;
                         Exporter.skip_all_package_meta := skip_all_package_meta a |} in
      (if truthy (package a) then
         has_meta ← Git.exists_dir DProjObs;
         (if negb (has_meta || skip_all_project_meta a)
          then Exporter.project_metadata exporter (project a)
          else mret ()) ;;
         Exporter.package exporter (project a) (default "" (package a))
       else Exporter.project exporter (project a)) ;;
      mret Completed
  end.

(** [import_(args, config)]; the link policy is the one of the export
    section of the configuration. *)
Definition import_ (a : args) (c : config) (h : host) : M outcome :=
  let obs := client (import_url c) (import_username c) (export_link c) in
  new_git ;;
  if negb (is_repository h) then
    emit (Print "Project or package not found in build service") ;;
    mret (SystemExit (-1))
  else
  GitHistory.analyze_history (history h) ;;
  st ← (if String.eqb (storage_type c) "obs" then
          let storage_obs := client (storage_url c) (storage_username c) "auto" in
          '(storage_project, storage_package) ← storage_location (storage_storage c);
          authorized ← AsyncOBS.authorized storage_obs storage_project
                         (Some storage_package);
          if negb authorized then
            emit (Print "No authorization to access the file storage in build service") ;;
            mret (inr (SystemExit (-1)))
          else
          present ← AsyncOBS.exists_ storage_obs storage_project (Some storage_package);
          if negb present then
            emit (Print "File storage not found in build service") ;;
            mret (inr (SystemExit (-1)))
          else
          let s := {| StorageOBS.s_obs := storage_obs;
                      StorageOBS.s_project := storage_project;
                      StorageOBS.s_package := storage_package |} in
          StorageOBS.init s ;;
          mret (inl (OBS s))
        else if String.eqb (storage_type c) "lfs" then
          StorageLFS.init (lfs_tracked h) ;;
          installed ← LfsInstall.is_installed (lfs_install h);
          if negb installed then
            emit (Print "LFS extension not installed") ;;
            mret (inr (SystemExit (-1)))
          else
            emit (Print "Git LFS extension enabled in the repository") ;;
            mret (inl LFS)
        else
          mret (inr (NotImplementedError
                       ("Storage " +:+ storage_type c +:+ " not implemented"))));
  match st with
  | inr out => mret out
  | inl st =>
      let importer := {| Importer.obs := obs; Importer.store := st;
                         Importer.skip_project_meta := skip_project_meta a;
                         Importer.skip_all_project_meta := skip_all_project_meta a;
                         Importer.skip_all_package_meta := skip_all_package_meta a |} in
      (if truthy (package a) then
         present ← AsyncOBS.exists_ obs (project a) None;
         (if negb (present || skip_all_project_meta a)
          then Importer.project_metadata importer (project a)
          else mret ()) ;;
         Importer.package importer (project a) (default "" (package a))
       else Importer.project importer (project a)) ;;
      mret Completed
  end.

End App.

(** ** Observing a run *)

(** Classes of calls. *)
Definition is_put (ev : event) : bool :=
  match ev with Put _ _ _ => true | _ => false end.

Definition is_post (ev : event) : bool :=
  match ev with Post _ _ _ => true | _ => false end.

(** A command ["commitfilelist"] sent to a registry. *)
Definition is_commitfilelist (ev : event) : bool :=
  match ev with
  | Post _ ps _ => bool_decide (("cmd", Some "commitfilelist") ∈ ps)
  | _ => false
  end.

(** A request that changes a registry: PUT, DELETE or POST. *)
Definition is_registry_write (ev : event) : bool :=
  match ev with
  | Put _ _ _ | Delete _ _ | Post _ _ _ => true
  | _ => false
  end.

(** A commit of any kind: a ["commitfilelist"] command or the staging of
    [.gitattributes]. *)
Definition is_commit (ev : event) : bool :=
  is_commitfilelist ev ||
  match ev with GitAdd GitAttributes => true | _ => false end.

(** The calls a computation adds to the log. *)
Definition events_of {A} (m : M A) (e : Env) (w : World) : list event :=
  drop (List.length (log w)) (log (m e w).2).

(** Properties of a sequence of calls that hold of the empty sequence and
    are kept by concatenation. *)
Class Monoidal (Q : list event -> Prop) : Prop := {
  monoidal_nil : Q [];
  monoidal_app : forall a b, Q a -> Q b -> Q (a ++ b)
}.

(** [m] only extends the log, and the calls it adds satisfy [Q]. *)
Definition emits {A} (Q : list event -> Prop) (m : M A) : Prop :=
  forall e w, exists evs, log (m e w).2 = log w ++ evs /\ Q evs.

(** The memo of [changes_git_entry] agrees with [Git.first_entry]. *)
Definition changes_cache_ok (w : World) : Prop :=
  forall package entry,
    changes_cache w !! package = Some entry ->
    exists r, first_entry w !! package = Some r /\ entry = Importer.changes_entry r.

(** Where [StorageOBS] keeps the object of hash [md5]. *)
Definition stored_object_url (s : StorageOBS.t) (md5 : string) : string :=
  AsyncOBS.url (StorageOBS.s_obs s) +:+ "/" +:+
  AsyncOBS.source_path (StorageOBS.s_project s) [StorageOBS.s_package s; md5].

(** The upload that stores the file [filename] of [package] under [md5]. *)
Definition store_upload (s : StorageOBS.t) (package filename md5 : string) : event :=
  Put (stored_object_url s md5) [("rev", Some "repository")]
      (FromFile (PkgFile package filename)).

(** Every value that [m] returns satisfies [P]. *)
Definition returns {A} (P : A -> Prop) (m : M A) : Prop :=
  forall e w a w', m e w = (Ok a, w') -> P a.

(** [m] moves every state to one that is related to it by [R]. *)
Definition keeps {A} (R : World -> World -> Prop) (m : M A) : Prop :=
  forall e w, R w (m e w).2.

(** The storage object is the same in both states. *)
Definition same_storage (w w' : World) : Prop :=
  index w' = index w /\ sync w' = sync w /\ tracked w' = tracked w.

(** Calls of the download and delete phase of an export: requests for a
    file, writes and removals of package files. *)
Definition is_download_phase (ev : event) : bool :=
  match ev with
  | Get _ _ | WriteFile (PkgFile _ _) | Unlink _ | Rmtree _ => true
  | _ => false
  end.

(** The write of the pointer manifest of a package, with which
    [StorageOBS.store_files] ends. *)
Definition is_pointer_write (package : string) (ev : event) : bool :=
  match ev with
  | WriteFile (PkgMeta pk name) => String.eqb pk package && String.eqb name "files"
  | _ => false
  end.

(** Where the registry serves the file [filename] of a package. *)
Definition file_url (obs : AsyncOBS.t) (project package filename : string) : string :=
  AsyncOBS.url obs +:+ "/" +:+ AsyncOBS.source_path project [package; filename].

Definition is_lfs_track (ev : event) : bool :=
  match ev with LfsTrack _ => true | _ => false end.

(** Calls that are no commit, no command and no [git lfs track]. *)
Definition neutral (ev : event) : bool :=
  negb (is_commit ev) && negb (is_post ev) && negb (is_lfs_track ev).

(** As many commits as [git lfs track] calls, and no command. *)
Definition commit_per_track (evs : list event) : Prop :=
  List.length (List.filter is_commit evs) = List.length (List.filter is_lfs_track evs) /\
  Forall (fun ev => is_post ev = false) evs.

(** The part of [Exporter.project] that precedes the commit of the storage. *)
Definition project_before_commit (self : Exporter.t) (project : string) : M unit :=
  packages_obs ← AsyncOBS.packages (Exporter.obs self) project;
  packages_obs ← strs packages_obs;
  let packages_obs : gset string := list_to_set packages_obs in
  packages_git ← Git.packages;
  let packages_git : gset string := list_to_set packages_git in
  let packages_delete := packages_git ∖ packages_obs in
  has_meta ← Git.exists_dir DProjObs;
  (if negb (has_meta && Exporter.skip_all_project_meta self)
   then Exporter.project_metadata self project
   else mret ()) ;;
  gather (((fun pk => Exporter.package self project pk) <$> elements packages_obs) ++
          ((fun pk => Git.delete pk None) <$> elements packages_delete)).

(** What [AsyncOBS._xml] hands back for a request. *)
Definition answer (e : Env) (self : AsyncOBS.t) (url_path : string) (ps : params)
    : Xml.element :=
  default Xml.empty_directory
          (http_xml e (AsyncOBS.url self +:+ "/" +:+ url_path) ps).

(** The listing of a package at revision [rev]. *)
Definition listing (e : Env) (self : AsyncOBS.t) (project package : string)
    (rev : pyval) : Xml.element :=
  answer e self ("/source/" +:+ project +:+ "/" +:+ package) [("rev", rev)].

(** The [project] attribute of the [_link] file of a package. *)
Definition project_link (e : Env) (self : AsyncOBS.t) (project package : string)
    : pyval :=
  Xml.get "project"
    (answer e self (("/source/" +:+ project +:+ "/" +:+ package) +:+ "/_link")
            [("rev", Some "latest")]).

(** The world after one more call. *)
Definition logged (ev : event) (w : World) : World :=
  set_log (fun l => l ++ [ev]) w.

(** The package names that the registry lists for a project. *)
Definition exported_packages (e : Env) (self : Exporter.t) (project : string)
    : list pyval :=
  Xml.get "name" <$> Xml.findall "entry"
                       (answer e (Exporter.obs self) ("source/" +:+ project) []).

(** The command with which [Importer.package] commits a manifest. *)
Definition import_commit (e : Env) (self : Importer.t) (project package : string)
    (manifest : gset (string * string)) : event :=
  Post (AsyncOBS.url (Importer.obs self) +:+ "/" +:+
        AsyncOBS.source_path project [package])
       [("user", Some (AsyncOBS.username (Importer.obs self)));
        ("comment", Some ("Import " +:+ head_target e));
        ("cmd", Some "commitfilelist")]
       (Document (Importer.directory_of manifest)).

(** Whether one of the three sets of [Importer.package] is not empty. *)
Definition import_plan_nonempty
    (files_md5_obs files_md5_git files_md5_git_store : gset (string * string)) : bool :=
  Importer.nonempty (Importer.files_md5_upload files_md5_obs files_md5_git) ||
  Importer.nonempty (Importer.files_md5_transfer files_md5_obs files_md5_git_store) ||
  Importer.nonempty (Importer.files_delete files_md5_obs files_md5_git
                       files_md5_git_store).

(** The part of [Importer.synchronise] that precedes the commit: uploads,
    transfers and deletions. *)
Definition import_transfer_phase (self : Importer.t) (project package : string)
    (files_md5_obs files_md5_git files_md5_git_store : gset (string * string))
    : M unit :=
  let files_md5_upload := Importer.files_md5_upload files_md5_obs files_md5_git in
  let files_md5_transfer :=
    Importer.files_md5_transfer files_md5_obs files_md5_git_store in
  let files_delete :=
    Importer.files_delete files_md5_obs files_md5_git files_md5_git_store in
  let plain := List.filter (fun '(filename, _) => negb (Py.endswith filename ".changes"))
                           (elements files_md5_upload) in
  let changes := List.filter (fun '(filename, _) => Py.endswith filename ".changes")
                             (elements files_md5_upload) in
  changes_uploads ←
    Importer.map_m (fun '(filename, _) =>
             data ← Importer.prepend_changes (PkgFile package filename) package;
             mret (AsyncOBS.upload (Importer.obs self) project [package; filename] None
                     (Some (Data data)) [("rev", Some "repository")]))
          changes;
  transfers ←
    match Importer.store self with
    | OBS s =>
        mret ((fun '(filename, md5) =>
                 StorageOBS.transfer s md5 project package filename (Importer.obs self)
                   [("rev", Some "repository")])
                <$> elements files_md5_transfer)
    | LFS =>
        if Importer.nonempty files_md5_transfer then raise TypeError else mret []
    end;
  gather (((fun '(filename, _) =>
              AsyncOBS.upload (Importer.obs self) project [package; filename]
                (Some (PkgFile package filename)) None [("rev", Some "repository")])
             <$> plain) ++
          changes_uploads ++
          transfers ++
          ((fun filename =>
              AsyncOBS.delete (Importer.obs self) project [package; filename]
                [("rev", Some "repository")])
             <$> elements files_delete)).

(** The end of [Importer.synchronise]: the commit, if there is one. *)
Definition import_commit_phase (self : Importer.t) (project package : string)
    (files_md5_obs files_md5_git files_md5_git_store : gset (string * string))
    : M unit :=
  if import_plan_nonempty files_md5_obs files_md5_git files_md5_git_store
  then
    let directory := Importer.directory_of (files_md5_git ∪ files_md5_git_store) in
    head_hash ← Git.head_hash;
    AsyncOBS.command (Importer.obs self) project [package] "commitfilelist" None
      (Some (Document directory))
      [("user", Some (AsyncOBS.username (Importer.obs self)));
       ("comment", Some ("Import " +:+ head_hash))]
  else mret ().

(** The document of the last ["commitfilelist"] command of a log. *)
Fixpoint committed (evs : list event) : option Xml.element :=
  match evs with
  | [] => None
  | ev :: evs' =>
      match committed evs' with
      | Some d => Some d
      | None =>
          match ev with
          | Post _ _ (Document d) => if is_commitfilelist ev then Some d else None
          | _ => None
          end
      end
  end.

(** The registry is an external service.  Its ["commitfilelist"] command is
    taken to be the atomic "replace file list" of the design: afterwards the
    listing of the package is the committed directory document.
    [registry_after e obs project package evs] is the registry [e] after
    the calls [evs] of an import of that package. *)
Definition registry_after (e : Env) (obs : AsyncOBS.t) (project package : string)
    (evs : list event) : Env :=
  {| http_xml := fun u ps =>
       if String.eqb u (AsyncOBS.url obs +:+ "/" +:+
                        ("/source/" +:+ project +:+ "/" +:+ package))
       then match committed evs with
            | Some d => Some d
            | None => http_xml e u ps
            end
       else http_xml e u ps;
     http_body := http_body e;
     http_status := http_status e;
     md5_hexdigest := md5_hexdigest e;
     chardet_confidence := chardet_confidence e;
     xml_parse := xml_parse e;
     str_replace := str_replace e;
     fnmatch := fnmatch e;
     head_target := head_target e;
     now_text := now_text e;
     git_path := git_path e;
     git_prefix := git_prefix e |}.

(** ** Observing the other operations *)

Definition ascii_word (s : string) : bool :=
  negb (String.eqb s "") &&
  forallb (fun c => negb (Py.is_space c) && (nat_of_ascii c <? 128)%nat)
          (list_ascii_of_string s).

Definition ascii_words (entry : string * string) : bool :=
  ascii_word entry.1 && ascii_word entry.2.

(** What a run of characters without blanks adds to the word being read. *)
Definition flushed (cur : list ascii) (s : string) : list string :=
  match string_of_list_ascii (rev cur) +:+ s with
  | EmptyString => []
  | word => [word]
  end.

Definition no_blank (s : string) : bool :=
  forallb (fun c => negb (Py.is_space c)) (list_ascii_of_string s).

Definition no_newline (s : string) : bool :=
  forallb (fun c => negb (Ascii.eqb c "010") && negb (Ascii.eqb c "013"))
          (list_ascii_of_string s).

Definition no_dot (s : string) : bool :=
  forallb (fun c => negb (Ascii.eqb c ".")) (list_ascii_of_string s).

(** Whether the components [cs] name something strictly below the
    directory [p]: [p] followed by at least one more component. *)
Fixpoint strictly_below (p cs : list string) : bool :=
  match p, cs with
  | [], _ :: _ => true
  | x :: p', y :: cs' => String.eqb x y && strictly_below p' cs'
  | _, _ => false
  end.

(** Whether [_patches] yields a patch of the commit that changes a file
    of the package: the commit is no merge and its diff holds a path below
    the directory of the package. *)
Definition changes_package (prefix package : string) (c : GitHistory.commit) : bool :=
  (GitHistory.parents c <=? 1)%nat &&
  existsb (fun new_file =>
             strictly_below (GitHistory.package_path prefix package) (Py.parts new_file))
          (GitHistory.diff c).

(** What [Git.packages] lists. *)
Definition is_package (w : World) (package : string) : Prop :=
  DPkg package ∈ dirs w /\ package ≠ ".git" /\ package ≠ ".obs".

(** The entries that the patches add to [first_entry]. *)
Definition recorded (prefix : string) (packages : list string)
    (patches : list (GitHistory.commit * string)) (m : gmap string revision)
    : gmap string revision :=
  foldl (fun m '(c, new_file) =>
           match GitHistory.touched prefix packages new_file with
           | package :: _ => GitHistory.setdefault package (GitHistory.entry_of c) m
           | [] => m
           end)
        m patches.

(** Where [exists] and [authorized] look for a project or a package. *)
Definition head_url (self : AsyncOBS.t) (project : string) (package : pyval) : string :=
  if truthy package
  then AsyncOBS.url self +:+ "/source/" +:+ project +:+ "/" +:+ default "" package
  else AsyncOBS.url self +:+ "/source/" +:+ project.

(** Whether the registry answers 404 to a HEAD request. *)
Definition answers_404 (e : Env) (u : string) : bool :=
  bool_decide (http_status e (Head u) = Some 404).

(** The two requests with which [create] creates a project and a package. *)
Definition create_project (self : AsyncOBS.t) (project : string) (disabled : bool)
    : event :=
  Put (AsyncOBS.url self +:+ "/source/" +:+ project +:+ "/_meta") []
      (Data (list_byte_of_string (AsyncOBS.project_meta self project disabled))).

Definition create_package (self : AsyncOBS.t) (project package : string)
    (disabled : bool) : event :=
  Put (AsyncOBS.url self +:+ "/source/" +:+ project +:+ "/" +:+ package +:+ "/_meta") []
      (Data (list_byte_of_string (AsyncOBS.package_meta project package disabled))).

Definition is_head (ev : event) : bool :=
  match ev with Head _ => true | _ => false end.

(** The deletion of a whole package: a DELETE without parameters. *)
Definition is_package_delete (ev : event) : bool :=
  match ev with Delete _ [] => true | _ => false end.

(** Whether the package is a link: its directory holds a [_link]. *)
Definition linked (w : World) (package : string) : bool :=
  bool_decide (is_Some (files w !! PkgFile package "_link")).

(** The names that the registry lists for a project. *)
Definition registry_packages (e : Env) (obs : AsyncOBS.t) (project : string)
    : list pyval :=
  Xml.get "name" <$> Xml.findall "entry" (answer e obs ("source/" +:+ project) []).

(** The files and directories of the tree are the same in both states. *)
Definition same_tree (w w' : World) : Prop :=
  files w' = files w /\ dirs w' = dirs w.

(** The request that deletes a package of a project. *)
Definition delete_package (obs : AsyncOBS.t) (project package : string) : event :=
  Delete (AsyncOBS.url obs +:+ "/" +:+ AsyncOBS.source_path project [package]) [].

(** The request with which the import of a package starts, after its
    banner: does the package exist? *)
Definition import_start (obs : AsyncOBS.t) (project package : string) : event :=
  Head (head_url obs project (Some package)).

(** The order in which [Importer.project] imports the packages listed in
    [order]: those that are no links first. *)
Definition links_last (w : World) (order : list string) : list string :=
  List.filter (fun package => negb (linked w package)) order ++
  List.filter (linked w) order.

(** Calls that neither ask whether something exists nor delete a package. *)
Definition quiet (ev : event) : Prop :=
  is_head ev = false /\ is_package_delete ev = false.

(** The calls of the imports of the packages [l], in this order. *)
Definition imports_of (obs : AsyncOBS.t) (project : string) (l : list string)
    (evs : list event) : Prop :=
  List.filter is_head evs = import_start obs project <$> l /\
  List.filter is_package_delete evs = [].

(** Nothing but the memo caches and the log differs between the states:
    the tree, the storage object and the recorded history are the same. *)
Definition read_only (w w' : World) : Prop :=
  files w' = files w /\ dirs w' = dirs w /\ index w' = index w /\
  sync w' = sync w /\ tracked w' = tracked w /\ first_entry w' = first_entry w.

(** The state after [git lfs track pattern] followed by the staging of
    [.gitattributes], for each of the patterns in turn. *)
Definition tracking (patterns : list string) (w : World) : World :=
  foldl (fun w pattern =>
           logged (GitAdd GitAttributes)
             (set_tracked (fun t => t ∪ {[pattern]}) (logged (LfsTrack pattern) w)))
        w patterns.

(** The patterns that [is_installed] tracks. *)
Definition default_patterns : list string :=
  (fun binary => "*" +:+ binary) <$> elements LfsInstall.default_extensions.

(** Whether the suffix of a file name is one of the extensions that are
    tracked by default. *)
Definition default_extension (name : string) : bool :=
  Exporter.mem (Py.suffix name) (Exporter.BINARY ++ Exporter.NON_BINARY_EXCEPTIONS).

(** Where the listing of the storage package is asked for. *)
Definition storage_listing_url (s : StorageOBS.t) : string :=
  AsyncOBS.url (StorageOBS.s_obs s) +:+ "/" +:+
  ("/source/" +:+ StorageOBS.s_project s +:+ "/" +:+ StorageOBS.s_package s).

(** The command with which [StorageOBS.commit] commits the index [i]. *)
Definition storage_commit_event (e : Env) (s : StorageOBS.t) (i : gset string) : event :=
  Post (AsyncOBS.url (StorageOBS.s_obs s) +:+ "/" +:+
        AsyncOBS.source_path (StorageOBS.s_project s) [StorageOBS.s_package s])
       [("user", Some (AsyncOBS.username (StorageOBS.s_obs s)));
        ("comment", Some ("Storage syncronization " +:+ now_text e));
        ("cmd", Some "commitfilelist")]
       (Document (StorageOBS.directory_of_index i)).

(** A request that changes the storage package of a registry-backed
    storage: the upload of an object or a command sent to the package. *)
Definition storage_write (st : storage) (ev : event) : Prop :=
  match st with
  | OBS s =>
      (exists md5 ps body, ev = Put (stored_object_url s md5) ps body) \/
      (exists ps body,
          ev = Post (AsyncOBS.url (StorageOBS.s_obs s) +:+ "/" +:+
                     AsyncOBS.source_path (StorageOBS.s_project s)
                       [StorageOBS.s_package s]) ps body)
  | LFS => False
  end.

(** The storage object has lost nothing: the index and the tracked
    patterns of the first state are in the second. *)
Definition storage_grows (w w' : World) : Prop :=
  index w ⊆ index w' /\ tracked w ⊆ tracked w'.

(** The bytes whose hash the importer lists for a file of a package: the
    content, behind the changelog entry when the suffix is [.changes]. *)
Definition hashed_content (r : revision) (filename : string) (content : bytes) : bytes :=
  if String.eqb (Py.suffix filename) ".changes"
  then list_byte_of_string (Importer.changes_entry r) ++ content
  else content.

(** The client with which [export] talks to the registry it exports from. *)
Definition export_client (c : App.config) : AsyncOBS.t :=
  App.client (App.export_url c) (App.export_username c) (App.export_link c).

(** The client with which the tool talks to the storage. *)
Definition storage_client (c : App.config) : AsyncOBS.t :=
  App.client (App.storage_url c) (App.storage_username c) "auto".

(** What [export] leaves in the log when it refuses to start. *)
Definition export_refusal (a : App.args) (c : App.config) (status : Z) : list event :=
  let ask := Head (head_url (export_client c) (App.project a) (App.package a)) in
  if status =? 401
  then [ask; Print "No authorization to access project or package in build service"]
  else [ask; ask; Print "Project or package not found in build service"].

(** What [import_] leaves in the log when it does not find its storage. *)
Definition import_refusal (c : App.config) (storage_project storage_package : string)
    (status : Z) : list event :=
  let ask := Head (head_url (storage_client c) storage_project (Some storage_package)) in
  if status =? 401
  then [ask; Print "No authorization to access the file storage in build service"]
  else [ask; ask; Print "File storage not found in build service"].

(** ** Concrete worlds used to exercise the model *)

Module Fixture.

Definition entry (name md5 : string) : Xml.element :=
  Xml.Element "entry" [("name", name); ("md5", md5)] [].

Definition world0 : World :=
  {| files := ∅; dirs := ∅; index := ∅; sync := true; tracked := ∅;
     first_entry := ∅; project_name_cache := None; changes_cache := ∅;
     log := [] |}.

(** A registry that answers no listing, serves empty bodies and accepts
    every request.  The stand-in for MD5 is the content itself. *)
Definition env_with (xml : string -> params -> option Xml.element)
    (body : string -> params -> option bytes) : Env :=
  {| http_xml := xml;
     http_body := body;
     http_status := fun _ => Some 200;
     md5_hexdigest := string_of_list_byte;
     chardet_confidence := fun _ => 0%Q;
     xml_parse := fun _ => None;
     str_replace := fun s _ _ => s;
     fnmatch := String.eqb;
     head_target := "c0ffee";
     now_text := "01/01/2020 00:00:00";
     git_path := "/repo";
     git_prefix := "packages" |}.

Definition env0 : Env := env_with (fun _ _ => None) (fun _ _ => Some []).

Definition obs_with (policy : string) : AsyncOBS.t :=
  {| AsyncOBS.url := "https://api"; AsyncOBS.username := "user";
     AsyncOBS.link := policy |}.

Definition storage_obs : StorageOBS.t :=
  {| StorageOBS.s_obs := {| AsyncOBS.url := "https://store";
                            AsyncOBS.username := "user";
                            AsyncOBS.link := "auto" |};
     StorageOBS.s_project := "home:user:storage";
     StorageOBS.s_package := "files" |}.

(** Package [P/a] is a link to project [Q]; the link expands to revision
    [x1], where the package holds [a.spec] and [b.patch]. *)
Definition linked_xml (target : string) (u : string) (ps : params)
    : option Xml.element :=
  if String.eqb u "https://api//source/P/a" then
    if bool_decide (ps = [("rev", Some "latest")]) then
      Some (Xml.Element "directory" [("rev", "7")]
              [Xml.Element "linkinfo" [("project", target); ("xsrcmd5", "x1")] [];
               entry "_link" "l1"; entry "a.spec" "h1"])
    else if bool_decide (ps = [("rev", Some "x1")]) then
      Some (Xml.Element "directory" [("rev", "x1")]
              [entry "a.spec" "h1"; entry "b.patch" "h2"])
    else None
  else if String.eqb u "https://api//source/P/a/_link" then
    Some (Xml.Element "link" [("project", target)] [])
  else None.

Definition env_link (target : string) : Env :=
  env_with (linked_xml target) (fun _ _ => Some []).

(** File sets of a package on both sides, and an index of the storage. *)
Definition registry_set : gset (string * string) :=
  {[ ("a.spec", "1"); ("a.tar.gz", "2"); ("b.tar.gz", "3"); ("c.txt", "4") ]}.

Definition tree_set : gset (string * string) :=
  {[ ("a.spec", "1"); ("c.txt", "0"); ("old.patch", "9") ]}.

Definition index_set : gset string := {[ "3" ]}.

(** A tree with one package directory that holds one file. *)
Definition world_with_file (package filename : string) (content : bytes) : World :=
  {| files := {[ PkgFile package filename := content ]};
     dirs := {[ DPkg package; DPkgObs package ]};
     index := ∅; sync := true; tracked := ∅;
     first_entry := ∅; project_name_cache := None; changes_cache := ∅;
     log := [] |}.

(** A package [a] with a changelog, introduced by one commit. *)
Definition jane : revision :=
  {| commit_hash := "1a2b3c"; author := "Jane Doe"; email := "jane@example.org";
     commit_date := Py.utcfromtimestamp 1600000000 |}.

Definition world_changes : World :=
  {| files := {[ PkgFile "a" "a.changes" := list_byte_of_string "- initial release" ]};
     dirs := {[ DPkg "a"; DPkgObs "a" ]};
     index := ∅; sync := true; tracked := ∅;
     first_entry := {[ "a" := jane ]};
     project_name_cache := None; changes_cache := ∅;
     log := [] |}.

(** The tree still holds [b.tar.gz] while the storage indexes hash [3]. *)
Definition world_indexed : World :=
  set_index (fun _ => index_set)
            (world_with_file "a" "b.tar.gz" (list_byte_of_string "old content")).

(** Project [P] holds the package [a] with a spec file and a tarball of
    6 KB; the registry fails to serve every file whose URL is in [broken]. *)
Definition tarball : bytes := repeat Byte.xff (6 * 1024).

Definition project_xml (u : string) (ps : params) : option Xml.element :=
  if String.eqb u "https://api//source/P/a" then
    Some (Xml.Element "directory" [("rev", "3")]
            [entry "a.spec" "h1"; entry "a.tar.gz" "h2"])
  else if String.eqb u "https://api/source/P" then
    Some (Xml.Element "directory" [] [Xml.Element "entry" [("name", "a")] []])
  else None.

Definition project_body (broken : list string) (u : string) (ps : params)
    : option bytes :=
  if existsb (String.eqb u) broken then None
  else if String.eqb u "https://api/source/P/a/a.tar.gz" then Some tarball
  else Some [].

Definition env_project (broken : list string) : Env :=
  env_with project_xml (project_body broken).

Definition exporter_with (st : storage) : Exporter.t :=
  {| Exporter.obs := obs_with "never"; Exporter.store := st;
     Exporter.skip_project_meta := false;
     Exporter.skip_all_project_meta := false;
     Exporter.skip_all_package_meta := false |}.

(** A tree in which the directories of package [a] exist and are empty. *)
Definition world_package : World :=
  {| files := ∅; dirs := {[ DPkg "a"; DPkgObs "a" ]};
     index := ∅; sync := true; tracked := ∅;
     first_entry := ∅; project_name_cache := None; changes_cache := ∅;
     log := [] |}.

Definition package_set : gset (string * string) :=
  {[ ("a.spec", "h1"); ("a.tar.gz", "h2") ]}.

(** A tree ready for import: project and package metadata, a spec file, a
    changelog, and a pointer manifest that records a stored tarball. *)
Definition meta_project : bytes := list_byte_of_string "<project name='P'/>".
Definition meta_package : bytes := list_byte_of_string "<package name='a' project='P'/>".

Definition parse_meta (b : bytes) : option Xml.element :=
  if String.eqb (string_of_list_byte b) "<project name='P'/>"
  then Some (Xml.Element "project" [("name", "P")] [])
  else if String.eqb (string_of_list_byte b) "<package name='a' project='P'/>"
  then Some (Xml.Element "package" [("name", "a"); ("project", "P")] [])
  else None.

Definition env_import : Env :=
  {| http_xml := fun _ _ => None;
     http_body := fun _ _ => Some [];
     http_status := fun _ => Some 200;
     md5_hexdigest := string_of_list_byte;
     chardet_confidence := fun _ => 0%Q;
     xml_parse := parse_meta;
     str_replace := fun s _ _ => s;
     fnmatch := String.eqb;
     head_target := "c0ffee";
     now_text := "01/01/2020 00:00:00";
     git_path := "/repo";
     git_prefix := "packages" |}.

Definition world_import : World :=
  {| files := {[ ProjMeta "_meta" := meta_project;
                 PkgMeta "a" "_meta" := meta_package;
                 PkgFile "a" "a.spec" := list_byte_of_string "Name: a";
                 PkgMeta "a" "files" :=
                   list_byte_of_string (StorageOBS.pointer_text [("a.tar.gz", "h2")]) ]};
     dirs := {[ DProjObs; DPkg "a"; DPkgObs "a" ]};
     index := {[ "h2" ]}; sync := true; tracked := ∅;
     first_entry := {[ "a" := jane ]};
     project_name_cache := None; changes_cache := ∅;
     log := [] |}.

Definition importer : Importer.t :=
  {| Importer.obs := obs_with "never"; Importer.store := OBS storage_obs;
     Importer.skip_project_meta := false;
     Importer.skip_all_project_meta := false;
     Importer.skip_all_package_meta := false |}.

(** A registry that answers every HEAD request with [head] and accepts
    everything else. *)
Definition env_head (head : Z) : Env :=
  {| http_xml := fun _ _ => None;
     http_body := fun _ _ => Some [];
     http_status := fun ev => match ev with Head _ => Some head | _ => Some 200 end;
     md5_hexdigest := string_of_list_byte;
     chardet_confidence := fun _ => 0%Q;
     xml_parse := parse_meta;
     str_replace := fun s _ _ => s;
     fnmatch := String.eqb;
     head_target := "c0ffee";
     now_text := "01/01/2020 00:00:00";
     git_path := "/repo";
     git_prefix := "packages" |}.

(** A history of three commits, the head first: a merge, a change of the
    spec file of package [a], and the root commit. *)
Definition merge_commit : GitHistory.commit :=
  {| GitHistory.oid := "m3"; GitHistory.author_name := "Merger";
     GitHistory.author_email := "merger@example.org";
     GitHistory.commit_time := 1600000200; GitHistory.parents := 2;
     GitHistory.diff := ["packages/a/a.spec"] |}.

Definition change_commit : GitHistory.commit :=
  {| GitHistory.oid := "c2"; GitHistory.author_name := "Jane Doe";
     GitHistory.author_email := "jane@example.org";
     GitHistory.commit_time := 1600000100; GitHistory.parents := 1;
     GitHistory.diff := ["README"; "packages/a/a.spec"] |}.

Definition root_commit : GitHistory.commit :=
  {| GitHistory.oid := "r1"; GitHistory.author_name := "Jane Doe";
     GitHistory.author_email := "jane@example.org";
     GitHistory.commit_time := 1600000000; GitHistory.parents := 0;
     GitHistory.diff := ["packages/a/a.spec"; "packages/a/a.changes"] |}.

Definition walk : list GitHistory.commit := [merge_commit; change_commit; root_commit].

(** The registry lists the packages [a] and [gone] for project [P]. *)
Definition listed_xml (u : string) (ps : params) : option Xml.element :=
  if String.eqb u "https://api/source/P" then
    Some (Xml.Element "directory" []
            [Xml.Element "entry" [("name", "a")] [];
             Xml.Element "entry" [("name", "gone")] []])
  else None.

Definition env_listed : Env :=
  {| http_xml := listed_xml;
     http_body := fun _ _ => Some [];
     http_status := fun _ => Some 200;
     md5_hexdigest := string_of_list_byte;
     chardet_confidence := fun _ => 0%Q;
     xml_parse := parse_meta;
     str_replace := fun s _ _ => s;
     fnmatch := String.eqb;
     head_target := "c0ffee";
     now_text := "01/01/2020 00:00:00";
     git_path := "/repo";
     git_prefix := "packages" |}.

Definition importer_skipping : Importer.t :=
  {| Importer.obs := obs_with "never"; Importer.store := OBS storage_obs;
     Importer.skip_project_meta := false;
     Importer.skip_all_project_meta := true;
     Importer.skip_all_package_meta := false |}.

(** [fnmatch] for the patterns of the model: ["*"] followed by a text
    matches the names that end with the text, any other pattern matches
    itself. *)
Definition glob (name pattern : string) : bool :=
  match pattern with
  | String "*" rest => Py.endswith name rest
  | _ => String.eqb name pattern
  end.

Definition env_glob : Env :=
  {| http_xml := fun _ _ => None;
     http_body := fun _ _ => Some [];
     http_status := fun _ => Some 200;
     md5_hexdigest := string_of_list_byte;
     chardet_confidence := fun _ => 0%Q;
     xml_parse := fun _ => None;
     str_replace := fun s _ _ => s;
     fnmatch := glob;
     head_target := "c0ffee";
     now_text := "01/01/2020 00:00:00";
     git_path := "/repo";
     git_prefix := "packages" |}.

(** The registry of the storage serves the directory of the index [i]. *)
Definition env_storage (i : gset string) : Env :=
  env_with (fun u ps =>
              if String.eqb u "https://store//source/home:user:storage/files"
              then Some (StorageOBS.directory_of_index i) else None)
           (fun _ _ => Some []).

Definition world_unsynced : World :=
  {| files := ∅; dirs := ∅; index := {[ "h1"; "h2" ]}; sync := false; tracked := ∅;
     first_entry := ∅; project_name_cache := None; changes_cache := ∅;
     log := [] |}.

Definition config_obs : App.config :=
  {| App.export_url := "https://api"; App.export_username := "user";
     App.export_link := "never";
     App.import_url := "https://api"; App.import_username := "user";
     App.storage_type := "obs";
     App.storage_url := "https://store"; App.storage_username := "user";
     App.storage_storage := "home:user:storage/files" |}.

Definition args_project : App.args :=
  {| App.project := "P"; App.package := None;
     App.skip_project_meta := false;
     App.skip_all_project_meta := false;
     App.skip_all_package_meta := false |}.

Definition host_repository : App.host :=
  {| App.lfs_tracked := []; App.lfs_install := 0;
     App.is_repository := true; App.history := walk |}.

(** A tree with two packages: [l] is a link, [a] is not. *)
Definition world_linked : World :=
  {| files := {[ ProjMeta "_meta" := meta_project;
                 PkgMeta "a" "_meta" := meta_package;
                 PkgFile "a" "a.spec" := list_byte_of_string "Name: a";
                 PkgMeta "l" "_meta" := meta_package;
                 PkgFile "l" "_link" := list_byte_of_string "<link project='Q'/>" ]};
     dirs := {[ DProjObs; DPkg "a"; DPkgObs "a"; DPkg "l"; DPkgObs "l" ]};
     index := ∅; sync := true; tracked := ∅;
     first_entry := ∅; project_name_cache := None; changes_cache := ∅;
     log := [] |}.

End Fixture.

(** * Properties *)

(** ** The monad *)

Lemma run_bind {A B} (m : M A) (f : A -> M B) e w :
  (m ≫= f) e w =
  match m e w with
  | (Ok a, w') => f a e w'
  | (Raise x, w') => (Raise x, w')
  end.
Proof. reflexivity. Qed.

(** Unfolds the operations of the monad. *)
Ltac msimpl :=
  cbv beta iota zeta delta
    [mbind M_bind mret M_ret ask get_world modify emit raise attempt run].

Tactic Notation "msimpl" "in" hyp(H) :=
  cbv beta iota zeta delta
    [mbind M_bind mret M_ret ask get_world modify emit raise attempt run] in H.

Global Instance Forall_monoidal (P : event -> Prop) : Monoidal (Forall P).
Proof. split; [constructor | intros a b; apply Forall_app_2]. Qed.

Section Emits.
Context (Q : list event -> Prop) `{!Monoidal Q}.

Lemma emits_ret {A} (a : A) : emits Q (mret a).
Proof. intros e w. exists []. cbn. rewrite app_nil_r. split; [done | apply monoidal_nil]. Qed.

Lemma emits_raise {A} (x : exn) : emits Q (raise (A := A) x).
Proof. intros e w. exists []. cbn. rewrite app_nil_r. split; [done | apply monoidal_nil]. Qed.

Lemma emits_ask : emits Q ask.
Proof. intros e w. exists []. cbn. rewrite app_nil_r. split; [done | apply monoidal_nil]. Qed.

Lemma emits_get_world : emits Q get_world.
Proof. intros e w. exists []. cbn. rewrite app_nil_r. split; [done | apply monoidal_nil]. Qed.

Lemma emits_modify (f : World -> World) :
  (forall w, log (f w) = log w) -> emits Q (modify f).
Proof.
  intros Hf e w. exists []. cbn. rewrite Hf, app_nil_r.
  split; [done | apply monoidal_nil].
Qed.

Lemma emits_emit (ev : event) : Q [ev] -> emits Q (emit ev).
Proof. intros Hev e w. by exists [ev]. Qed.

Lemma emits_bind {A B} (m : M A) (f : A -> M B) :
  emits Q m -> (forall a, emits Q (f a)) -> emits Q (m ≫= f).
Proof.
  intros Hm Hf e w. rewrite run_bind.
  destruct (Hm e w) as (evs & Hlog & Hall).
  destruct (m e w) as [[a | x] w']; cbn in *.
  - destruct (Hf a e w') as (evs' & Hlog' & Hall').
    exists (evs ++ evs'). rewrite Hlog', Hlog, app_assoc.
    split; [done | by apply monoidal_app].
  - by exists evs.
Qed.

Lemma emits_attempt {A} (m : M A) : emits Q m -> emits Q (attempt m).
Proof.
  intros Hm e w. destruct (Hm e w) as (evs & Hlog & Hall).
  exists evs. unfold attempt. by destruct (m e w).
Qed.

Lemma emits_gather (tasks : list (M unit)) :
  Forall (emits Q) tasks -> emits Q (gather tasks).
Proof.
  induction 1 as [| t ts Ht _ IH]; cbn [gather].
  - apply emits_ret.
  - apply emits_bind; [by apply emits_attempt |]. intros r.
    apply emits_bind; [by apply emits_attempt |]. intros r'.
    destruct r, r'; first [apply emits_ret | apply emits_raise].
Qed.

Lemma emits_for_each {A} (f : A -> M unit) (l : list A) :
  (forall x, emits Q (f x)) -> emits Q (for_each f l).
Proof.
  intros Hf. induction l as [| x l IH]; cbn [for_each].
  - apply emits_ret.
  - apply emits_bind; [apply Hf | intros _; apply IH].
Qed.

Lemma emits_map_m {A B} (f : A -> M B) (l : list A) :
  (forall x, emits Q (f x)) -> emits Q (Importer.map_m f l).
Proof.
  intros Hf. induction l as [| x l IH]; cbn [Importer.map_m].
  - apply emits_ret.
  - apply emits_bind; [apply Hf | intros y].
    apply emits_bind; [apply IH | intros r; apply emits_ret].
Qed.

Lemma emits_filter_m {A} (keep : A -> M bool) (l : list A) :
  (forall x, emits Q (keep x)) -> emits Q (Exporter.filter_m keep l).
Proof.
  intros Hf. induction l as [| x l IH]; cbn [Exporter.filter_m].
  - apply emits_ret.
  - apply emits_bind; [apply Hf | intros y].
    apply emits_bind; [apply IH | intros r; apply emits_ret].
Qed.
End Emits.

Lemma emits_weaken {A} (P Q : list event -> Prop) (m : M A) :
  (forall evs, P evs -> Q evs) -> emits P m -> emits Q m.
Proof.
  intros HPQ Hm e w. destruct (Hm e w) as (evs & Hlog & Hall).
  exists evs. split; [done | by apply HPQ].
Qed.

Lemma emits_events_of {A} (Q : list event -> Prop) (m : M A) e w :
  emits Q m ->
  log (m e w).2 = log w ++ events_of m e w /\ Q (events_of m e w).
Proof.
  intros Hm. destruct (Hm e w) as (evs & Hlog & Hall).
  unfold events_of. rewrite Hlog, drop_app_length. done.
Qed.

(** Closes the side conditions that are instances of [Monoidal]. *)
Ltac monoidal := try (solve [typeclasses eauto]).

(** Steps through the structure of a computation. *)
Ltac emits_step :=
  first
    [ apply emits_ret; monoidal | apply emits_raise; monoidal
    | apply emits_ask; monoidal
    | apply emits_get_world; monoidal
    | (apply emits_modify; monoidal); reflexivity
    | (apply emits_bind; monoidal); [| intros ?]
    | apply emits_attempt; monoidal
    | (apply emits_for_each; monoidal); intros ?
    | (apply emits_map_m; monoidal); intros ?
    | (apply emits_filter_m; monoidal); intros ?
    | match goal with
      | |- emits _ (match ?x with _ => _ end) => destruct x
      | |- emits _ (if ?b then _ else _) => destruct b
      end ].

(** ** Listings of the registry *)

Lemma xml_run (self : AsyncOBS.t) (url_path : string) (ps : params) e w :
  AsyncOBS._xml self url_path ps e w =
  (Ok (answer e self url_path ps),
   logged (Get (AsyncOBS.url self +:+ "/" +:+ url_path) ps) w).
Proof.
  unfold AsyncOBS._xml, answer. msimpl.
  by destruct (http_xml e _ ps).
Qed.

Lemma find_attr_no_entry (root : Xml.element) (a v : string) :
  Xml.findall "entry" root = [] -> Xml.find_attr "entry" a v root = None.
Proof. unfold Xml.find_attr. by intros ->. Qed.

Lemma entries_no_entry (root : Xml.element) :
  Xml.findall "entry" root = [] -> AsyncOBS.entries root = [].
Proof. unfold AsyncOBS.entries. by intros ->. Qed.


(** The run of [files_md5_revision], case by case. *)
Lemma files_md5_revision_run (self : AsyncOBS.t) (project package : string) e w :
  AsyncOBS.files_md5_revision self project package e w =
  let path := "/source/" +:+ project +:+ "/" +:+ package in
  let root := listing e self project package (Some "latest") in
  let w1 := logged (Get (AsyncOBS.url self +:+ "/" +:+ path) [("rev", Some "latest")]) w in
  match Xml.find_attr "entry" "name" "_link" root with
  | None => (Ok (AsyncOBS.entries root, Xml.get "rev" root), w1)
  | Some _ =>
      let target := project_link e self project package in
      let w2 := logged (Get (AsyncOBS.url self +:+ "/" +:+ (path +:+ "/_link"))
                            [("rev", Some "latest")]) w1 in
      if AsyncOBS.crosses target project && String.eqb (AsyncOBS.link self) "never" then
        (Ok ([], None),
         logged (Print ("ERROR: Link " +:+ project +:+ "/" +:+ package +:+
                        " pointing outside (" +:+ fmt target +:+ ")")) w2)
      else if (AsyncOBS.crosses target project && String.eqb (AsyncOBS.link self) "auto")
              || String.eqb (AsyncOBS.link self) "always" then
        match Xml.find "linkinfo" root with
        | Some linkinfo =>
            let revision := Xml.get "xsrcmd5" linkinfo in
            (Ok (AsyncOBS.entries (listing e self project package revision), revision),
             logged (Get (AsyncOBS.url self +:+ "/" +:+ path) [("rev", revision)]) w2)
        | None => (Raise AttributeError, w2)
        end
      else (Ok (AsyncOBS.entries root, Xml.get "rev" root), w2)
  end.
Proof.
  unfold AsyncOBS.files_md5_revision. cbv zeta.
  rewrite run_bind, xml_run.
  fold (listing e self project package (Some "latest")).
  destruct (Xml.find_attr _ _ _ _); [| reflexivity].
  rewrite run_bind, xml_run.
  fold (project_link e self project package).
  destruct (_ && String.eqb _ "never"); [reflexivity |].
  destruct (_ || _); [| reflexivity].
  destruct (Xml.find _ _); [| reflexivity].
  rewrite run_bind, xml_run. reflexivity.
Qed.

(** C10: a listing whose fetch or parse raises is replaced by the empty
    directory document [<directory rev="latest"/>]: [_xml] returns it
    instead of raising; [packages] then answers the empty list and
    [files_md5_revision] the empty file list with revision ["latest"].
    The answer and the resulting state are the same as for a registry that
    really serves a directory without entries at revision ["latest"]. *)
Theorem xml_failure_yields_empty_listing
    (self : AsyncOBS.t) (project package : string) (e : Env) (w : World) :
  (forall url_path ps,
      http_xml e (AsyncOBS.url self +:+ "/" +:+ url_path) ps = None ->
      run (AsyncOBS._xml self url_path ps) e w =
      (Ok Xml.empty_directory,
       logged (Get (AsyncOBS.url self +:+ "/" +:+ url_path) ps) w)) /\
  (http_xml e (AsyncOBS.url self +:+ "/" +:+ "source/" +:+ project) [] = None ->
   (run (AsyncOBS.packages self project) e w).1 = Ok []) /\
  (http_xml e (AsyncOBS.url self +:+ "/" +:+ "/source/" +:+ project +:+ "/" +:+ package)
            [("rev", Some "latest")] = None ->
   (run (AsyncOBS.files_md5_revision self project package) e w).1
     = Ok ([], Some "latest") /\
   forall e' root,
     http_xml e' (AsyncOBS.url self +:+ "/" +:+ "/source/" +:+ project +:+ "/" +:+ package)
              [("rev", Some "latest")] = Some root ->
     Xml.findall "entry" root = [] ->
     Xml.get "rev" root = Some "latest" ->
     run (AsyncOBS.files_md5_revision self project package) e' w =
     run (AsyncOBS.files_md5_revision self project package) e w).
Proof.
  unfold run. split; [| split].
  - intros url_path ps Hnone. rewrite xml_run. unfold answer. by rewrite Hnone.
  - intros Hnone. unfold AsyncOBS.packages.
    rewrite run_bind, xml_run. unfold answer, params, pyval in *. by rewrite Hnone.
  - intros Hnone.
    assert (Hl : listing e self project package (Some "latest") = Xml.empty_directory).
    { unfold listing, answer, params, pyval in *. by rewrite Hnone. }
    split.
    + rewrite files_md5_revision_run. cbv zeta. by rewrite Hl.
    + intros e' root Hsome Hentries Hrev.
      assert (Hl' : listing e' self project package (Some "latest") = root).
      { unfold listing, answer, params, pyval in *. by rewrite Hsome. }
      rewrite !files_md5_revision_run. cbv zeta. rewrite Hl, Hl'.
      rewrite (find_attr_no_entry root) by done.
      by rewrite (entries_no_entry root), Hrev.
Qed.

Lemma xml_failure_yields_empty_listing_witness :
  (run (AsyncOBS._xml (Fixture.obs_with "auto") "source/P" []) Fixture.env0
       Fixture.world0).1 = Ok Xml.empty_directory /\
  (run (AsyncOBS.packages (Fixture.obs_with "auto") "P") Fixture.env0
       Fixture.world0).1 = Ok [] /\
  (run (AsyncOBS.files_md5_revision (Fixture.obs_with "auto") "P" "a") Fixture.env0
       Fixture.world0).1 = Ok ([], Some "latest").
Proof.
  pose proof (xml_failure_yields_empty_listing (Fixture.obs_with "auto") "P" "a"
                Fixture.env0 Fixture.world0) as (H1 & H2 & H3).
  split; [| split].
  - by rewrite (H1 "source/P" [] eq_refl).
  - exact (H2 eq_refl).
  - exact (proj1 (H3 eq_refl)).
Defined.

(** ** Link policy *)

(** C4: let the listing of a package contain an entry [_link].  Under
    policy ["never"], if the link names a project other than the package's
    own, the listing is the empty file list with no revision and an error
    line is printed.  Under ["always"] the listing is the one at the
    revision the link expands to ([xsrcmd5] of [linkinfo]), whatever the
    target.  Under ["auto"] the listing is the one at that revision exactly
    when the link names another project, and otherwise the plain listing at
    the latest revision. *)
Theorem link_policy
    (self : AsyncOBS.t) (project package : string) (e : Env) (w : World) :
  let root := listing e self project package (Some "latest") in
  let target := project_link e self project package in
  let out := run (AsyncOBS.files_md5_revision self project package) e w in
  is_Some (Xml.find_attr "entry" "name" "_link" root) ->
  (AsyncOBS.link self = "never" -> AsyncOBS.crosses target project = true ->
   out.1 = Ok ([], None) /\
   last (log out.2) =
     Some (Print ("ERROR: Link " +:+ project +:+ "/" +:+ package +:+
                  " pointing outside (" +:+ fmt target +:+ ")"))) /\
  (AsyncOBS.link self = "always" ->
   forall linkinfo, Xml.find "linkinfo" root = Some linkinfo ->
     out.1 = Ok (AsyncOBS.entries
                   (listing e self project package (Xml.get "xsrcmd5" linkinfo)),
                 Xml.get "xsrcmd5" linkinfo)) /\
  (AsyncOBS.link self = "auto" ->
   forall linkinfo, Xml.find "linkinfo" root = Some linkinfo ->
     out.1 = Ok (if AsyncOBS.crosses target project
                 then (AsyncOBS.entries
                         (listing e self project package (Xml.get "xsrcmd5" linkinfo)),
                       Xml.get "xsrcmd5" linkinfo)
                 else (AsyncOBS.entries root, Xml.get "rev" root))).
Proof.
  intros root target out [x Hlink].
  assert (Hout : out = AsyncOBS.files_md5_revision self project package e w) by done.
  rewrite files_md5_revision_run in Hout. cbv zeta in Hout.
  fold root target in Hout. rewrite Hlink in Hout.
  split; [| split].
  - intros Hnever Hcross. rewrite Hnever, Hcross in Hout.
    rewrite Hout. cbn. split; [done |]. by rewrite last_snoc.
  - intros Halways linkinfo Hinfo. rewrite Halways, Hinfo in Hout.
    rewrite andb_false_r, orb_true_r in Hout. by rewrite Hout.
  - intros Hauto linkinfo Hinfo. rewrite Hauto, Hinfo in Hout.
    rewrite andb_false_r, andb_true_r, orb_false_r in Hout.
    rewrite Hout. by destruct (AsyncOBS.crosses target project).
Qed.

Lemma link_policy_witness :
  (run (AsyncOBS.files_md5_revision (Fixture.obs_with "never") "P" "a")
       (Fixture.env_link "Q") Fixture.world0).1 = Ok ([], None) /\
  (run (AsyncOBS.files_md5_revision (Fixture.obs_with "always") "P" "a")
       (Fixture.env_link "P") Fixture.world0).1
    = Ok ([(Some "a.spec", Some "h1"); (Some "b.patch", Some "h2")], Some "x1") /\
  (run (AsyncOBS.files_md5_revision (Fixture.obs_with "auto") "P" "a")
       (Fixture.env_link "Q") Fixture.world0).1
    = Ok ([(Some "a.spec", Some "h1"); (Some "b.patch", Some "h2")], Some "x1") /\
  (run (AsyncOBS.files_md5_revision (Fixture.obs_with "auto") "P" "a")
       (Fixture.env_link "P") Fixture.world0).1
    = Ok ([(Some "_link", Some "l1"); (Some "a.spec", Some "h1")], Some "7").
Proof.
  pose (li := Xml.Element "linkinfo" [("project", "Q"); ("xsrcmd5", "x1")] []).
  pose (li' := Xml.Element "linkinfo" [("project", "P"); ("xsrcmd5", "x1")] []).
  split; [| split; [| split]].
  - refine (proj1 (proj1 (link_policy (Fixture.obs_with "never") "P" "a"
                            (Fixture.env_link "Q") Fixture.world0 _) eq_refl eq_refl)).
    vm_compute. eauto.
  - refine (proj1 (proj2 (link_policy (Fixture.obs_with "always") "P" "a"
                            (Fixture.env_link "P") Fixture.world0 _)) eq_refl li' eq_refl).
    vm_compute. eauto.
  - refine (proj2 (proj2 (link_policy (Fixture.obs_with "auto") "P" "a"
                            (Fixture.env_link "Q") Fixture.world0 _)) eq_refl li eq_refl).
    vm_compute. eauto.
  - refine (proj2 (proj2 (link_policy (Fixture.obs_with "auto") "P" "a"
                            (Fixture.env_link "P") Fixture.world0 _)) eq_refl li' eq_refl).
    vm_compute. eauto.
Defined.

(** ** The export plan *)

Lemma elem_of_filenames (files_md5 : gset (string * string)) (filename : string) :
  filename ∈ Exporter.filenames files_md5 <-> exists md5, (filename, md5) ∈ files_md5.
Proof.
  unfold Exporter.filenames. rewrite elem_of_map. split.
  - intros ([f h] & -> & Hin). by exists h.
  - intros (h & Hin). by exists (filename, h).
Qed.

Lemma elem_of_files_download (R T : gset (string * string)) (I : gset string)
    (filename : string) :
  filename ∈ Exporter.files_download R T I <->
  exists md5, (filename, md5) ∈ R /\ ((filename, md5) ∉ T) /\ (md5 ∉ I).
Proof.
  unfold Exporter.files_download. rewrite elem_of_map. split.
  - intros ([f h] & -> & Hin). apply elem_of_filter in Hin as [HI Hin].
    apply elem_of_difference in Hin as [HR HT]. by exists h.
  - intros (h & HR & HT & HI). exists (filename, h). split; [done |].
    apply elem_of_filter. split; [done |]. by apply elem_of_difference.
Qed.

Lemma elem_of_files_indexed (R T : gset (string * string)) (I : gset string)
    (filename : string) :
  filename ∈ Exporter.files_indexed R T I <->
  exists md5, (filename, md5) ∈ R /\ ((filename, md5) ∉ T) /\ md5 ∈ I.
Proof.
  unfold Exporter.files_indexed. rewrite elem_of_map. split.
  - intros ([f h] & -> & Hin). apply elem_of_filter in Hin as [HI Hin].
    apply elem_of_difference in Hin as [HR HT]. by exists h.
  - intros (h & HR & HT & HI). exists (filename, h). split; [done |].
    apply elem_of_filter. split; [done |]. by apply elem_of_difference.
Qed.

Lemma elem_of_files_delete (R T : gset (string * string)) (filename : string) :
  filename ∈ Exporter.files_delete R T <->
  (exists md5, (filename, md5) ∈ T) /\ ~ (exists md5, (filename, md5) ∈ R).
Proof.
  unfold Exporter.files_delete.
  by rewrite elem_of_difference, !elem_of_filenames.
Qed.

Lemma elem_of_files_unchanged (R T : gset (string * string)) (filename : string) :
  filename ∈ Exporter.files_unchanged R T <->
  exists md5, (filename, md5) ∈ R /\ (filename, md5) ∈ T.
Proof.
  unfold Exporter.files_unchanged. rewrite elem_of_filenames.
  by setoid_rewrite elem_of_intersection.
Qed.

(** The claim of C1 about the three sets being a partition fails: a file
    that only the registry has, with a hash that the storage already
    indexes, is neither downloaded, nor deleted, nor unchanged. *)
Lemma export_partition_counterexample :
  ~ (forall (R T : gset (string * string)) (I : gset string),
        Exporter.unique_names R -> Exporter.unique_names T ->
        Exporter.partitions
          [Exporter.files_download R T I; Exporter.files_delete R T;
           Exporter.files_unchanged R T]
          (Exporter.filenames R ∪ Exporter.filenames T)).
Proof.
  intros H.
  destruct (H {[ ("a.tar.gz", "h") ]} ∅ {[ "h" ]}) as [Hcover _].
  - intros f h h' Hin Hin'. set_solver.
  - intros f h h' Hin. set_solver.
  - vm_compute in Hcover. discriminate Hcover.
Qed.

(** The four sets of an export plan are pairwise disjoint and cover the
    filenames of both sides. *)
Lemma export_partition_four (R T : gset (string * string)) (I : gset string) :
  Exporter.unique_names R -> Exporter.unique_names T ->
  Exporter.partitions
    [Exporter.files_download R T I; Exporter.files_delete R T;
     Exporter.files_unchanged R T; Exporter.files_indexed R T I]
    (Exporter.filenames R ∪ Exporter.filenames T).
Proof.
  intros HR HT. split.
  - apply set_eq. intros f. cbn [union_list foldr].
    rewrite !elem_of_union, elem_of_files_download, elem_of_files_delete,
      elem_of_files_unchanged, elem_of_files_indexed, !elem_of_filenames.
    split.
    + intros [(h & ? & _) | [[[h ?] _] | [(h & ? & _) | [(h & ? & _) | []%elem_of_empty]]]];
        eauto.
    + intros [[h Hh] | [h Hh]].
      * destruct (decide ((f, h) ∈ T)); [right; right; left; eauto |].
        destruct (decide (h ∈ I)); [right; right; right; left; eauto | left; eauto].
      * destruct (decide (f ∈ Exporter.filenames R)) as [Hin | Hno];
          rewrite elem_of_filenames in *; [destruct Hin as [h' Hh'] |].
        -- destruct (decide ((f, h') ∈ T)); [right; right; left; eauto |].
           destruct (decide (h' ∈ I)); [right; right; right; left; eauto | left; eauto].
        -- right; left. eauto.
  - intros i j a b Ha Hb Hij. apply elem_of_disjoint. intros f Hfa Hfb.
    destruct i as [| [| [| [| i]]]]; try done;
      destruct j as [| [| [| [| j]]]]; try done;
      cbn in Ha, Hb; simplify_eq;
      repeat match goal with
        | H : _ ∈ Exporter.files_download _ _ _ |- _ =>
            apply elem_of_files_download in H as (? & ? & ? & ?)
        | H : _ ∈ Exporter.files_indexed _ _ _ |- _ =>
            apply elem_of_files_indexed in H as (? & ? & ? & ?)
        | H : _ ∈ Exporter.files_delete _ _ |- _ =>
            apply elem_of_files_delete in H as [[? ?] ?]
        | H : _ ∈ Exporter.files_unchanged _ _ |- _ =>
            apply elem_of_files_unchanged in H as (? & ? & ?)
        end;
      try (match goal with H : ~ (exists _, _) |- _ => apply H; eauto end; fail);
      repeat match goal with
        | H1 : (f, ?h) ∈ R, H2 : (f, ?h') ∈ R |- _ =>
            assert (h = h') by (eapply HR; eauto); subst h; clear H1
        end; done.
Qed.

(** C1 (amended): [files_download] holds the filenames of the registry
    entries that are not entries of the tree and whose hash is not
    indexed; [files_delete] holds the filenames of the tree that the
    registry does not have.  When filenames are unique within each file
    set, these two sets, the unchanged filenames and the filenames left to
    the storage (entry not in the tree, hash indexed) are pairwise disjoint
    and cover the filenames of both sides. *)
Theorem export_plan_sets (R T : gset (string * string)) (I : gset string) :
  Exporter.unique_names R -> Exporter.unique_names T ->
  (forall filename,
      filename ∈ Exporter.files_download R T I <->
      exists md5, (filename, md5) ∈ R /\ ((filename, md5) ∉ T) /\ (md5 ∉ I)) /\
  (forall filename,
      filename ∈ Exporter.files_delete R T <->
      filename ∈ Exporter.filenames T /\ filename ∉ Exporter.filenames R) /\
  Exporter.partitions
    [Exporter.files_download R T I; Exporter.files_delete R T;
     Exporter.files_unchanged R T; Exporter.files_indexed R T I]
    (Exporter.filenames R ∪ Exporter.filenames T).
Proof.
  intros HR HT. split; [| split].
  - intros f. apply elem_of_files_download.
  - intros f. unfold Exporter.files_delete. apply elem_of_difference.
  - by apply export_partition_four.
Qed.

Lemma export_plan_sets_witness :
  Exporter.partitions
    [Exporter.files_download Fixture.registry_set Fixture.tree_set Fixture.index_set;
     Exporter.files_delete Fixture.registry_set Fixture.tree_set;
     Exporter.files_unchanged Fixture.registry_set Fixture.tree_set;
     Exporter.files_indexed Fixture.registry_set Fixture.tree_set Fixture.index_set]
    (Exporter.filenames Fixture.registry_set ∪ Exporter.filenames Fixture.tree_set).
Proof.
  refine (proj2 (proj2 (export_plan_sets Fixture.registry_set Fixture.tree_set
                          Fixture.index_set _ _)));
    intros f h h'; unfold Fixture.registry_set, Fixture.tree_set;
    rewrite !elem_of_union, !elem_of_singleton; intros H1 H2;
    repeat (destruct H1 as [H1 | H1]); repeat (destruct H2 as [H2 | H2]);
    congruence.
Defined.

(** ** The binary classifier *)

(** The run of [is_binary], case by case. *)
Lemma is_binary_run (filename : path) e w :
  Exporter.is_binary filename e w =
  let suffix := Py.suffix (Exporter.name filename) in
  if Exporter.mem suffix Exporter.BINARY ||
     Exporter.mem suffix Exporter.NON_BINARY_EXCEPTIONS then (Ok true, w)
  else if Exporter.mem suffix Exporter.NON_BINARY then (Ok false, w)
  else
    match files w !! filename with
    | None => (Raise (FileNotFoundError filename), logged (Stat filename) w)
    | Some content =>
        if Z.of_nat (List.length content) <? 5 * 1024
        then (Ok false, logged (Stat filename) w)
        else
          let chunk := take (Z.to_nat (4 * 1024)) content in
          let w' := logged (ReadChunk filename (4 * 1024)) (logged (Stat filename) w) in
          if Py.utf8_decodes chunk then (Ok false, w')
          else (Ok (Exporter.Qltb (chardet_confidence e chunk)
                                  Exporter.confidence_threshold), w')
    end.
Proof.
  unfold Exporter.is_binary. cbv zeta.
  destruct (_ || _); [reflexivity |].
  destruct (Exporter.mem _ Exporter.NON_BINARY); [reflexivity |].
  unfold Git.read_file. msimpl. cbn [log files set_log].
  destruct (files w !! filename) as [content |]; [| reflexivity].
  destruct (_ <? _); [reflexivity |].
  destruct (Py.utf8_decodes _); reflexivity.
Qed.

Lemma Qltb_lt (a b : Q) : Exporter.Qltb a b = true <-> (a < b)%Q.
Proof.
  unfold Exporter.Qltb. rewrite Qlt_alt. destruct (a ?= b)%Q; split; congruence.
Qed.

(** C5: the classifier decides in this order.  A known binary extension or
    the known exception gives binary; otherwise a known text extension
    gives text; otherwise a file of less than 5 KB gives text, and only its
    size has been looked at; otherwise a leading window of 4 KB that
    decodes as UTF-8 gives text; otherwise the file is binary exactly when
    the confidence of the statistical detection on that window is below
    the double [0.8].  For a confidence that is a double between one half
    and one, a multiple of [2^-53], being below that double is being below
    four fifths. *)
Theorem is_binary_decision_order (filename : path) (e : Env) (w : World) :
  let suffix := Py.suffix (Exporter.name filename) in
  let out := run (Exporter.is_binary filename) e w in
  (Exporter.mem suffix Exporter.BINARY = true \/
   Exporter.mem suffix Exporter.NON_BINARY_EXCEPTIONS = true ->
   out = (Ok true, w)) /\
  (Exporter.mem suffix Exporter.BINARY = false ->
   Exporter.mem suffix Exporter.NON_BINARY_EXCEPTIONS = false ->
   (Exporter.mem suffix Exporter.NON_BINARY = true -> out = (Ok false, w)) /\
   (Exporter.mem suffix Exporter.NON_BINARY = false ->
    forall content, files w !! filename = Some content ->
      let chunk := take 4096 content in
      (Z.of_nat (List.length content) < 5 * 1024 ->
       out = (Ok false, logged (Stat filename) w)) /\
      (5 * 1024 <= Z.of_nat (List.length content) ->
       log out.2 = log w ++ [Stat filename; ReadChunk filename 4096] /\
       (Py.utf8_decodes chunk = true -> out.1 = Ok false) /\
       (Py.utf8_decodes chunk = false ->
        exists binary, out.1 = Ok binary /\
          (binary = true <->
           (chardet_confidence e chunk < Exporter.confidence_threshold)%Q))))) /\
  (forall m : Z,
      (m # 9007199254740992 < Exporter.confidence_threshold)%Q <->
      (m # 9007199254740992 < 8 # 10)%Q).
Proof.
  intros suffix out.
  assert (Hout : out = Exporter.is_binary filename e w) by done.
  rewrite is_binary_run in Hout. cbv zeta in Hout. fold suffix in Hout.
  split; [| split].
  - intros [H | H]; rewrite H in Hout; [done |]. by rewrite orb_true_r in Hout.
  - intros Hb Hx. rewrite Hb, Hx in Hout. cbn [orb] in Hout. split.
    + intros Ht. by rewrite Ht in Hout.
    + intros Ht content Hfile chunk. rewrite Ht, Hfile in Hout. split.
      * intros Hsmall. apply Z.ltb_lt in Hsmall. by rewrite Hsmall in Hout.
      * intros Hbig. apply Z.ltb_ge in Hbig. rewrite Hbig in Hout.
        change (Z.to_nat (4 * 1024)) with 4096%nat in Hout.
        change (4 * 1024) with 4096 in Hout. fold chunk in Hout.
        destruct (Py.utf8_decodes chunk); rewrite Hout; cbn.
        -- rewrite <- app_assoc. done.
        -- rewrite <- app_assoc. split; [done |]. split; [done |].
           intros _. eexists. split; [done |]. apply Qltb_lt.
  - intros m. unfold Exporter.confidence_threshold, Qlt. cbn. lia.
Qed.

Lemma is_binary_decision_order_witness :
  run (Exporter.is_binary (PkgFile "a" "a-1.0.tar.gz")) Fixture.env0 Fixture.world0
    = (Ok true, Fixture.world0) /\
  run (Exporter.is_binary (PkgFile "a" "a.spec")) Fixture.env0 Fixture.world0
    = (Ok false, Fixture.world0) /\
  (let w := Fixture.world_with_file "a" "blob" (repeat Byte.xff 1024) in
   run (Exporter.is_binary (PkgFile "a" "blob")) Fixture.env0 w
     = (Ok false, logged (Stat (PkgFile "a" "blob")) w)) /\
  (let w := Fixture.world_with_file "a" "blob" (repeat Byte.x61 (6 * 1024)) in
   (run (Exporter.is_binary (PkgFile "a" "blob")) Fixture.env0 w).1 = Ok false) /\
  (let w := Fixture.world_with_file "a" "blob" (repeat Byte.xff (6 * 1024)) in
   exists binary,
     (run (Exporter.is_binary (PkgFile "a" "blob")) Fixture.env0 w).1 = Ok binary /\
     (binary = true <->
      (chardet_confidence Fixture.env0 (take 4096 (repeat Byte.xff (6 * 1024)))
       < Exporter.confidence_threshold)%Q)).
Proof.
  split; [| split; [| split; [| split]]].
  - apply (is_binary_decision_order (PkgFile "a" "a-1.0.tar.gz")). by left.
  - by apply (is_binary_decision_order (PkgFile "a" "a.spec")).
  - intros w.
    refine (proj1 (proj2 (proj1 (proj2 (is_binary_decision_order (PkgFile "a" "blob")
                                          Fixture.env0 w)) eq_refl eq_refl)
                     eq_refl (repeat Byte.xff 1024) _) _).
    + vm_compute. reflexivity.
    + vm_compute. reflexivity.
  - intros w.
    refine (proj1 (proj2 (proj2 (proj2 (proj1 (proj2 (is_binary_decision_order
                                                        (PkgFile "a" "blob")
                                                        Fixture.env0 w))
                                          eq_refl eq_refl)
                                   eq_refl (repeat Byte.x61 (6 * 1024)) _) _)) _).
    + vm_compute. reflexivity.
    + vm_compute. discriminate.
    + vm_compute. reflexivity.
  - intros w.
    refine (proj2 (proj2 (proj2 (proj2 (proj1 (proj2 (is_binary_decision_order
                                                        (PkgFile "a" "blob")
                                                        Fixture.env0 w))
                                          eq_refl eq_refl)
                                   eq_refl (repeat Byte.xff (6 * 1024)) _) _)) _).
    + vm_compute. reflexivity.
    + vm_compute. discriminate.
    + vm_compute. reflexivity.
Defined.

(** ** Changelog stamping *)

Lemma append_assoc (a b c : string) : (a +:+ b) +:+ c = a +:+ b +:+ c.
Proof. induction a as [| x a IH]; [done | exact (f_equal (String x) IH)]. Qed.

Lemma list_byte_of_string_append (a b : string) :
  list_byte_of_string (a +:+ b) = list_byte_of_string a ++ list_byte_of_string b.
Proof.
  unfold list_byte_of_string.
  induction a as [| x a IH]; [done | exact (f_equal (cons (byte_of_ascii x)) IH)].
Qed.

Lemma changes_git_entry_run (package : string) (r : revision) e w :
  changes_cache_ok w ->
  first_entry w !! package = Some r ->
  exists w',
    Importer.changes_git_entry package e w = (Ok (Importer.changes_entry r), w') /\
    files w' = files w /\ dirs w' = dirs w /\ log w' = log w /\
    first_entry w' = first_entry w /\ changes_cache_ok w'.
Proof.
  intros Hok Hfirst. unfold Importer.changes_git_entry, Git.last_revision_to. msimpl.
  destruct (changes_cache w !! package) as [entry |] eqn:Hcache.
  - destruct (Hok _ _ Hcache) as (r' & Hr' & ->).
    exists w. rewrite Hfirst in Hr'. by simplify_eq.
  - rewrite Hfirst. eexists. split; [reflexivity |]. cbn.
    repeat split; try done.
    intros pk entry. cbn. rewrite lookup_insert.
    case_decide as Hpk; [| apply Hok].
    intros [= <-]. subst pk. eauto.
Qed.

(** C6: for a revision record [r] of the package and a changelog with the
    bytes [raw], the content synthesised for the upload is a line of 67
    dashes, the line [<date> - <author> <<email>>], an empty line, the line
    [- Last git synchronization: <commit id>], an empty line, and then
    [raw] unmodified.  Synthesising it leaves every file of the tree, the
    directories and the log of calls as they were. *)
Theorem changes_stamp
    (package : string) (filename_path : path) (r : revision) (raw : bytes)
    (e : Env) (w : World) :
  changes_cache_ok w ->
  first_entry w !! package = Some r ->
  files w !! filename_path = Some raw ->
  let out := run (Importer.prepend_changes filename_path package) e w in
  out.1 = Ok (list_byte_of_string
                ("-------------------------------------------------------------------"
                 +:+ nl +:+
                 Py.strftime_changes (commit_date r) +:+ " - " +:+ author r +:+
                 " <" +:+ email r +:+ ">" +:+ nl +:+
                 nl +:+
                 "- Last git synchronization: " +:+ commit_hash r +:+ nl +:+
                 nl)
              ++ raw) /\
  files out.2 = files w /\ dirs out.2 = dirs w /\ log out.2 = log w /\
  changes_cache_ok out.2.
Proof.
  intros Hok Hfirst Hfile out.
  destruct (changes_git_entry_run package r e w Hok Hfirst)
    as (w' & Hrun & Hfiles & Hdirs & Hlog & _ & Hok').
  assert (Hout : out = (Ok (list_byte_of_string (Importer.changes_entry r) ++ raw), w')).
  { unfold out, run, Importer.prepend_changes, Git.read_file. msimpl.
    rewrite Hfile. by rewrite Hrun. }
  rewrite Hout. cbn [fst snd]. split; [| done].
  do 3 f_equal. unfold Importer.changes_entry. cbv zeta.
  change Importer.separator
    with "-------------------------------------------------------------------".
  by rewrite !append_assoc.
Qed.

Lemma changes_stamp_witness :
  (run (Importer.prepend_changes (PkgFile "a" "a.changes") "a") Fixture.env0
       Fixture.world_changes).1
  = Ok (list_byte_of_string
          ("-------------------------------------------------------------------"
           +:+ nl +:+
           "Sun Sep 13 12:26:40 UTC 2020 - Jane Doe <jane@example.org>" +:+ nl +:+
           nl +:+
           "- Last git synchronization: 1a2b3c" +:+ nl +:+
           nl +:+
           "- initial release")).
Proof.
  refine (eq_trans (proj1 (changes_stamp "a" (PkgFile "a" "a.changes") Fixture.jane
                             (list_byte_of_string "- initial release")
                             Fixture.env0 Fixture.world_changes _ _ _)) _).
  - intros pk entry H. vm_compute in H. discriminate H.
  - vm_compute. reflexivity.
  - vm_compute. reflexivity.
  - vm_compute. reflexivity.
Defined.

(** ** Calls issued by the primitives *)

Ltac emits_unfold :=
  unfold AsyncOBS.download, AsyncOBS._download, AsyncOBS.upload, AsyncOBS._upload,
    AsyncOBS.delete, AsyncOBS._delete, AsyncOBS.command, AsyncOBS._command,
    AsyncOBS.transfer, AsyncOBS._transfer, AsyncOBS.request, AsyncOBS._xml,
    AsyncOBS.exists_, AsyncOBS.packages,
    Git.read_file, Git.write_file, Git.delete, Git.mkdir, Git.exists_file,
    Git.exists_dir, Git.files_md5, Git.packages, Git.path_text, Git.head_hash,
    Git.last_revision_to.

(** Walks through a computation; [tac] proves that a call is allowed. *)
Ltac emits_go tac :=
  repeat (emits_unfold; first [emits_step | (apply emits_emit; monoidal); tac]).

Ltac one_event := apply Forall_singleton; cbn; try done.

Lemma emits_str_pairs (Q : list event -> Prop) `{!Monoidal Q} l : emits Q (str_pairs l).
Proof.
  induction l as [| [[a |] [b |]] l IH]; cbn [str_pairs]; [| | emits_step ..].
  - emits_step.
  - emits_step; [apply IH | emits_step].
Qed.

Lemma emits_strs (Q : list event -> Prop) `{!Monoidal Q} l : emits Q (strs l).
Proof.
  induction l as [| [a |] l IH]; cbn [strs]; [| | emits_step].
  - emits_step.
  - emits_step; [apply IH | emits_step].
Qed.

(** ** The content store: transfer *)

Lemma storage_obs_transfer_missing (s : StorageOBS.t)
    (md5 project package filename : string) (obs : AsyncOBS.t) (ps : params) e w :
  md5 ∉ index w ->
  StorageOBS.transfer s md5 project package filename obs ps e w =
  (Raise (AssertionError ("File " +:+ package +:+ "/" +:+ filename +:+ " (" +:+
                          md5 +:+ ") missing from storage")), w).
Proof.
  intros Hno. unfold StorageOBS.transfer. msimpl.
  by rewrite bool_decide_eq_false_2.
Qed.

(** The claim of C9 for the LFS store fails: its index is empty, so every
    hash is missing from it, and yet its [transfer] returns normally. *)
Lemma lfs_transfer_counterexample :
  ~ (forall (md5 project package filename : string) (obs : AsyncOBS.t)
            (e : Env) (w : World),
        md5 ∉ index w ->
        exists msg,
          (run (StorageLFS.transfer md5 project package filename obs) e w).1
          = Raise (AssertionError msg)).
Proof.
  intros H.
  assert (Hno : "0cc175b9c0f1b6a8" ∉ index Fixture.world0) by apply not_elem_of_empty.
  destruct (H "0cc175b9c0f1b6a8" "P" "a" "a.tar.gz" (Fixture.obs_with "never")
              Fixture.env0 Fixture.world0 Hno) as [msg Hmsg].
  discriminate Hmsg.
Qed.

(** C9 (amended): the registry-backed store refuses a transfer whose hash its
    index lacks with an [AssertionError], before any request is sent and
    without changing anything.  When the hash is indexed it fetches the
    stored object, named by the hash, and puts it at the destination
    [source/<project>/<package>/<filename>] of the destination registry.
    The [transfer] of the LFS store does nothing for any hash: it neither
    fails nor copies. *)
Theorem storage_transfer
    (s : StorageOBS.t) (md5 project package filename : string)
    (obs : AsyncOBS.t) (ps : params) (e : Env) (w : World) :
  (md5 ∉ index w ->
   exists msg,
     run (StorageOBS.transfer s md5 project package filename obs ps) e w
     = (Raise (AssertionError msg), w)) /\
  (md5 ∈ index w -> package ≠ "" -> filename ≠ "" ->
   let source := AsyncOBS.url (StorageOBS.s_obs s) +:+ "/" +:+
                 ("source/" +:+ StorageOBS.s_project s +:+ "/" +:+
                  StorageOBS.s_package s +:+ "/" +:+ md5) in
   let destination := AsyncOBS.url obs +:+ "/" +:+
                      ("source/" +:+ project +:+ "/" +:+ package +:+ "/" +:+ filename) in
   forall status status',
     http_status e (Get source []) = Some status ->
     http_status e (Put destination ps (Stream source)) = Some status' ->
     let out := run (StorageOBS.transfer s md5 project package filename obs ps) e w in
     out.1 = Ok () /\
     events_of (StorageOBS.transfer s md5 project package filename obs ps) e w =
       [Print ("(StorageOBS) transfering " +:+ project +:+ "/" +:+ package +:+
               "/" +:+ filename);
        Get source [];
        Put destination ps (Stream source);
        Print ("(StorageOBS) transferred " +:+ project +:+ "/" +:+ package +:+
               "/" +:+ filename)]) /\
  run (StorageLFS.transfer md5 project package filename obs) e w = (Ok (), w).
Proof.
  split; [| split]; [| | reflexivity].
  - intros Hno. eexists. by apply storage_obs_transfer_missing.
  - intros Hin Hpk Hfn source destination status status' Hget Hput out.
    assert (Hrun : StorageOBS.transfer s md5 project package filename obs ps e w =
                   (Ok (), logged (Print ("(StorageOBS) transferred " +:+ project +:+
                                          "/" +:+ package +:+ "/" +:+ filename))
                             (logged (Put destination ps (Stream source))
                                (logged (Get source [])
                                   (logged (Print ("(StorageOBS) transfering " +:+
                                                   project +:+ "/" +:+ package +:+
                                                   "/" +:+ filename)) w))))).
    { unfold StorageOBS.transfer, AsyncOBS.transfer, AsyncOBS._transfer,
        AsyncOBS.request.
      msimpl. rewrite bool_decide_eq_true_2 by done.
      assert (Ht : forall x, x ≠ "" -> truthy (Some x) = true).
      { intros x Hx. cbn. by destruct (String.eqb_spec x ""). }
      rewrite !Ht by done. cbn [default from_option id].
      fold source. rewrite Hget. fold destination. rewrite Hput. reflexivity. }
    unfold out, run, events_of. rewrite Hrun. cbn [fst snd log logged set_log].
    split; [done |].
    rewrite <- !app_assoc. by rewrite drop_app_length.
Qed.

Lemma storage_transfer_witness :
  (exists msg,
      run (StorageOBS.transfer Fixture.storage_obs "3" "P" "a" "b.tar.gz"
             (Fixture.obs_with "never") [("rev", Some "repository")])
          Fixture.env0 Fixture.world0
      = (Raise (AssertionError msg), Fixture.world0)) /\
  (run (StorageOBS.transfer Fixture.storage_obs "3" "P" "a" "b.tar.gz"
          (Fixture.obs_with "never") [("rev", Some "repository")])
       Fixture.env0 (set_index (fun _ => Fixture.index_set) Fixture.world0)).1 = Ok ().
Proof.
  split.
  - refine (proj1 (storage_transfer Fixture.storage_obs "3" "P" "a" "b.tar.gz"
                     (Fixture.obs_with "never") [("rev", Some "repository")]
                     Fixture.env0 Fixture.world0) _).
    apply not_elem_of_empty.
  - refine (proj1 (proj1 (proj2 (storage_transfer Fixture.storage_obs "3" "P" "a"
                                   "b.tar.gz" (Fixture.obs_with "never")
                                   [("rev", Some "repository")] Fixture.env0
                                   (set_index (fun _ => Fixture.index_set) Fixture.world0)))
                     _ _ _ 200 200 eq_refl eq_refl)).
    + vm_compute. reflexivity.
    + discriminate.
    + discriminate.
Defined.

(** ** asyncio.gather *)

Lemma gather_cons_world (t : M unit) (ts : list (M unit)) e w :
  (gather (t :: ts) e w).2 = (gather ts e (t e w).2).2.
Proof.
  cbn [gather]. msimpl.
  destruct (t e w) as [[[] | x] w1]; cbn [fst snd];
    destruct (gather ts e w1) as [[[] | y] w2]; done.
Qed.

Lemma gather_cons_ok (t : M unit) (ts : list (M unit)) e w :
  is_ok (gather (t :: ts) e w).1 =
  is_ok (t e w).1 && is_ok (gather ts e (t e w).2).1.
Proof.
  cbn [gather]. msimpl.
  destruct (t e w) as [[[] | x] w1]; cbn [fst snd];
    destruct (gather ts e w1) as [[[] | y] w2]; done.
Qed.

(** An invariant kept by every awaitable is kept by [gather]. *)
Lemma gather_invariant (Inv : World -> Prop) (e : Env) (tasks : list (M unit)) :
  Forall (fun t => forall w, Inv w -> Inv (t e w).2) tasks ->
  forall w, Inv w -> Inv (gather tasks e w).2.
Proof.
  induction 1 as [| t ts Ht _ IH]; intros w Hw; [done |].
  rewrite gather_cons_world. apply IH, Ht, Hw.
Qed.

(** A call that one awaitable issues from every state that satisfies the
    invariant is in the log after [gather]. *)
Lemma gather_issues (Inv : World -> Prop) (e : Env) (ev : event)
    (tasks : list (M unit)) (t0 : M unit) :
  Forall (fun t => forall w, Inv w ->
                     Inv (t e w).2 /\ exists evs, log (t e w).2 = log w ++ evs) tasks ->
  t0 ∈ tasks ->
  (forall w, Inv w -> exists evs, log (t0 e w).2 = log w ++ evs /\ ev ∈ evs) ->
  forall w, Inv w ->
    exists evs, log (gather tasks e w).2 = log w ++ evs /\ ev ∈ evs.
Proof.
  intros Hall Hin H0.
  assert (Hgrow : forall ts, Forall (fun t => forall w, Inv w ->
                     Inv (t e w).2 /\ exists evs, log (t e w).2 = log w ++ evs) ts ->
                  forall w, Inv w -> exists evs, log (gather ts e w).2 = log w ++ evs).
  { induction 1 as [| t ts Ht _ IH]; intros w Hw.
    - exists []. cbn. by rewrite app_nil_r.
    - rewrite gather_cons_world. destruct (Ht w Hw) as (Hw1 & evs1 & Hlog1).
      destruct (IH _ Hw1) as (evs2 & Hlog2). exists (evs1 ++ evs2).
      by rewrite Hlog2, Hlog1, app_assoc. }
  induction Hall as [| t ts Ht Hts IH]; intros w Hw; [by apply elem_of_nil in Hin |].
  rewrite gather_cons_world. destruct (Ht w Hw) as (Hw1 & evs1 & Hlog1).
  apply elem_of_cons in Hin as [-> | Hin].
  - destruct (H0 w Hw) as (evs0 & Hlog0 & Hev).
    destruct (Hgrow ts Hts _ Hw1) as (evs2 & Hlog2).
    exists (evs0 ++ evs2). rewrite Hlog2, Hlog0, app_assoc.
    split; [done |]. apply elem_of_app. by left.
  - destruct (IH Hin _ Hw1) as (evs2 & Hlog2 & Hev).
    exists (evs1 ++ evs2). rewrite Hlog2, Hlog1, app_assoc.
    split; [done |]. apply elem_of_app. by right.
Qed.

(** [gather] raises as soon as one awaitable raises from every state that
    satisfies the invariant. *)
Lemma gather_raises (Inv : World -> Prop) (e : Env) (tasks : list (M unit))
    (t0 : M unit) :
  Forall (fun t => forall w, Inv w -> Inv (t e w).2) tasks ->
  t0 ∈ tasks ->
  (forall w, Inv w -> is_ok (t0 e w).1 = false) ->
  forall w, Inv w -> is_ok (gather tasks e w).1 = false.
Proof.
  intros Hall Hin H0.
  induction Hall as [| t ts Ht Hts IH]; intros w Hw; [by apply elem_of_nil in Hin |].
  rewrite gather_cons_ok. apply elem_of_cons in Hin as [-> | Hin].
  - by rewrite H0.
  - rewrite (IH Hin) by by apply Ht. apply andb_false_r.
Qed.

Lemma events_of_eq {A} (m : M A) e w evs :
  log (m e w).2 = log w ++ evs -> events_of m e w = evs.
Proof. intros H. unfold events_of. by rewrite H, drop_app_length. Qed.

(** ** The content store: storing files *)

(** The run of [StorageOBS._store] on a file that exists. *)
Lemma storage_obs_store_run (s : StorageOBS.t) (package filename md5 : string)
    (content : bytes) e w :
  files w !! PkgFile package filename = Some content ->
  exists text tail,
    log (StorageOBS._store s (PkgFile package filename) md5 e w).2 =
      log w ++ Print text :: store_upload s package filename md5 :: tail /\
    Forall (fun ev => is_put ev = false) tail /\
    files (StorageOBS._store s (PkgFile package filename) md5 e w).2 = files w /\
    dirs (StorageOBS._store s (PkgFile package filename) md5 e w).2 = dirs w.
Proof.
  intros Hfile.
  unfold StorageOBS._store, AsyncOBS.upload, AsyncOBS._upload, AsyncOBS.request,
    Git.path_text, Git.read_file.
  msimpl. cbn [files set_log set_sync set_index log dirs].
  rewrite Hfile. fold (stored_object_url s md5). fold (store_upload s package filename md5).
  destruct (http_status e _) as [status |]; cbn [fst snd log set_log files dirs].
  - destruct (negb _); cbn [fst snd log set_log files dirs]; rewrite <- !app_assoc;
      do 2 eexists; (split; [reflexivity |]); repeat constructor.
  - rewrite <- !app_assoc. do 2 eexists. split; [reflexivity |]. repeat constructor.
Qed.

Lemma storage_obs_store_emits (s : StorageOBS.t) (package filename md5 : string)
    (P : event -> Prop) :
  (forall ev, is_put ev = false -> P ev) ->
  P (store_upload s package filename md5) ->
  emits (Forall P) (StorageOBS._store s (PkgFile package filename) md5).
Proof.
  intros Hn Hp. unfold StorageOBS._store.
  emits_go ltac:(apply Forall_singleton; first [by apply Hn | exact Hp]).
Qed.

Lemma git_delete_emits (package : string) (filename : option string)
    (P : event -> Prop) :
  (forall p, P (Unlink p)) -> (forall pk, P (Rmtree pk)) ->
  emits (Forall P) (Git.delete package filename).
Proof.
  intros Hu Hr.
  emits_go ltac:(apply Forall_singleton; first [apply Hu | apply Hr]).
Qed.

Lemma git_write_file_emits (p : path) (b : bytes) (P : event -> Prop) :
  P (WriteFile p) -> emits (Forall P) (Git.write_file p b).
Proof. intros Hw. emits_go ltac:(by apply Forall_singleton). Qed.

Lemma elem_of_filter_list {A} (f : A -> bool) (l : list A) (x : A) :
  x ∈ List.filter f l <-> x ∈ l /\ f x = true.
Proof. rewrite !list_elem_of_In. apply filter_In. Qed.

Lemma store_files_unfold (s : StorageOBS.t) (package : string)
    (files_md5 : list (string * string)) e w :
  StorageOBS.store_files s package files_md5 e w =
  StorageOBS.store_files_body s package files_md5 w e w.
Proof. reflexivity. Qed.

Lemma store_files_only_present (s : StorageOBS.t) (package : string)
    (files_md5 : list (string * string)) (w0 : World) :
  emits (Forall (fun ev =>
           is_put ev = true ->
           exists filename md5,
             (filename, md5) ∈ files_md5 /\
             is_Some (files w0 !! PkgFile package filename) /\
             ev = store_upload s package filename md5))
        (StorageOBS.store_files_body s package files_md5 w0).
Proof.
  unfold StorageOBS.store_files_body. cbv zeta.
  emits_step; [apply emits_gather; monoidal
              | emits_step; [apply emits_gather; monoidal |]].
  - apply Forall_fmap, Forall_forall. intros [f m] Hin.
    apply elem_of_filter_list in Hin as [Hin Hex].
    apply bool_decide_eq_true in Hex. cbn.
    apply storage_obs_store_emits; [intros ev -> | intros _]; [done |]. eauto.
  - apply Forall_fmap, Forall_forall. intros [f m] _. cbn.
    by apply git_delete_emits.
  - by apply git_write_file_emits.
Qed.

Lemma store_files_all_present (s : StorageOBS.t) (package : string)
    (files_md5 : list (string * string)) (filename md5 : string) e w :
  (filename, md5) ∈ files_md5 ->
  is_Some (files w !! PkgFile package filename) ->
  store_upload s package filename md5
    ∈ events_of (StorageOBS.store_files s package files_md5) e w.
Proof.
  intros Hin Hex.
  pose (present := List.filter
                     (fun '(f, _) => bool_decide (is_Some (files w !! PkgFile package f)))
                     files_md5).
  pose (stores := (fun '(f, m) => StorageOBS._store s (PkgFile package f) m) <$> present).
  assert (Hstores : exists evs, log (gather stores e w).2 = log w ++ evs /\
                                store_upload s package filename md5 ∈ evs).
  { apply (gather_issues (fun w' => files w' = files w) e _ stores
             (StorageOBS._store s (PkgFile package filename) md5)); [| | | done].
    - apply Forall_fmap, Forall_forall. intros [f m] Hf.
      apply elem_of_filter_list in Hf as [_ Hf]. apply bool_decide_eq_true in Hf.
      intros w' Hw'. cbn. rewrite <- Hw' in Hf. destruct Hf as [content Hf].
      destruct (storage_obs_store_run s package f m content e w' Hf)
        as (text & tail & Hlog & _ & Hfiles & _).
      split; [congruence | eauto].
    - apply (list_elem_of_fmap_2 (fun '(f, m) => StorageOBS._store s (PkgFile package f) m)
               present (filename, md5)).
      apply elem_of_filter_list. split; [done |]. by apply bool_decide_eq_true.
    - intros w' Hw'. rewrite <- Hw' in Hex. destruct Hex as [content Hf].
      destruct (storage_obs_store_run s package filename md5 content e w' Hf)
        as (text & tail & Hlog & _).
      eexists. split; [exact Hlog |]. apply elem_of_cons. right. apply elem_of_cons. by left. }
  destruct Hstores as (evs1 & Hlog1 & Hev).
  assert (Hrest : emits (Forall (fun _ => True))
                    (gather ((fun '(f, _) => Git.delete package (Some f)) <$> present)
                     ≫= fun _ => Git.write_file (PkgMeta package "files")
                                   (list_byte_of_string
                                      (StorageOBS.pointer_text files_md5)))).
  { emits_step; [apply emits_gather; monoidal |].
    - apply Forall_fmap, Forall_forall. intros [f m] _. cbn.
      by apply git_delete_emits.
    - by apply git_write_file_emits. }
  unfold events_of.
  rewrite store_files_unfold. unfold StorageOBS.store_files_body. cbv zeta.
  fold present. fold stores.
  assert (Hlog : exists evs2,
             log ((gather stores ≫= fun _ =>
                   gather ((fun '(f, _) => Git.delete package (Some f)) <$> present)
                   ≫= fun _ => Git.write_file (PkgMeta package "files")
                                 (list_byte_of_string
                                    (StorageOBS.pointer_text files_md5))) e w).2
             = log w ++ evs1 ++ evs2).
  { rewrite run_bind. destruct (gather stores e w) as [[[] | x] w1]; cbn [snd] in *.
    - destruct (Hrest e w1) as (evs2 & Hlog2 & _). exists evs2.
      by rewrite Hlog2, Hlog1, app_assoc.
    - exists []. by rewrite app_nil_r. }
  destruct Hlog as (evs2 & Hlog).
  rewrite Hlog, drop_app_length. apply elem_of_app. by left.
Qed.

Lemma sorted_elem_of (l : list (string * string)) (entry : string * string) :
  entry ∈ Py.sorted l <-> entry ∈ l.
Proof. unfold Py.sorted. by rewrite merge_sort_Permutation. Qed.

Lemma store_files_pointer (s : StorageOBS.t) (package : string)
    (files_md5 : list (string * string)) e w :
  (StorageOBS.store_files s package files_md5 e w).1 = Ok () ->
  files (StorageOBS.store_files s package files_md5 e w).2 !! PkgMeta package "files"
  = Some (list_byte_of_string (StorageOBS.pointer_text files_md5)).
Proof.
  rewrite store_files_unfold. unfold StorageOBS.store_files_body. cbv zeta.
  rewrite run_bind. destruct (gather _ e w) as [[[] | x] w1]; [| done].
  rewrite run_bind. destruct (gather _ e w1) as [[[] | y] w2]; [| done].
  unfold Git.write_file. msimpl.
  destruct (match Git.parent _ with Some d => _ | None => _ end); [| done].
  intros _. cbn. apply lookup_insert_eq.
Qed.

(** The claim of C3 fails: a file whose hash is in the index is uploaded
    again when a file of that name is present in the tree. *)
Lemma store_dedup_counterexample :
  ~ (forall (s : StorageOBS.t) (package : string) (files_md5 : list (string * string))
            (filename md5 : string) (e : Env) (w : World),
        (filename, md5) ∈ files_md5 -> md5 ∈ index w ->
        forall u ps,
          Put u ps (FromFile (PkgFile package filename))
            ∉ events_of (StorageOBS.store_files s package files_md5) e w).
Proof.
  intros H.
  refine (H Fixture.storage_obs "a" [("b.tar.gz", "3")] "b.tar.gz" "3"
            Fixture.env0 Fixture.world_indexed _ _ _ _ _).
  - apply list_elem_of_singleton. reflexivity.
  - vm_compute. reflexivity.
  - apply (store_files_all_present Fixture.storage_obs "a" [("b.tar.gz", "3")]
             "b.tar.gz" "3").
    + apply list_elem_of_singleton. reflexivity.
    + eexists. vm_compute. reflexivity.
Qed.

(** C3 (amended): [store_files] of the registry-backed store uploads a file
    of its argument list exactly when a file of that name is present in the
    package directory of the tree, whether or not its hash is in the index:
    every upload it issues is the upload of such a file under its hash, and
    a file that is absent from the tree, as is a file that the export did
    not download because its hash is indexed, is not uploaded.  When the
    call returns, the pointer manifest [.obs/files] holds one line for every
    file of the argument list, sorted. *)
Theorem store_files_uploads
    (s : StorageOBS.t) (package : string) (files_md5 : list (string * string))
    (e : Env) (w : World) :
  let evs := events_of (StorageOBS.store_files s package files_md5) e w in
  let out := run (StorageOBS.store_files s package files_md5) e w in
  (forall filename md5,
      (filename, md5) ∈ files_md5 ->
      (is_Some (files w !! PkgFile package filename) ->
       store_upload s package filename md5 ∈ evs) /\
      (files w !! PkgFile package filename = None ->
       forall u ps, Put u ps (FromFile (PkgFile package filename)) ∉ evs)) /\
  (forall ev,
      ev ∈ evs -> is_put ev = true ->
      exists filename md5,
        (filename, md5) ∈ files_md5 /\
        is_Some (files w !! PkgFile package filename) /\
        ev = store_upload s package filename md5) /\
  (out.1 = Ok () ->
   files out.2 !! PkgMeta package "files"
   = Some (list_byte_of_string
             (String.concat "" (StorageOBS.pointer_line <$> Py.sorted files_md5))) /\
   forall entry, entry ∈ Py.sorted files_md5 <-> entry ∈ files_md5).
Proof.
  intros evs out.
  assert (Honly : forall ev,
             ev ∈ evs -> is_put ev = true ->
             exists filename md5,
               (filename, md5) ∈ files_md5 /\
               is_Some (files w !! PkgFile package filename) /\
               ev = store_upload s package filename md5).
  { pose proof (emits_events_of _ _ e w (store_files_only_present s package files_md5 w))
      as [_ Hall].
    rewrite Forall_forall in Hall. intros ev Hev. apply Hall. exact Hev. }
  split; [| split]; [| exact Honly |].
  - intros filename md5 Hin. split.
    + by apply store_files_all_present.
    + intros Hnone u ps Hev.
      destruct (Honly _ Hev eq_refl) as (f & m & _ & [content Hf] & Heq).
      unfold store_upload in Heq. injection Heq as _ _ <-. congruence.
  - intros Hok. split; [by apply store_files_pointer | apply sorted_elem_of].
Qed.

Lemma store_files_uploads_witness :
  store_upload Fixture.storage_obs "a" "b.tar.gz" "3"
    ∈ events_of (StorageOBS.store_files Fixture.storage_obs "a"
                   [("b.tar.gz", "3"); ("c.tar.gz", "3")])
        Fixture.env0 Fixture.world_indexed /\
  (forall u ps,
      Put u ps (FromFile (PkgFile "a" "c.tar.gz"))
        ∉ events_of (StorageOBS.store_files Fixture.storage_obs "a"
                       [("b.tar.gz", "3"); ("c.tar.gz", "3")])
            Fixture.env0 Fixture.world_indexed).
Proof.
  pose proof (store_files_uploads Fixture.storage_obs "a"
                [("b.tar.gz", "3"); ("c.tar.gz", "3")]
                Fixture.env0 Fixture.world_indexed) as [H _].
  split.
  - refine (proj1 (H "b.tar.gz" "3" _) _).
    + apply elem_of_cons. left. reflexivity.
    + eexists. vm_compute. reflexivity.
  - refine (proj2 (H "c.tar.gz" "3" _) _).
    + apply elem_of_cons. right. apply elem_of_cons. left. reflexivity.
    + vm_compute. reflexivity.
Defined.

(** ** Frame properties *)

Section Keeps.
Context (R : World -> World -> Prop) `{!PreOrder R}.

Lemma keeps_ret {A} (a : A) : keeps R (mret a).
Proof. intros e w. reflexivity. Qed.

Lemma keeps_raise {A} (x : exn) : keeps R (raise (A := A) x).
Proof. intros e w. reflexivity. Qed.

Lemma keeps_ask : keeps R ask.
Proof. intros e w. reflexivity. Qed.

Lemma keeps_get_world : keeps R get_world.
Proof. intros e w. reflexivity. Qed.

Lemma keeps_modify (f : World -> World) : (forall w, R w (f w)) -> keeps R (modify f).
Proof. intros Hf e w. apply Hf. Qed.

Lemma keeps_emit (ev : event) : (forall w, R w (logged ev w)) -> keeps R (emit ev).
Proof. intros Hf e w. apply Hf. Qed.

Lemma keeps_bind {A B} (m : M A) (f : A -> M B) :
  keeps R m -> (forall a, keeps R (f a)) -> keeps R (m ≫= f).
Proof.
  intros Hm Hf e w. rewrite run_bind. pose proof (Hm e w) as H1.
  destruct (m e w) as [[a | x] w']; cbn in *; [| done].
  etrans; [exact H1 | apply Hf].
Qed.

Lemma keeps_attempt {A} (m : M A) : keeps R m -> keeps R (attempt m).
Proof. intros Hm e w. pose proof (Hm e w). unfold attempt. by destruct (m e w). Qed.

Lemma keeps_gather (tasks : list (M unit)) :
  Forall (keeps R) tasks -> keeps R (gather tasks).
Proof.
  induction 1 as [| t ts Ht _ IH]; cbn [gather].
  - apply keeps_ret.
  - apply keeps_bind; [by apply keeps_attempt |]. intros r.
    apply keeps_bind; [by apply keeps_attempt |]. intros r'.
    destruct r, r'; first [apply keeps_ret | apply keeps_raise].
Qed.

Lemma keeps_for_each {A} (f : A -> M unit) (l : list A) :
  (forall x, keeps R (f x)) -> keeps R (for_each f l).
Proof.
  intros Hf. induction l as [| x l IH]; cbn [for_each].
  - apply keeps_ret.
  - apply keeps_bind; [apply Hf | intros _; apply IH].
Qed.

Lemma keeps_map_m {A B} (f : A -> M B) (l : list A) :
  (forall x, keeps R (f x)) -> keeps R (Importer.map_m f l).
Proof.
  intros Hf. induction l as [| x l IH]; cbn [Importer.map_m].
  - apply keeps_ret.
  - apply keeps_bind; [apply Hf | intros y].
    apply keeps_bind; [apply IH | intros r; apply keeps_ret].
Qed.

Lemma keeps_filter_m {A} (keep : A -> M bool) (l : list A) :
  (forall x, keeps R (keep x)) -> keeps R (Exporter.filter_m keep l).
Proof.
  intros Hf. induction l as [| x l IH]; cbn [Exporter.filter_m].
  - apply keeps_ret.
  - apply keeps_bind; [apply Hf | intros y].
    apply keeps_bind; [apply IH | intros r; apply keeps_ret].
Qed.
End Keeps.

Global Instance same_storage_preorder : PreOrder same_storage.
Proof.
  split.
  - by intros w.
  - intros w1 w2 w3 (H1 & H2 & H3) (H4 & H5 & H6). unfold same_storage. split_and!; congruence.
Qed.

(** Closes the side conditions that are instances of [PreOrder]. *)
Ltac preorder := try (solve [typeclasses eauto]).

Ltac keeps_step :=
  first
    [ apply keeps_ret; preorder | apply keeps_raise; preorder
    | apply keeps_ask; preorder
    | apply keeps_get_world; preorder
    | (apply keeps_bind; preorder); [| intros ?]
    | apply keeps_attempt; preorder
    | (apply keeps_for_each; preorder); intros ?
    | (apply keeps_map_m; preorder); intros ?
    | (apply keeps_filter_m; preorder); intros ?
    | match goal with
      | |- keeps _ (match ?x with _ => _ end) => destruct x
      | |- keeps _ (if ?b then _ else _) => destruct b
      end ].

(** Walks through a computation; [tac] proves that a state change or a
    call keeps the relation. *)
Ltac keeps_go tac :=
  repeat (emits_unfold;
          first [ keeps_step
                | (apply keeps_emit; preorder); intros ?; tac
                | (apply keeps_modify; preorder); intros ?; tac ]).

Lemma download_keeps_storage (obs : AsyncOBS.t) (project : string)
    (segments : list string) (p : path) (ps : params) :
  keeps same_storage (AsyncOBS.download obs project segments p ps).
Proof. keeps_go ltac:(by split_and!). Qed.

Lemma git_delete_keeps_storage (package : string) (filename : option string) :
  keeps same_storage (Git.delete package filename).
Proof. keeps_go ltac:(by split_and!). Qed.

Lemma download_emits (obs : AsyncOBS.t) (project : string)
    (segments : list string) (p : path) (ps : params) (P : event -> Prop) :
  P (Get (AsyncOBS.url obs +:+ "/" +:+ AsyncOBS.source_path project segments) ps) ->
  P (WriteFile p) ->
  emits (Forall P) (AsyncOBS.download obs project segments p ps).
Proof.
  intros Hg Hw.
  emits_go ltac:(apply Forall_singleton; first [exact Hg | exact Hw]).
Qed.

(** ** Failures during an export *)

Lemma download_fails (obs : AsyncOBS.t) (project : string) (segments : list string)
    (p : path) (ps : params) e w :
  http_body e (AsyncOBS.url obs +:+ "/" +:+ AsyncOBS.source_path project segments) ps
    = None ->
  is_ok (AsyncOBS.download obs project segments p ps e w).1 = false.
Proof.
  intros Hnone. unfold AsyncOBS.download, AsyncOBS._download. msimpl.
  by rewrite Hnone.
Qed.

Lemma download_files_other (obs : AsyncOBS.t) (project : string)
    (segments : list string) (p p' : path) (ps : params) e w :
  p' ≠ p ->
  files (AsyncOBS.download obs project segments p ps e w).2 !! p' = files w !! p'.
Proof.
  intros Hne. unfold AsyncOBS.download, AsyncOBS._download, Git.write_file. msimpl.
  destruct (http_body e _ ps); [| done].
  destruct (match Git.parent p with Some d => _ | None => _ end); [| done].
  cbn. by rewrite lookup_insert_ne.
Qed.

Lemma git_delete_lookup_none (package : string) (filename : option string)
    (p : path) e w :
  files w !! p = None -> files (Git.delete package filename e w).2 !! p = None.
Proof.
  intros Hnone. unfold Git.delete. msimpl. destruct (truthy filename).
  - cbn. destruct (files w !! PkgFile _ _); [| done].
    cbn. rewrite lookup_delete. by case_decide.
  - cbn. destruct (bool_decide _); [| done].
    cbn. apply map_lookup_filter_None. by left.
Qed.

Lemma git_delete_fails (package filename : string) e w :
  filename ≠ "" -> files w !! PkgFile package filename = None ->
  is_ok (Git.delete package (Some filename) e w).1 = false.
Proof.
  intros Hne Hnone. unfold Git.delete. msimpl.
  assert (Ht : truthy (Some filename) = true).
  { cbn. by destruct (String.eqb_spec filename ""). }
  rewrite Ht. cbn. by rewrite Hnone.
Qed.

(** [synchronise] is the download and delete phase followed, when that
    phase returns normally, by the store phase. *)
Lemma synchronise_unfold (self : Exporter.t) (project package : string)
    (R : gset (string * string)) (revision : pyval) (T : gset (string * string)) e w :
  Exporter.synchronise self project package R revision T e w =
  match gather
          (((fun filename =>
               AsyncOBS.download (Exporter.obs self) project [package; filename]
                 (PkgFile package filename) [("rev", revision)])
              <$> elements (Exporter.files_download R T (index w))) ++
           ((fun filename => Git.delete package (Some filename))
              <$> elements (Exporter.files_delete R T))) e w
  with
  | (Ok _, w1) =>
      Exporter.store_phase self package R (Exporter.files_download R T (index w)) e w1
  | (Raise x, w1) => (Raise x, w1)
  end.
Proof. reflexivity. Qed.

(** C8 (amended): when the download of a file of the plan raises, or the
    removal of a file of the plan raises, the exception leaves
    [asyncio.gather] and ends the export of the package: the export returns
    with an exception, the only calls issued are those of the download and
    delete phase (so no file is classified, stored or recorded in the
    pointer manifest), and the storage object is unchanged.  Nothing is
    logged and nothing is skipped. *)
Theorem export_failure_aborts
    (self : Exporter.t) (project package : string)
    (R : gset (string * string)) (revision : pyval) (T : gset (string * string))
    (e : Env) (w : World) :
  (exists filename,
      filename ∈ Exporter.files_download R T (index w) /\
      http_body e (file_url (Exporter.obs self) project package filename)
                [("rev", revision)] = None) \/
  (exists filename,
      filename ∈ Exporter.files_delete R T /\ filename ≠ "" /\
      files w !! PkgFile package filename = None) ->
  let out := run (Exporter.synchronise self project package R revision T) e w in
  let evs := events_of (Exporter.synchronise self project package R revision T) e w in
  is_ok out.1 = false /\
  Forall (fun ev => is_download_phase ev = true) evs /\
  existsb (is_pointer_write package) evs = false /\
  existsb is_put evs = false /\
  same_storage w out.2.
Proof.
  intros Hfail out evs.
  pose proof (synchronise_unfold self project package R revision T e w) as Hrun.
  set (downloads := (fun filename =>
                       AsyncOBS.download (Exporter.obs self) project [package; filename]
                         (PkgFile package filename) [("rev", revision)])
                      <$> elements (Exporter.files_download R T (index w))) in *.
  set (deletes := (fun filename => Git.delete package (Some filename))
                    <$> elements (Exporter.files_delete R T)) in *.
  assert (Hraise : is_ok (gather (downloads ++ deletes) e w).1 = false).
  { destruct Hfail as [(f & Hin & Hnone) | (f & Hin & Hne & Hnone)].
    - apply (gather_raises (fun _ => True) e _
               (AsyncOBS.download (Exporter.obs self) project [package; f]
                  (PkgFile package f) [("rev", revision)])); [| | | done].
      + by apply Forall_forall.
      + apply elem_of_app. left. unfold downloads.
        apply list_elem_of_fmap. exists f. split; [done | by apply elem_of_elements].
      + intros w' _. by apply download_fails.
    - apply (gather_raises (fun w' => files w' !! PkgFile package f = None) e _
               (Git.delete package (Some f))); [| | | done].
      + apply Forall_app. split; apply Forall_fmap, Forall_forall; intros f' Hf' w' Hw'; cbn.
        * rewrite download_files_other; [done |]. intros [= ->].
          apply elem_of_elements, elem_of_files_download in Hf' as (h & HR & _).
          apply elem_of_files_delete in Hin as [_ Hno]. apply Hno. eauto.
        * by apply git_delete_lookup_none.
      + apply elem_of_app. right. unfold deletes.
        apply list_elem_of_fmap. exists f. split; [done | by apply elem_of_elements].
      + intros w' Hw'. by apply git_delete_fails. }
  assert (Hemits : emits (Forall (fun ev => is_download_phase ev = true))
                     (gather (downloads ++ deletes))).
  { apply emits_gather; monoidal.
    apply Forall_app. split; apply Forall_fmap, Forall_forall; intros f _; cbn.
    - by apply download_emits.
    - by apply git_delete_emits. }
  assert (Hkeeps : keeps same_storage (gather (downloads ++ deletes))).
  { apply keeps_gather; preorder.
    apply Forall_app. split; apply Forall_fmap, Forall_forall; intros f _; cbn.
    - apply download_keeps_storage.
    - apply git_delete_keeps_storage. }
  destruct (emits_events_of _ _ e w Hemits) as [_ Hall].
  specialize (Hkeeps e w).
  assert (Hevs : evs = events_of (gather (downloads ++ deletes)) e w).
  { unfold evs, events_of. rewrite Hrun.
    destruct (gather (downloads ++ deletes) e w) as [[[] | x] w1]; [done | done]. }
  assert (Hout : out = (gather (downloads ++ deletes)) e w).
  { unfold out, run. rewrite Hrun.
    destruct (gather (downloads ++ deletes) e w) as [[[] | x] w1]; [done | done]. }
  rewrite Hevs, Hout. split_and!; [done | done | | | done].
  - apply not_true_iff_false. intros Hex. apply existsb_exists in Hex as (ev & Hev & Hp).
    rewrite Forall_forall in Hall. apply list_elem_of_In, Hall in Hev.
    by destruct ev as [| | | | | | | | | | | [] | |].
  - apply not_true_iff_false. intros Hex. apply existsb_exists in Hex as (ev & Hev & Hp).
    rewrite Forall_forall in Hall. apply list_elem_of_In, Hall in Hev.
    by destruct ev.
Qed.

(** The claim of C8 fails: when the download of [a.spec] raises, the export
    of the package ends with the exception and the store phase is not run,
    although the tarball was downloaded. *)
Lemma export_failure_counterexample :
  ~ (forall (self : Exporter.t) (project package : string)
            (R : gset (string * string)) (revision : pyval)
            (T : gset (string * string)) (e : Env) (w : World)
            (filename : string) (s : StorageOBS.t),
        Exporter.store self = OBS s ->
        filename ∈ Exporter.files_download R T (index w) ->
        http_body e (file_url (Exporter.obs self) project package filename)
                  [("rev", revision)] = None ->
        is_ok (run (Exporter.synchronise self project package R revision T) e w).1
          = true /\
        existsb (is_pointer_write package)
                (events_of (Exporter.synchronise self project package R revision T) e w)
          = true).
Proof.
  intros H.
  destruct (H (Fixture.exporter_with (OBS Fixture.storage_obs)) "P" "a"
              Fixture.package_set (Some "3") ∅
              (Fixture.env_project ["https://api/source/P/a/a.spec"])
              Fixture.world_package "a.spec" Fixture.storage_obs) as [Hok _].
  - reflexivity.
  - vm_compute. reflexivity.
  - vm_compute. reflexivity.
  - vm_compute in Hok. discriminate Hok.
Qed.

Lemma export_failure_aborts_witness :
  is_ok (run (Exporter.synchronise (Fixture.exporter_with (OBS Fixture.storage_obs))
                "P" "a" Fixture.package_set (Some "3") ∅)
             (Fixture.env_project ["https://api/source/P/a/a.spec"])
             Fixture.world_package).1 = false /\
  existsb is_put
    (events_of (Exporter.synchronise (Fixture.exporter_with (OBS Fixture.storage_obs))
                  "P" "a" Fixture.package_set (Some "3") ∅)
               (Fixture.env_project ["https://api/source/P/a/a.spec"])
               Fixture.world_package) = false.
Proof.
  pose proof (export_failure_aborts (Fixture.exporter_with (OBS Fixture.storage_obs))
                "P" "a" Fixture.package_set (Some "3") ∅
                (Fixture.env_project ["https://api/source/P/a/a.spec"])
                Fixture.world_package) as H.
  refine ((fun H' => conj (proj1 H') (proj1 (proj2 (proj2 (proj2 H'))))) (H _)).
  left. exists "a.spec". split; vm_compute; reflexivity.
Defined.

(** ** Commits of an export *)

Lemma bind_tail {A} (m : M A) (f pre : A -> M unit) (k : M unit) :
  (forall a e w, f a e w = (pre a ≫= fun _ => k) e w) ->
  forall e w, (m ≫= f) e w = ((m ≫= pre) ≫= fun _ => k) e w.
Proof.
  intros H e w. rewrite !run_bind.
  destruct (m e w) as [[a | x] w1]; [| done]. by rewrite H, run_bind.
Qed.

Lemma project_split (self : Exporter.t) (project : string) e w :
  Exporter.project self project e w =
  (project_before_commit self project ≫= fun _ => storage_commit (Exporter.store self)) e w.
Proof.
  unfold Exporter.project, project_before_commit.
  apply bind_tail. intros packages_obs; apply bind_tail. intros names.
  apply bind_tail. intros packages_git; apply bind_tail. intros has_meta.
  apply bind_tail. intros _. reflexivity.
Qed.

(** The awaitables handed to [gather], one class at a time. *)
Ltac gather_tasks :=
  (apply emits_gather; monoidal);
  repeat first
    [ apply Forall_nil_2
    | apply Forall_app; split
    | apply Forall_fmap, Forall_forall; intros ? _; unfold compose ].

Section Neutral.
Context (Q : list event -> Prop) `{!Monoidal Q}.
Context (Hneutral : forall ev, neutral ev = true -> Q [ev]).

Lemma neutral_download (obs : AsyncOBS.t) (project : string)
    (segments : list string) (p : path) (ps : params) :
  emits Q (AsyncOBS.download obs project segments p ps).
Proof. emits_go ltac:(by apply Hneutral). Qed.

Lemma neutral_git_delete (package : string) (filename : option string) :
  emits Q (Git.delete package filename).
Proof. emits_go ltac:(by apply Hneutral). Qed.

Lemma neutral_files_md5_revision (obs : AsyncOBS.t) (project package : string) :
  emits Q (AsyncOBS.files_md5_revision obs project package).
Proof.
  unfold AsyncOBS.files_md5_revision. cbv zeta.
  emits_go ltac:(by apply Hneutral).
Qed.

Lemma neutral_is_binary (p : path) : emits Q (Exporter.is_binary p).
Proof.
  unfold Exporter.is_binary. cbv zeta.
  emits_go ltac:(by apply Hneutral).
Qed.

Lemma neutral_package_metadata (self : Exporter.t) (project package : string) :
  emits Q (Exporter.package_metadata self project package).
Proof.
  unfold Exporter.package_metadata. cbv zeta.
  emits_step; [emits_go idtac |]. gather_tasks. apply neutral_download.
Qed.

Lemma neutral_project_metadata (self : Exporter.t) (project : string) :
  emits Q (Exporter.project_metadata self project).
Proof.
  unfold Exporter.project_metadata. cbv zeta.
  emits_step; [emits_go idtac |]. gather_tasks. apply neutral_download.
Qed.

Lemma neutral_store_phase (self : Exporter.t) (package : string)
    (R : gset (string * string)) (D : gset string) :
  (forall files_md5,
      emits Q (storage_store_files (Exporter.store self) package files_md5)) ->
  emits Q (Exporter.store_phase self package R D).
Proof.
  intros Hstore. unfold Exporter.store_phase.
  emits_step.
  - (apply emits_filter_m; monoidal); intros [f m].
    emits_step; [apply neutral_is_binary | emits_step].
  - emits_step; [emits_step | apply Hstore].
Qed.

Lemma neutral_synchronise (self : Exporter.t) (project package : string)
    (R : gset (string * string)) (revision : pyval) (T : gset (string * string)) :
  (forall files_md5,
      emits Q (storage_store_files (Exporter.store self) package files_md5)) ->
  emits Q (Exporter.synchronise self project package R revision T).
Proof.
  intros Hstore. unfold Exporter.synchronise.
  emits_step; [emits_step |]. cbv zeta.
  emits_step; [gather_tasks; [apply neutral_download | apply neutral_git_delete] |].
  by apply neutral_store_phase.
Qed.

Lemma neutral_package (self : Exporter.t) (project package : string) :
  (forall files_md5,
      emits Q (storage_store_files (Exporter.store self) package files_md5)) ->
  emits Q (Exporter.package self project package).
Proof.
  intros Hstore. unfold Exporter.package.
  emits_step; [emits_go idtac |].
  emits_step; [emits_go ltac:(by apply Hneutral) |].
  emits_step; [emits_go idtac |].
  emits_step; [emits_step; [apply neutral_package_metadata | emits_step] |].
  emits_step; [apply neutral_files_md5_revision |].
  destruct a3 as [files_md5_obs revision].
  emits_step; [by apply emits_str_pairs |].
  emits_step; [emits_go idtac |].
  by apply neutral_synchronise.
Qed.

Lemma neutral_project_before_commit (self : Exporter.t) (project : string) :
  (forall package files_md5,
      emits Q (storage_store_files (Exporter.store self) package files_md5)) ->
  emits Q (project_before_commit self project).
Proof.
  intros Hstore. unfold project_before_commit.
  emits_step; [emits_go ltac:(by apply Hneutral) |].
  emits_step; [by apply emits_strs |].
  emits_step; [emits_go idtac |].
  emits_step; [emits_go idtac |].
  emits_step; [emits_step; [apply neutral_project_metadata | emits_step] |].
  gather_tasks; [by apply neutral_package | apply neutral_git_delete].
Qed.
End Neutral.

Global Instance commit_per_track_monoidal : Monoidal commit_per_track.
Proof.
  split.
  - split; [done | constructor].
  - intros a b [Ha Ha'] [Hb Hb']. split; [| by apply Forall_app].
    rewrite !List.filter_app, !length_app. congruence.
Qed.

Lemma neutral_commit_per_track (ev : event) :
  neutral ev = true -> commit_per_track [ev].
Proof.
  unfold neutral, commit_per_track. intros H.
  apply andb_prop in H as [H Ht]. apply andb_prop in H as [Hc Hp].
  apply negb_true_iff in Hc, Hp, Ht. cbn. rewrite Hc, Ht.
  split; [done | by constructor].
Qed.

Lemma storage_obs_store_files_emits (s : StorageOBS.t) (package : string)
    (files_md5 : list (string * string)) (P : event -> Prop) :
  (forall text, P (Print text)) -> (forall text, P (Warning text)) ->
  (forall u ps body, P (Put u ps body)) ->
  (forall p, P (Unlink p)) -> (forall pk, P (Rmtree pk)) ->
  (forall p, P (WriteFile p)) ->
  emits (Forall P) (StorageOBS.store_files s package files_md5).
Proof.
  intros Hprint Hwarn Hput Hunlink Hrm Hwrite.
  unfold StorageOBS.store_files. emits_step; [emits_step |].
  unfold StorageOBS.store_files_body. cbv zeta.
  emits_step; [gather_tasks | emits_step; [gather_tasks |]].
  - destruct x as [f m]. unfold StorageOBS._store.
    emits_go ltac:(apply Forall_singleton;
                   first [apply Hprint | apply Hwarn | apply Hput]).
  - destruct x as [f m]. by apply git_delete_emits.
  - by apply git_write_file_emits.
Qed.

Lemma storage_obs_store_files_neutral (s : StorageOBS.t) (package : string)
    (files_md5 : list (string * string)) :
  emits (Forall (fun ev => neutral ev = true))
        (StorageOBS.store_files s package files_md5).
Proof. by apply storage_obs_store_files_emits. Qed.

Lemma storage_lfs_store_run (filename_path : string) e w :
  StorageLFS._store filename_path e w =
  (Ok (), logged (GitAdd GitAttributes)
            (set_tracked (fun t => t ∪ {[filename_path]})
               (logged (LfsTrack filename_path) w))).
Proof. reflexivity. Qed.

Lemma storage_lfs_store_files_commits (package : string)
    (files_md5 : list (string * string)) :
  emits commit_per_track (StorageLFS.store_files package files_md5).
Proof.
  unfold StorageLFS.store_files. emits_step; [emits_step |].
  emits_step. destruct x as [f m].
  emits_step; [unfold StorageLFS._tracked; emits_go idtac |].
  destruct (negb a0); [| emits_step].
  intros e w. rewrite storage_lfs_store_run.
  exists [LfsTrack (Git.relative (git_prefix a) (PkgFile package f)); GitAdd GitAttributes].
  cbn. rewrite <- app_assoc. split; [done |]. split; [done | by repeat constructor].
Qed.

(** The run of the commit of the registry-backed storage. *)
Lemma storage_obs_commit_run (s : StorageOBS.t) e w :
  exists r,
    StorageOBS.commit s e w =
    if sync w then (Ok (), w)
    else
      let w1 := logged (Post (AsyncOBS.url (StorageOBS.s_obs s) +:+ "/" +:+
                              AsyncOBS.source_path (StorageOBS.s_project s)
                                [StorageOBS.s_package s])
                             [("user", Some (AsyncOBS.username (StorageOBS.s_obs s)));
                              ("comment", Some ("Storage syncronization " +:+ now_text e));
                              ("cmd", Some "commitfilelist")]
                             (Document (StorageOBS.directory_of_index (index w)))) w in
      (r, if is_ok r then set_sync true w1 else w1).
Proof.
  unfold StorageOBS.commit, AsyncOBS.command, AsyncOBS._command, AsyncOBS.request.
  msimpl. destruct (sync w); [by exists (Ok ()) |].
  cbn [has_data app]. destruct (http_status e _) as [status |].
  - by exists (Ok ()).
  - by exists (Raise (ClientError "")).
Qed.



(** ** Import: commit if and only if something changed *)

Lemma bind_tail_gen {A B C} (m : M A) (f : A -> M C) (pre : A -> M B) (k : B -> M C) :
  (forall a e w, f a e w = (pre a ≫= k) e w) ->
  forall e w, (m ≫= f) e w = ((m ≫= pre) ≫= k) e w.
Proof.
  intros H e w. rewrite !run_bind.
  destruct (m e w) as [[a | x] w1]; [| done]. by rewrite H, run_bind.
Qed.

Lemma bind_ext {A B} (m : M A) (f g : A -> M B) :
  (forall a e w, f a e w = g a e w) ->
  forall e w, (m ≫= f) e w = (m ≫= g) e w.
Proof.
  intros H e w. rewrite !run_bind.
  destruct (m e w) as [[a | x] w1]; [apply H | done].
Qed.

Lemma import_package_split (self : Importer.t) (project package : string) e w :
  Importer.package self project package e w =
  (Importer.before_listings self project package ≫= fun _ =>
   Importer.listings self project package ≫= fun '(o, g, s) =>
   Importer.synchronise self project package o g s) e w.
Proof.
  unfold Importer.package, Importer.before_listings.
  apply bind_tail_gen. intros _. apply bind_tail_gen. intros present.
  apply bind_ext. intros _. clear e w. intros e w.
  unfold Importer.listings.
  apply (bind_tail_gen _ _ _ (fun '(o, g, s) => Importer.synchronise self project package o g s)).
  intros [o rev]. apply bind_tail_gen. intros o'. apply bind_tail_gen. intros g.
  apply bind_tail_gen. intros s. reflexivity.
Qed.

Lemma import_synchronise_split (self : Importer.t) (project package : string)
    (O G S : gset (string * string)) e w :
  Importer.synchronise self project package O G S e w =
  (import_transfer_phase self project package O G S ≫= fun _ =>
   import_commit_phase self project package O G S) e w.
Proof.
  unfold Importer.synchronise, import_transfer_phase. cbv zeta.
  apply bind_tail. intros changes_uploads. apply bind_tail. intros transfers.
  reflexivity.
Qed.

Lemma nonempty_false `{Countable A} (X : gset A) :
  Importer.nonempty X = false <-> X = ∅.
Proof.
  unfold Importer.nonempty. rewrite negb_false_iff, bool_decide_eq_true.
  split; [intros He; apply leibniz_equiv, elements_empty_inv, He
         | intros ->; apply elements_empty].
Qed.

Lemma import_plan_empty (O G S : gset (string * string)) :
  import_plan_nonempty O G S = false <->
  Importer.files_md5_upload O G = ∅ /\
  Importer.files_md5_transfer O S = ∅ /\
  Importer.files_delete O G S = ∅.
Proof.
  unfold import_plan_nonempty. rewrite !orb_false_iff, !nonempty_false. tauto.
Qed.

(** With three empty sets [synchronise] does nothing at all. *)
Lemma import_synchronise_idle (self : Importer.t) (project package : string)
    (O G S : gset (string * string)) e w :
  import_plan_nonempty O G S = false ->
  Importer.synchronise self project package O G S e w = (Ok (), w).
Proof.
  intros Hempty. rewrite import_synchronise_split, run_bind.
  unfold import_commit_phase. rewrite Hempty.
  apply import_plan_empty in Hempty as (Hu & Ht & Hd).
  unfold import_transfer_phase. cbv zeta. rewrite Hu, Ht, Hd, elements_empty.
  assert (Hne : Importer.nonempty (∅ : gset (string * string)) = false)
    by by apply nonempty_false.
  destruct (Importer.store self); [reflexivity |]. rewrite Hne. reflexivity.
Qed.

(** After a commit of the union of the tree entries and the pointer
    entries nothing is left to do. *)
Lemma import_plan_after_commit (G S : gset (string * string)) :
  import_plan_nonempty (G ∪ S) G S = false.
Proof.
  apply import_plan_empty.
  unfold Importer.files_md5_upload, Importer.files_md5_transfer,
    Importer.files_delete, Exporter.filenames.
  split_and!; set_solver.
Qed.

Lemma import_commit_phase_run (self : Importer.t) (project package : string)
    (O G S : gset (string * string)) e w :
  import_plan_nonempty O G S = true ->
  exists r,
    import_commit_phase self project package O G S e w =
    (r, logged (import_commit e self project package (G ∪ S)) w).
Proof.
  intros Hne. unfold import_commit_phase. rewrite Hne.
  unfold Git.head_hash, AsyncOBS.command, AsyncOBS._command, AsyncOBS.request.
  msimpl. cbn [has_data app]. fold (import_commit e self project package (G ∪ S)).
  destruct (http_status e _); eauto.
Qed.

Lemma upload_emits (obs : AsyncOBS.t) (project : string) (segments : list string)
    (filename_path : option path) (data : option payload) (ps : params)
    (P : event -> Prop) :
  (forall body, P (Put (AsyncOBS.url obs +:+ "/" +:+ AsyncOBS.source_path project segments)
                       ps body)) ->
  (forall text, P (Warning text)) ->
  emits (Forall P) (AsyncOBS.upload obs project segments filename_path data ps).
Proof.
  intros Hput Hwarn.
  emits_go ltac:(apply Forall_singleton; first [apply Hput | apply Hwarn]).
Qed.

Lemma prepend_changes_silent (Q : list event -> Prop) `{!Monoidal Q}
    (filename_path : path) (package : string) :
  emits Q (Importer.prepend_changes filename_path package).
Proof.
  unfold Importer.prepend_changes, Importer.changes_git_entry.
  emits_go idtac.
Qed.

Lemma storage_obs_transfer_emits (s : StorageOBS.t)
    (md5 project package filename : string) (obs : AsyncOBS.t) (ps : params)
    (P : event -> Prop) :
  (forall ev, is_post ev = false -> is_registry_write ev = false -> P ev) ->
  (forall u body, P (Put u ps body)) ->
  emits (Forall P) (StorageOBS.transfer s md5 project package filename obs ps).
Proof.
  intros Hn Hput. unfold StorageOBS.transfer.
  emits_go ltac:(apply Forall_singleton; first [by apply Hn | apply Hput]).
Qed.

Lemma emits_bind_returns {A B} (Q : list event -> Prop) `{!Monoidal Q}
    (P : A -> Prop) (m : M A) (f : A -> M B) :
  emits Q m -> returns P m -> (forall a, P a -> emits Q (f a)) -> emits Q (m ≫= f).
Proof.
  intros Hm Hr Hf e w. rewrite run_bind.
  destruct (Hm e w) as (evs & Hlog & Hall). specialize (Hr e w).
  destruct (m e w) as [[a | x] w']; cbn in *.
  - destruct (Hf a (Hr a w' eq_refl) e w') as (evs' & Hlog' & Hall').
    exists (evs ++ evs'). rewrite Hlog', Hlog, app_assoc.
    split; [done | by apply monoidal_app].
  - by exists evs.
Qed.

Lemma returns_map_m {A B} (P : B -> Prop) (f : A -> M B) (l : list A) :
  (forall x, returns P (f x)) -> returns (Forall P) (Importer.map_m f l).
Proof.
  intros Hf. induction l as [| x l IH]; intros e w r w' Hrun; cbn [Importer.map_m] in Hrun.
  - injection Hrun as <- _. constructor.
  - rewrite run_bind in Hrun. destruct (f x e w) as [[y | ?] w1] eqn:Hy; [| done].
    rewrite run_bind in Hrun.
    destruct (Importer.map_m f l e w1) as [[r' | ?] w2] eqn:Hr; [| done].
    injection Hrun as <- _. constructor; [eapply Hf, Hy | eapply IH, Hr].
Qed.

(** The uploads, transfers and deletions of an import send no command. *)
Lemma import_transfer_phase_emits (self : Importer.t) (project package : string)
    (O G S : gset (string * string)) :
  emits (Forall (fun ev => is_post ev = false))
        (import_transfer_phase self project package O G S).
Proof.
  unfold import_transfer_phase. cbv zeta.
  apply (emits_bind_returns _ (Forall (emits (Forall (fun ev => is_post ev = false)))));
    monoidal.
  - apply emits_map_m; monoidal. intros [f m].
    emits_step; [apply prepend_changes_silent; monoidal | emits_step].
  - apply returns_map_m. intros [f m] e w r w' Hrun.
    rewrite run_bind in Hrun.
    destruct (Importer.prepend_changes _ _ e w) as [[data | ?] w1]; [| done].
    injection Hrun as <- _. by apply upload_emits.
  - intros changes_uploads Hchanges.
    apply (emits_bind_returns _ (Forall (emits (Forall (fun ev => is_post ev = false)))));
      monoidal.
    + destruct (Importer.store self); [emits_step |].
      destruct (Importer.nonempty _); emits_step.
    + intros e w r w' Hrun. destruct (Importer.store self) as [s |].
      * injection Hrun as <- _. apply Forall_fmap, Forall_forall. intros [f m] _.
        unfold compose. cbv beta iota. by apply storage_obs_transfer_emits.
      * destruct (Importer.nonempty _); [done |]. injection Hrun as <- _. constructor.
    + intros transfers Htransfers. apply emits_gather; monoidal.
      repeat (apply Forall_app; split); [| done | done |].
      * apply Forall_fmap, Forall_forall. intros [f m] _.
        unfold compose. cbv beta iota. by apply upload_emits.
      * apply Forall_fmap, Forall_forall. intros f _.
        unfold compose. cbv beta iota.
        emits_go ltac:(by apply Forall_singleton).
Qed.

(** The entries of the committed directory document are the manifest. *)
Lemma directory_entries (manifest : gset (string * string)) :
  AsyncOBS.entries (Importer.directory_of manifest) =
  (fun entry => (Some entry.1, Some entry.2)) <$> elements manifest.
Proof.
  unfold AsyncOBS.entries, Xml.findall, Xml.descendants, Importer.directory_of.
  cbn [Xml.iter]. generalize (elements manifest). intros l.
  induction l as [| [f h] l IH]; [reflexivity |].
  cbn [fmap list_fmap] in *. cbn [Xml.iter app List.filter Xml.tag String.eqb].
  cbn. f_equal. exact IH.
Qed.

Lemma pairs_of_tuples_silent (Q : list event -> Prop) `{!Monoidal Q} l :
  emits Q (Importer.pairs_of_tuples l).
Proof.
  induction l as [| t l IH]; cbn [Importer.pairs_of_tuples]; [emits_step |].
  destruct t as [| a [| b [| c t]]]; [emits_step | emits_step | | emits_step].
  emits_step; [apply IH | emits_step].
Qed.

(** Listing the three sides changes nothing on the registry. *)
Lemma import_listings_emits (self : Importer.t) (project package : string) :
  emits (Forall (fun ev => is_registry_write ev = false))
        (Importer.listings self project package).
Proof.
  unfold Importer.listings.
  (apply emits_bind; monoidal); [| intros [o rev]].
  { unfold AsyncOBS.files_md5_revision. cbv zeta.
    emits_go ltac:(by apply Forall_singleton). }
  emits_step; [apply emits_str_pairs; monoidal |].
  emits_step.
  { unfold Importer._git_files_md5. emits_step; [emits_go idtac |].
    (apply emits_map_m; monoidal); intros [f m].
    destruct (String.eqb _ _); [| emits_step].
    emits_step; [apply prepend_changes_silent; monoidal | emits_go idtac]. }
  emits_step; [| emits_step].
  unfold Importer.read_pointer_manifest.
  emits_step; [emits_go idtac |]. emits_step.
  - emits_step; [emits_go idtac | apply pairs_of_tuples_silent; monoidal].
  - emits_step.
Qed.

Lemma replace_project_silent (Q : list event -> Prop) `{!Monoidal Q}
    (filename_path : path) (project : string) (name : pyval) :
  emits Q (Importer.replace_project filename_path project name).
Proof.
  unfold Importer.replace_project, Importer.project_name. emits_go idtac.
Qed.

(** Before the listings the only change made on the registry is the upload
    of the package metadata [_meta]. *)
Lemma import_before_listings_emits (self : Importer.t) (project package : string) :
  emits (Forall (fun ev =>
           is_registry_write ev = true ->
           exists body,
             ev = Put (file_url (Importer.obs self) project package "_meta") [] body))
        (Importer.before_listings self project package).
Proof.
  set (P := fun ev => is_registry_write ev = true ->
                      exists body,
                        ev = Put (file_url (Importer.obs self) project package "_meta")
                                 [] body).
  unfold Importer.before_listings.
  emits_step; [emits_go ltac:(by apply Forall_singleton) |].
  emits_step; [emits_go ltac:(by apply Forall_singleton) |].
  destruct (negb _); [| emits_step].
  unfold Importer.package_metadata. cbv zeta.
  emits_step; [unfold Importer.project_name; emits_go idtac |].
  emits_step; [emits_go idtac |].
  emits_step; [emits_step |].
  emits_step; [| emits_step].
  emits_step; [emits_go ltac:(by apply Forall_singleton) |].
  cbn [Importer.map_m].
  apply (emits_bind_returns _ (Forall (emits (Forall P)))); monoidal.
  - emits_step; [| emits_go idtac].
    emits_step; [apply replace_project_silent; monoidal | emits_step].
  - intros env1 w0 r w' Hrun. rewrite !run_bind in Hrun.
    destruct (Importer.replace_project _ _ _ env1 w0) as [[data | ?] w1] eqn:Hrep;
      [| done].
    msimpl in Hrun. injection Hrun as <- _.
    constructor; [| constructor]. apply upload_emits; [| done].
    intros body _. by exists body.
  - intros uploads Huploads. by apply emits_gather; monoidal.
Qed.

Lemma import_commit_is_commitfilelist (e : Env) (self : Importer.t)
    (project package : string) (manifest : gset (string * string)) :
  is_commitfilelist (import_commit e self project package manifest) = true.
Proof.
  unfold import_commit, is_commitfilelist. apply bool_decide_eq_true.
  apply elem_of_cons. right. apply elem_of_cons. right. apply elem_of_cons. by left.
Qed.

Lemma existsb_no_post (evs : list event) :
  Forall (fun ev => is_post ev = false) evs -> existsb is_commitfilelist evs = false.
Proof.
  induction 1 as [| ev evs Hev _ IH]; [done |]. cbn. rewrite IH, orb_false_r.
  by destruct ev.
Qed.

(** C2 (amended).  For the three sets that an import computes from the
    registry listing [O], the tree entries [G] (with effective hashes) and
    the pointer entries [S]:
    - when the three sets are empty the import issues no call at all after
      the listings, in particular no commit;
    - the uploads, transfers and deletions send no command, and at most one
      ["commitfilelist"] follows them, as the last call; when the import
      returns normally it has sent that command if and only if one of the
      three sets is not empty;
    - the manifest of the commit lists exactly the entries of [G ∪ S], and
      its comment is ["Import "] followed by the identifier of the tip;
    - when the registry lists exactly [G ∪ S], as it does after such a
      commit, the three sets are empty;
    - an import whose three sets are empty returns normally and the only
      change it makes on the registry is the upload of the package metadata
      [_meta], which is not issued when the package exists and the metadata
      are to be skipped. *)
Theorem import_commit_iff_change
    (self : Importer.t) (project package : string)
    (O G S : gset (string * string)) (e : Env) (w : World) :
  let evs := events_of (Importer.synchronise self project package O G S) e w in
  let out := run (Importer.synchronise self project package O G S) e w in
  let commit := import_commit e self project package (G ∪ S) in
  (import_plan_nonempty O G S = false -> out = (Ok (), w) /\ evs = []) /\
  (exists before,
      Forall (fun ev => is_post ev = false) before /\
      (evs = before \/ evs = before ++ [commit]) /\
      (is_ok out.1 = true -> import_plan_nonempty O G S = true ->
       evs = before ++ [commit])) /\
  (is_ok out.1 = true ->
   (existsb is_commitfilelist evs = true <-> import_plan_nonempty O G S = true)) /\
  (commit =
     Post (AsyncOBS.url (Importer.obs self) +:+ "/" +:+
           AsyncOBS.source_path project [package])
          [("user", Some (AsyncOBS.username (Importer.obs self)));
           ("comment", Some ("Import " +:+ head_target e));
           ("cmd", Some "commitfilelist")]
          (Document (Importer.directory_of (G ∪ S))) /\
   AsyncOBS.entries (Importer.directory_of (G ∪ S)) =
     (fun entry => (Some entry.1, Some entry.2)) <$> elements (G ∪ S)) /\
  import_plan_nonempty (G ∪ S) G S = false /\
  (forall O' G' S' w',
      (Importer.before_listings self project package ≫= fun _ =>
       Importer.listings self project package) e w = (Ok (O', G', S'), w') ->
      import_plan_nonempty O' G' S' = false ->
      run (Importer.package self project package) e w = (Ok (), w') /\
      Forall (fun ev =>
                is_registry_write ev = true ->
                exists body,
                  ev = Put (file_url (Importer.obs self) project package "_meta")
                           [] body)
             (events_of (Importer.package self project package) e w)) /\
  (Importer.skip_all_package_meta self = true -> package ≠ "" ->
   forall status,
     http_status e (Head (AsyncOBS.url (Importer.obs self) +:+ "/source/" +:+
                          project +:+ "/" +:+ package)) = Some status ->
     status ≠ 404 ->
     Forall (fun ev => is_registry_write ev = false)
            (events_of (Importer.before_listings self project package) e w)).
Proof.
  intros evs out commit.
  assert (Hidle : import_plan_nonempty O G S = false -> out = (Ok (), w) /\ evs = []).
  { intros Hempty. unfold out, evs, run, events_of.
    rewrite import_synchronise_idle by done. split; [done |]. cbn. apply drop_all. }
  assert (Hshape : exists before,
             Forall (fun ev => is_post ev = false) before /\
             (evs = before \/ evs = before ++ [commit]) /\
             (is_ok out.1 = true -> import_plan_nonempty O G S = true ->
              evs = before ++ [commit])).
  { unfold evs, out, run, events_of. rewrite import_synchronise_split, run_bind.
    destruct (import_transfer_phase_emits self project package O G S e w)
      as (before & Hlog & Hall).
    exists before. split; [done |].
    destruct (import_transfer_phase self project package O G S e w)
      as [[[] | x] w1]; cbn [fst snd] in *.
    - destruct (import_plan_nonempty O G S) eqn:Hplan.
      + destruct (import_commit_phase_run self project package O G S e w1 Hplan)
          as [r Hrun].
        rewrite Hrun. cbn [fst snd log logged set_log].
        rewrite Hlog, <- app_assoc, drop_app_length. fold commit. eauto.
      + unfold import_commit_phase. rewrite Hplan. msimpl. cbn [fst snd].
        rewrite Hlog, drop_app_length. split; [by left | done].
    - rewrite Hlog, drop_app_length. split; [by left | done]. }
  split; [exact Hidle |]. split; [exact Hshape |].
  split; [| split; [split; [reflexivity | apply directory_entries] |]];
    [| split; [apply import_plan_after_commit |]; split].
  - intros Hok. destruct Hshape as (before & Hall & Hcases & Hcommit). split.
    + intros Hex. destruct (import_plan_nonempty O G S) eqn:Hplan; [done |].
      destruct (Hidle eq_refl) as [_ Hnil]. by rewrite Hnil in Hex.
    + intros Hplan. rewrite (Hcommit Hok Hplan), existsb_app. cbn [existsb].
      unfold commit. by rewrite import_commit_is_commitfilelist, !orb_true_r.
  - intros O' G' S' w' Hlist Hempty.
    assert (Hrun : Importer.package self project package e w = (Ok (), w')).
    { rewrite import_package_split.
      rewrite (bind_tail_gen _ _ (fun _ => Importer.listings self project package)
                 (fun '(o, g, s) => Importer.synchronise self project package o g s))
        by reflexivity.
      rewrite run_bind, Hlist. by apply import_synchronise_idle. }
    split; [exact Hrun |].
    assert (Hem : emits (Forall (fun ev =>
                     is_registry_write ev = true ->
                     exists body,
                       ev = Put (file_url (Importer.obs self) project package "_meta")
                                [] body))
                    (Importer.before_listings self project package ≫= fun _ =>
                     Importer.listings self project package)).
    { apply emits_bind; monoidal; [apply import_before_listings_emits |]. intros _.
      eapply emits_weaken; [| apply import_listings_emits].
      intros l Hl. eapply Forall_impl; [exact Hl |]. intros ev Hev Hw. congruence. }
    destruct (Hem e w) as (l & Hlog & Hall). rewrite Hlist in Hlog. cbn [snd] in Hlog.
    unfold events_of. rewrite Hrun. cbn [snd]. by rewrite Hlog, drop_app_length.
  - intros Hskip Hpk status Hhead Hstatus.
    unfold events_of, Importer.before_listings, AsyncOBS.exists_, AsyncOBS.request.
    msimpl.
    assert (Ht : truthy (Some package) = true).
    { cbn. by destruct (String.eqb_spec package ""). }
    rewrite Ht. cbn [default from_option id log set_log]. rewrite Hhead, Hskip.
    assert (Hne : negb (status =? 404)%Z = true).
    { apply negb_true_iff, Z.eqb_neq, Hstatus. }
    rewrite Hne. cbn. rewrite <- app_assoc, drop_app_length. by repeat constructor.
Qed.

(** The claim of C2 about the second run fails: after an import that
    committed, a second import of the same tree finds three empty sets and
    still uploads the package metadata [_meta] to the registry. *)
Lemma import_idempotence_counterexample :
  ~ (forall (self : Importer.t) (project package : string) (e : Env) (w : World),
        let first := run (Importer.package self project package) e w in
        let e' := registry_after e (Importer.obs self) project package
                    (events_of (Importer.package self project package) e w) in
        is_ok first.1 = true ->
        existsb is_registry_write
                (events_of (Importer.package self project package) e' first.2)
        = false).
Proof.
  intros H.
  specialize (H Fixture.importer "P" "a" Fixture.env_import Fixture.world_import).
  vm_compute in H. specialize (H eq_refl). discriminate H.
Qed.

(** The same two imports, call by call: the second one asks whether the
    package exists, uploads [_meta] and lists the package. *)
Example import_twice :
  let first := run (Importer.package Fixture.importer "P" "a")
                   Fixture.env_import Fixture.world_import in
  let e' := registry_after Fixture.env_import (Fixture.obs_with "never") "P" "a"
              (log first.2) in
  existsb is_commitfilelist (log first.2) = true /\
  (fun ev => match ev with
             | Put u _ _ => Some u
             | Get u _ | Head u | Delete u _ | Post u _ _ => Some u
             | _ => None
             end)
    <$> events_of (Importer.package Fixture.importer "P" "a") e' first.2
  = [None; Some "https://api/source/P/a"; Some "https://api/source/P/a/_meta";
     Some "https://api//source/P/a"].
Proof. vm_compute. split; reflexivity. Qed.

Lemma import_commit_iff_change_witness :
  run (Importer.synchronise Fixture.importer "P" "a"
         (Fixture.registry_set ∪ Fixture.tree_set)
         Fixture.registry_set Fixture.tree_set)
      Fixture.env_import Fixture.world_import
  = (Ok (), Fixture.world_import).
Proof.
  refine (proj1 (proj1 (import_commit_iff_change Fixture.importer "P" "a"
                          (Fixture.registry_set ∪ Fixture.tree_set)
                          Fixture.registry_set Fixture.tree_set
                          Fixture.env_import Fixture.world_import) _)).
  vm_compute. reflexivity.
Defined.

(** The export of project [P], which holds one package with a tarball:
    one ["commitfilelist"] with the registry-backed store; with the LFS
    store one staging for the tarball that becomes tracked and one at the
    end. *)
Example export_project_commit_counts :
  List.length (List.filter is_commit
                 (events_of (Exporter.project (Fixture.exporter_with (OBS Fixture.storage_obs)) "P")
                    (Fixture.env_project []) Fixture.world0)) = 1%nat /\
  List.length (List.filter is_commit
                 (events_of (Exporter.project (Fixture.exporter_with LFS) "P")
                    (Fixture.env_project []) Fixture.world0)) = 2%nat /\
  List.length (List.filter is_lfs_track
                 (events_of (Exporter.project (Fixture.exporter_with LFS) "P")
                    (Fixture.env_project []) Fixture.world0)) = 1%nat.
Proof. vm_compute. repeat split. Qed.

(** ** The export plan is what the export executes *)

Lemma storage_store_files_no_get (st : storage) (package : string)
    (files_md5 : list (string * string)) :
  emits (Forall (fun ev => match ev with Get _ _ => False | _ => True end))
        (storage_store_files st package files_md5).
Proof.
  destruct st as [s |]; cbn [storage_store_files].
  - by apply storage_obs_store_files_emits.
  - unfold StorageLFS.store_files. emits_step; [emits_step |].
    (apply emits_for_each; monoidal); intros [f m].
    unfold StorageLFS._tracked, StorageLFS._store, StorageLFS.commit.
    emits_go ltac:(by apply Forall_singleton).
Qed.

Lemma store_phase_no_get (self : Exporter.t) (package : string)
    (R : gset (string * string)) (D : gset string) :
  emits (Forall (fun ev => match ev with Get _ _ => False | _ => True end))
        (Exporter.store_phase self package R D).
Proof.
  unfold Exporter.store_phase. emits_step.
  - (apply emits_filter_m; monoidal); intros [f m].
    emits_step; [| emits_step]. unfold Exporter.is_binary. cbv zeta.
    emits_go ltac:(by apply Forall_singleton).
  - emits_step; [emits_step | apply storage_store_files_no_get].
Qed.

Lemma download_issues (obs : AsyncOBS.t) (project package filename : string)
    (ps : params) e w :
  exists evs,
    log (AsyncOBS.download obs project [package; filename]
           (PkgFile package filename) ps e w).2 = log w ++ evs /\
    Get (file_url obs project package filename) ps ∈ evs.
Proof.
  unfold AsyncOBS.download, AsyncOBS._download, Git.write_file. msimpl.
  fold (file_url obs project package filename).
  destruct (http_body e _ ps); [| eexists; split; [reflexivity | apply list_elem_of_here]].
  cbn [dirs set_log log].
  destruct (match Git.parent _ with Some d => _ | None => _ end);
    cbn [snd log set_log set_files].
  - rewrite <- app_assoc. eexists; split; [reflexivity | apply list_elem_of_here].
  - eexists; split; [reflexivity | apply list_elem_of_here].
Qed.

Lemma git_delete_issues (package filename : string) e w :
  filename ≠ "" ->
  exists evs,
    log (Git.delete package (Some filename) e w).2 = log w ++ evs /\
    Unlink (PkgFile package filename) ∈ evs.
Proof.
  intros Hne. unfold Git.delete. msimpl.
  assert (Ht : truthy (Some filename) = true).
  { cbn. by destruct (String.eqb_spec filename ""). }
  rewrite Ht. cbn [default from_option id files set_log log].
  destruct (files w !! _); eexists; (split; [reflexivity | apply list_elem_of_here]).
Qed.

(** The requests for a file that an export issues are those of the files
    of [files_download], each at the revision of the listing, and every
    file of [files_delete] is removed from the tree. *)
Lemma export_plan_executed (self : Exporter.t) (project package : string)
    (R : gset (string * string)) (revision : pyval) (T : gset (string * string))
    (e : Env) (w : World) :
  let evs := events_of (Exporter.synchronise self project package R revision T) e w in
  (forall filename,
      filename ∈ Exporter.files_download R T (index w) ->
      Get (file_url (Exporter.obs self) project package filename) [("rev", revision)]
        ∈ evs) /\
  (forall filename,
      filename ∈ Exporter.files_delete R T -> filename ≠ "" ->
      Unlink (PkgFile package filename) ∈ evs) /\
  (forall u ps,
      Get u ps ∈ evs ->
      exists filename,
        filename ∈ Exporter.files_download R T (index w) /\
        u = file_url (Exporter.obs self) project package filename /\
        ps = [("rev", revision)]).
Proof.
  intros evs.
  set (D := Exporter.files_download R T (index w)).
  set (downloads := (fun filename =>
                       AsyncOBS.download (Exporter.obs self) project [package; filename]
                         (PkgFile package filename) [("rev", revision)])
                      <$> elements D).
  set (deletes := (fun filename => Git.delete package (Some filename))
                    <$> elements (Exporter.files_delete R T)).
  set (P := fun ev => match ev with
                      | Get u ps =>
                          exists filename,
                            filename ∈ D /\
                            u = file_url (Exporter.obs self) project package filename /\
                            ps = [("rev", revision)]
                      | _ => True
                      end).
  assert (Hgather : emits (Forall P) (gather (downloads ++ deletes))).
  { apply emits_gather; monoidal. apply Forall_app. split.
    - apply Forall_fmap, Forall_forall. intros f Hf. unfold compose.
      apply elem_of_elements in Hf. apply download_emits; [| done].
      exists f. done.
    - apply Forall_fmap, Forall_forall. intros f _. unfold compose.
      by apply git_delete_emits. }
  assert (Hstore : emits (Forall P) (Exporter.store_phase self package R D)).
  { eapply emits_weaken; [| apply store_phase_no_get].
    intros l Hl. eapply Forall_impl; [exact Hl |]. by intros []. }
  assert (Hgrow : forall t, t ∈ downloads ++ deletes ->
                    forall w', True -> True /\ exists l, log (t e w').2 = log w' ++ l).
  { intros t Ht w' _. split; [done |].
    pose proof Hgather as Hall. 
    assert (Hem : emits (Forall P) t).
    { apply elem_of_app in Ht as [Ht | Ht]; apply list_elem_of_fmap in Ht as (f & -> & Hf).
      - apply elem_of_elements in Hf. apply download_emits; [| done]. by exists f.
      - by apply git_delete_emits. }
    destruct (Hem e w') as (l & Hl & _). eauto. }
  assert (Hlogs : exists l1 l2,
             log (gather (downloads ++ deletes) e w).2 = log w ++ l1 /\
             Forall P l1 /\ Forall P l2 /\ evs = l1 ++ l2).
  { destruct (Hgather e w) as (l1 & Hl1 & HP1). unfold evs, events_of.
    rewrite synchronise_unfold. fold D downloads deletes.
    destruct (gather (downloads ++ deletes) e w) as [[[] | x] w1]; cbn [snd] in *.
    - destruct (Hstore e w1) as (l2 & Hl2 & HP2). exists l1, l2.
      rewrite Hl2, Hl1, <- app_assoc, drop_app_length. done.
    - exists l1, []. rewrite Hl1, drop_app_length, app_nil_r. by repeat split. }
  destruct Hlogs as (l1 & l2 & Hl1 & HP1 & HP2 & Hevs).
  split; [| split].
  - intros f Hf.
    destruct (gather_issues (fun _ => True) e
                (Get (file_url (Exporter.obs self) project package f) [("rev", revision)])
                (downloads ++ deletes)
                (AsyncOBS.download (Exporter.obs self) project [package; f]
                   (PkgFile package f) [("rev", revision)])) with (w := w)
      as (l & Hl & Hin); [| | | done |].
    + apply Forall_forall. intros t Ht w' Hw'. by apply Hgrow.
    + apply elem_of_app. left. apply list_elem_of_fmap. exists f.
      split; [done | by apply elem_of_elements].
    + intros w' _. apply download_issues.
    + rewrite Hl1 in Hl. apply app_inv_head in Hl. subst l.
      rewrite Hevs. apply elem_of_app. by left.
  - intros f Hf Hne.
    destruct (gather_issues (fun _ => True) e (Unlink (PkgFile package f))
                (downloads ++ deletes) (Git.delete package (Some f))) with (w := w)
      as (l & Hl & Hin); [| | | done |].
    + apply Forall_forall. intros t Ht w' Hw'. by apply Hgrow.
    + apply elem_of_app. right. apply list_elem_of_fmap. exists f.
      split; [done | by apply elem_of_elements].
    + intros w' _. by apply git_delete_issues.
    + rewrite Hl1 in Hl. apply app_inv_head in Hl. subst l.
      rewrite Hevs. apply elem_of_app. by left.
  - intros u ps Hin. rewrite Hevs in Hin.
    assert (HP : Forall P (l1 ++ l2)) by by apply Forall_app.
    rewrite Forall_forall in HP. exact (HP _ Hin).
Qed.

(** With an empty index, as the LFS store always has, the three sets of C1
    do partition the filenames of both sides. *)
Lemma export_partition_empty_index (R T : gset (string * string)) :
  Exporter.unique_names R -> Exporter.unique_names T ->
  Exporter.partitions
    [Exporter.files_download R T ∅; Exporter.files_delete R T;
     Exporter.files_unchanged R T]
    (Exporter.filenames R ∪ Exporter.filenames T).
Proof.
  intros HR HT.
  destruct (export_partition_four R T ∅ HR HT) as (Hcover & Hdisjoint).
  assert (Hnone : Exporter.files_indexed R T ∅ = ∅).
  { apply set_eq. intros f. rewrite elem_of_files_indexed.
    split; [intros (h & _ & _ & []%elem_of_empty) | intros []%elem_of_empty]. }
  split.
  - rewrite <- Hcover, Hnone. cbn [union_list foldr].
    by rewrite !(right_id_L ∅ (∪)).
  - intros i j a b Ha Hb Hij. apply (Hdisjoint i j); [| | done].
    + destruct i as [| [| [| i]]]; done.
    + destruct j as [| [| [| j]]]; done.
Qed.

(** * Further properties of the code *)

(** ** The pointer manifest, written and read back *)

Lemma append_cons (c : ascii) (s r : string) : String c s +:+ r = String c (s +:+ r).
Proof. reflexivity. Qed.

Lemma append_nil_r (s : string) : s +:+ "" = s.
Proof. induction s as [| c s IH]; [done |]. exact (f_equal (String c) IH). Qed.

Lemma string_of_snoc (l : list ascii) (c : ascii) (s : string) :
  string_of_list_ascii (l ++ [c]) +:+ s = string_of_list_ascii l +:+ String c s.
Proof.
  induction l as [| x l IH]; [done |].
  cbn [app string_of_list_ascii]. rewrite !append_cons. by rewrite IH.
Qed.

Lemma flushed_nil (cur : list ascii) :
  match cur with [] => [] | _ => [string_of_list_ascii (rev cur)] end = flushed cur "".
Proof.
  unfold flushed. rewrite append_nil_r. destruct cur as [| c cur]; [done |].
  cbn [rev]. destruct (rev cur); done.
Qed.

Lemma flushed_snoc (cur : list ascii) (c : ascii) (s : string) :
  flushed (c :: cur) s = flushed cur (String c s).
Proof. unfold flushed. cbn [rev]. by rewrite string_of_snoc. Qed.

Lemma split_ws_end (s : string) (cur : list ascii) :
  no_blank s = true -> Py.split_ws s cur = flushed cur s.
Proof.
  unfold no_blank. revert cur.
  induction s as [| c s IH]; intros cur Hs; cbn [Py.split_ws].
  - apply flushed_nil.
  - cbn in Hs. apply andb_true_iff in Hs as [Hc%negb_true_iff Hs].
    rewrite Hc, IH by done. apply flushed_snoc.
Qed.

Lemma split_ws_blank (s rest : string) (c : ascii) (cur : list ascii) :
  no_blank s = true -> Py.is_space c = true ->
  Py.split_ws (s +:+ String c rest) cur = flushed cur s ++ Py.split_ws rest [].
Proof.
  unfold no_blank. intros Hs Hc. revert cur Hs.
  induction s as [| x s IH]; intros cur Hs.
  - change ("" +:+ String c rest) with (String c rest). cbn [Py.split_ws].
    by rewrite Hc, flushed_nil.
  - cbn in Hs. apply andb_true_iff in Hs as [Hx%negb_true_iff Hs].
    rewrite append_cons. cbn [Py.split_ws]. rewrite Hx, IH by done.
    by rewrite flushed_snoc.
Qed.

Lemma lines_from_line (s rest : string) (cur : list ascii) :
  no_newline s = true ->
  Py.lines_from (s +:+ String "010" rest) cur =
  (string_of_list_ascii (rev cur) +:+ s) :: Py.lines_from rest [].
Proof.
  unfold no_newline. revert cur.
  induction s as [| c s IH]; intros cur Hs.
  - change ("" +:+ ?r) with r. cbn [Py.lines_from].
    replace (Ascii.eqb "010" "010") with true by done. by rewrite append_nil_r.
  - cbn in Hs. apply andb_true_iff in Hs as [[Hn%negb_true_iff Hr%negb_true_iff]%andb_true_iff Hs].
    rewrite append_cons. cbn [Py.lines_from]. rewrite Hn, Hr, IH by done.
    cbn [rev]. by rewrite string_of_snoc.
Qed.

Lemma ascii_word_no_blank (s : string) : ascii_word s = true -> no_blank s = true.
Proof.
  unfold ascii_word, no_blank. intros [_ H]%andb_true_iff.
  induction (list_ascii_of_string s) as [| c l IH]; [done |].
  cbn in *. apply andb_true_iff in H as [[-> _]%andb_true_iff H]. by apply IH.
Qed.

Lemma flushed_word (s : string) : ascii_word s = true -> flushed [] s = [s].
Proof.
  unfold ascii_word, flushed. intros [H _]%andb_true_iff.
  change (string_of_list_ascii (rev []) +:+ s) with s. by destruct s.
Qed.

Lemma no_blank_no_newline (s : string) : no_blank s = true -> no_newline s = true.
Proof.
  unfold no_blank, no_newline.
  induction (list_ascii_of_string s) as [| c l IH]; [done |].
  cbn. intros [Hc%negb_true_iff H]%andb_true_iff. rewrite IH by done.
  destruct (Ascii.eqb_spec c "010") as [-> |]; [done |].
  destruct (Ascii.eqb_spec c "013") as [-> |]; done.
Qed.

Lemma list_ascii_of_append (a b : string) :
  list_ascii_of_string (a +:+ b) = list_ascii_of_string a ++ list_ascii_of_string b.
Proof.
  induction a as [| c a IH]; [done |].
  rewrite append_cons. cbn [list_ascii_of_string app]. by rewrite IH.
Qed.

Lemma no_newline_app (a b : string) :
  no_newline (a +:+ b) = no_newline a && no_newline b.
Proof. unfold no_newline. by rewrite list_ascii_of_append, forallb_app. Qed.

Lemma concat_empty_cons (x : string) (l : list string) :
  String.concat "" (x :: l) = x +:+ String.concat "" l.
Proof. destruct l; cbn [String.concat]; [by rewrite append_nil_r | done]. Qed.

(** A line of the pointer manifest splits into its two words. *)
Lemma split_pointer_line (f m : string) :
  ascii_word f = true -> ascii_word m = true ->
  Py.split (f +:+ "		" +:+ m) = [f; m].
Proof.
  intros Hf Hm. unfold Py.split.
  change ("		" +:+ m) with (String "009" (String "009" m)).
  rewrite (split_ws_blank f) by (by apply ascii_word_no_blank || done).
  rewrite flushed_word by done.
  change (String "009" m) with ("" +:+ String "009" m).
  rewrite (split_ws_blank "" m "009") by done.
  rewrite split_ws_end by by apply ascii_word_no_blank.
  rewrite (flushed_word m) by done. reflexivity.
Qed.

Lemma readlines_pointer_lines (l : list (string * string)) :
  Forall (fun entry => ascii_words entry = true) l ->
  Py.readlines (String.concat "" (StorageOBS.pointer_line <$> l)) =
  (fun entry => entry.1 +:+ "		" +:+ entry.2) <$> l.
Proof.
  unfold Py.readlines.
  induction 1 as [| [f m] l [Hf Hm]%andb_true_iff _ IH]; [done |].
  assert (Hcat : String.concat "" (StorageOBS.pointer_line <$> (f, m) :: l) =
                 (f +:+ "		" +:+ m) +:+
                 String "010" (String.concat "" (StorageOBS.pointer_line <$> l))).
  { cbn [fmap list_fmap]. rewrite concat_empty_cons.
    unfold StorageOBS.pointer_line at 1. cbn [fst snd]. by rewrite !append_assoc. }
  rewrite Hcat. clear Hcat. cbn [fst snd] in *.
  rewrite lines_from_line.
  - cbn [fmap list_fmap fst snd rev]. f_equal. exact IH.
  - rewrite !no_newline_app.
    rewrite (no_blank_no_newline f), (no_blank_no_newline m)
      by by apply ascii_word_no_blank.
    done.
Qed.

Lemma pairs_of_pointer_lines (l : list (string * string)) e w :
  Forall (fun entry => ascii_words entry = true) l ->
  Importer.pairs_of_tuples
    (Py.split <$> ((fun entry => entry.1 +:+ "		" +:+ entry.2) <$> l)) e w = (Ok l, w).
Proof.
  induction 1 as [| [f m] l [Hf Hm]%andb_true_iff _ IH]; [done |].
  cbn [fmap list_fmap fst snd] in *. rewrite split_pointer_line by done.
  cbn [Importer.pairs_of_tuples]. rewrite run_bind.
  cbn [fmap] in IH. rewrite IH. done.
Qed.

(** X1: the pointer manifest that the export writes is read back by the
    import.  When [StorageOBS.store_files] has returned normally for a list
    of files whose names and hashes are words of printable ASCII, the
    importer reads from [.obs/files] exactly the entries of that list, in
    sorted order: one pair of name and hash per line, nothing lost, nothing
    split. *)
Theorem pointer_manifest_round_trip (s : StorageOBS.t) (package : string)
    (files_md5 : list (string * string)) (e : Env) (w w' : World) :
  Forall (fun entry => ascii_words entry = true) files_md5 ->
  StorageOBS.store_files s package files_md5 e w = (Ok (), w') ->
  Importer.read_pointer_manifest package e w' = (Ok (Py.sorted files_md5), w').
Proof.
  intros Hwords Hrun.
  pose proof (store_files_pointer s package files_md5 e w) as Hfile.
  rewrite Hrun in Hfile. specialize (Hfile eq_refl). cbn [snd] in Hfile.
  unfold Importer.read_pointer_manifest, Git.exists_file, Git.read_file. msimpl.
  unfold bytes in *. rewrite Hfile, bool_decide_true by eauto. cbv beta. rewrite Hfile.
  rewrite string_of_list_byte_of_string. unfold StorageOBS.pointer_text.
  assert (Hsorted : Forall (fun entry => ascii_words entry = true) (Py.sorted files_md5)).
  { apply list.Forall_forall. intros entry Hin%(proj1 (sorted_elem_of _ _)).
    rewrite list.Forall_forall in Hwords. by apply Hwords. }
  rewrite readlines_pointer_lines by done.
  by apply pairs_of_pointer_lines.
Qed.

Lemma pointer_manifest_round_trip_witness :
  Forall (fun entry => ascii_words entry = true) [("b.tar.gz", "3"); ("a.tar.gz", "2")] /\
  Importer.read_pointer_manifest "a" Fixture.env0
    (StorageOBS.store_files Fixture.storage_obs "a" [("b.tar.gz", "3"); ("a.tar.gz", "2")]
       Fixture.env0 Fixture.world_indexed).2 =
  (Ok [("a.tar.gz", "2"); ("b.tar.gz", "3")],
   (StorageOBS.store_files Fixture.storage_obs "a" [("b.tar.gz", "3"); ("a.tar.gz", "2")]
      Fixture.env0 Fixture.world_indexed).2).
Proof.
  assert (Hwords : Forall (fun entry => ascii_words entry = true)
                     [("b.tar.gz", "3"); ("a.tar.gz", "2")])
    by (repeat constructor).
  split; [exact Hwords |].
  apply (pointer_manifest_round_trip Fixture.storage_obs "a" _ Fixture.env0 Fixture.world_indexed _ Hwords).
  vm_compute. reflexivity.
Defined.

(** ** The two tests for a changelog *)

Lemma length_append (a b : string) :
  String.length (a +:+ b) = (String.length a + String.length b)%nat.
Proof.
  induction a as [| c a IH]; [done |].
  rewrite append_cons. cbn [String.length]. by rewrite IH.
Qed.

Lemma substring_all (s : string) : String.substring 0 (String.length s) s = s.
Proof. induction s as [| c s IH]; [done |]. cbn. by rewrite IH. Qed.

Lemma substring_skip (a b : string) (m : nat) :
  String.substring (String.length a) m (a +:+ b) = String.substring 0 m b.
Proof. induction a as [| c a IH]; [done |]. rewrite append_cons. cbn. exact IH. Qed.

Lemma substring_tail (a b : string) :
  String.substring (String.length a) (String.length b) (a +:+ b) = b.
Proof. by rewrite substring_skip, substring_all. Qed.

Lemma substring_split (n : nat) (s : string) :
  (n <= String.length s)%nat ->
  s = String.substring 0 n s +:+ String.substring n (String.length s - n) s.
Proof.
  revert s. induction n as [| n IH]; intros s Hn.
  - destruct s; cbn; [done |]. by rewrite substring_all.
  - destruct s as [| c s]; cbn in Hn; [lia |].
    cbn [String.substring String.length Nat.sub]. rewrite append_cons.
    f_equal. apply IH. lia.
Qed.

Lemma rfind_dot_none (s : string) (i : nat) :
  no_dot s = true -> Py.rfind_dot s i = None.
Proof.
  unfold no_dot. revert i. induction s as [| c s IH]; intros i Hs; [done |].
  cbn in Hs. apply andb_true_iff in Hs as [Hc%negb_true_iff Hs].
  cbn [Py.rfind_dot]. by rewrite IH, Hc.
Qed.

Lemma rfind_dot_last (a b : string) (i : nat) :
  no_dot b = true ->
  Py.rfind_dot (a +:+ String "." b) i = Some (i + String.length a)%nat.
Proof.
  intros Hb. revert i. induction a as [| c a IH]; intros i.
  - change ("" +:+ ?r) with r. cbn [Py.rfind_dot String.length].
    rewrite rfind_dot_none by done. cbn. f_equal. lia.
  - rewrite append_cons. cbn [Py.rfind_dot String.length].
    rewrite IH. f_equal. lia.
Qed.

Lemma rfind_dot_inv (s : string) (i j : nat) :
  Py.rfind_dot s i = Some j ->
  exists a b, s = a +:+ String "." b /\ no_dot b = true /\ j = (i + String.length a)%nat.
Proof.
  revert i j. induction s as [| c s IH]; intros i j; [done |].
  cbn [Py.rfind_dot]. destruct (Py.rfind_dot s (S i)) as [j' |] eqn:Hr.
  - intros [= <-]. destruct (IH _ _ Hr) as (a & b & -> & Hb & ->).
    exists (String c a), b. split_and!; [reflexivity | done | cbn; lia].
  - destruct (Ascii.eqb_spec c ".") as [-> | Hc]; [| done].
    intros [= <-]. exists "", s. split_and!; [reflexivity | | cbn; lia].
    clear IH. revert i Hr. unfold no_dot.
    induction s as [| x s IH]; intros i Hr; [done |].
    cbn [Py.rfind_dot] in Hr. cbn. revert Hr.
    destruct (Py.rfind_dot s (S (S i))) eqn:Hs; [done |].
    destruct (Ascii.eqb x "."); [done |]. intros _. cbn. by eapply IH.
Qed.

(** [name.endswith(t)] says that [name] is some text followed by [t]. *)
Lemma endswith_app (a t : string) : Py.endswith (a +:+ t) t = true.
Proof.
  unfold Py.endswith. rewrite length_append.
  replace (String.length a + String.length t - String.length t)%nat
    with (String.length a) by lia.
  rewrite substring_tail, String.eqb_refl, andb_true_r.
  apply Nat.leb_le. lia.
Qed.

Lemma endswith_inv (s t : string) :
  Py.endswith s t = true -> exists a, s = a +:+ t.
Proof.
  unfold Py.endswith. intros [Hlen%Nat.leb_le Heq%String.eqb_eq]%andb_true_iff.
  exists (String.substring 0 (String.length s - String.length t) s).
  rewrite (substring_split (String.length s - String.length t) s) at 1 by lia.
  f_equal. rewrite <- Heq at 3. f_equal. lia.
Qed.

(** The suffix of a file name, after pathlib, against [str.endswith]: for
    an extension that is a dot followed by a text without dots, the two
    tests differ on one name only, the extension itself. *)
Lemma suffix_endswith (name ext : string) :
  no_dot ext = true -> ext ≠ "" ->
  String.eqb (Py.suffix name) (String "." ext) =
  Py.endswith name (String "." ext) && negb (String.eqb name (String "." ext)).
Proof.
  intros Hext Hne.
  destruct (Py.endswith name (String "." ext)) eqn:Hend; cbn [andb].
  - apply endswith_inv in Hend as [a ->].
    unfold Py.suffix. rewrite rfind_dot_last by done. cbn [Nat.add].
    rewrite length_append.
    replace (String.length a + String.length (String "." ext) - String.length a)%nat
      with (String.length (String "." ext)) by lia.
    rewrite substring_tail.
    assert (Hlt : (String.length a <? String.length a + String.length (String "." ext) - 1)%nat
                  = true).
    { apply Nat.ltb_lt. cbn [String.length]. destruct ext; [done |]. cbn. lia. }
    rewrite Hlt, andb_true_r.
    destruct a as [| c a].
    + cbn [String.length Nat.ltb Nat.leb]. change ("" +:+ ?r) with r.
      by rewrite String.eqb_refl.
    + cbn [String.length]. replace (0 <? S _)%nat with true by done.
      rewrite String.eqb_refl. symmetry. apply negb_true_iff, String.eqb_neq.
      intros H. apply (f_equal String.length) in H.
      rewrite append_cons in H. cbn [String.length] in H. rewrite length_append in H.
      cbn [String.length] in H. lia.
  - apply String.eqb_neq. intros Hsuf. unfold Py.suffix in Hsuf.
    destruct (Py.rfind_dot name 0) as [i |] eqn:Hr; [| done].
    destruct (_ && _); [| done].
    apply rfind_dot_inv in Hr as (a & b & -> & Hb & ->).
    cbn [Nat.add] in Hsuf. rewrite length_append in Hsuf.
    replace (String.length a + String.length (String "." b) - String.length a)%nat
      with (String.length (String "." b)) in Hsuf by lia.
    rewrite substring_tail in Hsuf. rewrite Hsuf, endswith_app in Hend. done.
Qed.

(** X2: the importer decides twice whether a file is a changelog: by the
    suffix of the path when it computes the hash ([_git_files_md5]) and by
    [str.endswith] when it uploads ([package]).  The two tests agree on
    every file name but one: the name [.changes] itself ends with
    [.changes] and has no suffix. *)
Theorem changes_tests_agree (filename : string) :
  String.eqb (Py.suffix filename) ".changes" =
  Py.endswith filename ".changes" && negb (String.eqb filename ".changes").
Proof. by apply suffix_endswith. Qed.

(** ** Hashes of the files of the tree *)

Lemma read_chunks_all (rounds size : nat) (rest fed : bytes) :
  (0 < size)%nat -> (List.length rest <= rounds)%nat ->
  foldl (fun fed chunk => fed ++ chunk) fed (Git.read_chunks rounds size rest) = fed ++ rest.
Proof.
  intros Hsize. revert rest fed.
  induction rounds as [| rounds IH]; intros rest fed Hlen.
  - destruct rest; cbn in *; [by rewrite app_nil_r | lia].
  - cbn [Git.read_chunks].
    destruct (take size rest) as [| b chunk] eqn:Htake.
    + destruct rest; [by rewrite app_nil_r |].
      destruct size; [lia | done].
    + cbn [foldl]. rewrite IH.
      * rewrite <- Htake, <- app_assoc. by rewrite take_drop.
      * rewrite length_drop. destruct rest; [by destruct size |].
        cbn [List.length] in *. lia.
Qed.

Lemma md5_run (package filename : string) e w :
  Git._md5 package filename e w =
  match files w !! PkgFile package filename with
  | Some content => (Ok (md5_hexdigest e content), w)
  | None => (Raise (FileNotFoundError (PkgFile package filename)), w)
  end.
Proof.
  unfold Git._md5, Git.read_file. msimpl.
  destruct (files w !! PkgFile package filename) as [content |]; [| done].
  rewrite read_chunks_all; [done | lia | done].
Qed.

Lemma elem_of_package_files (package f : string) (b : bytes) (fs : gmap path bytes) :
  (f, b) ∈ Git.package_files package fs <-> fs !! PkgFile package f = Some b.
Proof.
  unfold Git.package_files. rewrite list_elem_of_omap. split.
  - intros ([p b'] & Hin & Hsome). apply elem_of_map_to_list in Hin.
    destruct p as [| pk f' | |]; try done.
    destruct (String.eqb_spec pk package) as [-> |]; [| done].
    by injection Hsome as -> ->.
  - intros Hlook. exists (PkgFile package f, b). split.
    + by apply elem_of_map_to_list.
    + by rewrite String.eqb_refl.
Qed.

Lemma gather_results_md5 (package : string) (l : list (string * bytes)) e w :
  (forall f b, (f, b) ∈ l -> files w !! PkgFile package f = Some b) ->
  gather_results (Git._md5 package <$> (fst <$> l)) e w =
  (Ok ((fun entry => md5_hexdigest e entry.2) <$> l), w).
Proof.
  induction l as [| [f b] l IH]; intros Hl; [done |].
  cbn [fmap list_fmap gather_results fst]. msimpl.
  rewrite md5_run, (Hl f b) by apply list_elem_of_here.
  cbn [fmap] in IH. rewrite IH; [done |].
  intros f' b' Hin. apply Hl. by apply list_elem_of_further.
Qed.

Lemma zip_fst_map {A B C} (g : A * B -> C) (l : list (A * B)) :
  zip (fst <$> l) (g <$> l) = (fun entry => (entry.1, g entry)) <$> l.
Proof. induction l as [| x l IH]; [done |]. cbn. by rewrite <- IH. Qed.

Lemma files_md5_by_chunks_run (package : string) (e : Env) (w : World) :
  Git.files_md5_by_chunks package e w =
  if bool_decide (DPkg package ∈ dirs w)
  then (Ok ((fun entry => (entry.1, md5_hexdigest e entry.2))
              <$> Git.package_files package (files w)), w)
  else (Raise (FileNotFoundError (PkgFile package "")), w).
Proof.
  unfold Git.files_md5_by_chunks. msimpl.
  destruct (bool_decide (DPkg package ∈ dirs w)); [| done].
  rewrite gather_results_md5.
  - by rewrite zip_fst_map.
  - intros f b. apply elem_of_package_files.
Qed.

(** X3: the hash that the tree reports for a file is the MD5 of the whole
    file.  Reading in chunks of 4096 bytes loses nothing, whatever the size
    of the file, and every name is paired with the hash of its own file; a
    package directory that does not exist raises [FileNotFoundError].  The
    listing by chunks is the listing [Git.files_md5] that hashes each file
    at once. *)
Theorem files_md5_whole_content (package : string) (e : Env) (w : World) :
  Git.files_md5_by_chunks package e w =
    (if bool_decide (DPkg package ∈ dirs w)
     then (Ok ((fun entry => (entry.1, md5_hexdigest e entry.2))
                 <$> Git.package_files package (files w)), w)
     else (Raise (FileNotFoundError (PkgFile package "")), w)) /\
  Git.files_md5_by_chunks package e w = Git.files_md5 package e w.
Proof.
  split; [apply files_md5_by_chunks_run |].
  rewrite files_md5_by_chunks_run. unfold Git.files_md5. msimpl.
  destruct (bool_decide _); [| done]. do 2 f_equal.
  apply list_fmap_ext. by intros _ [f b] _.
Qed.

(** ** The history of the repository *)

Lemma strictly_below_spec (p cs : list string) :
  strictly_below p cs = true <-> exists rest, rest ≠ [] /\ cs = p ++ rest.
Proof.
  revert cs. induction p as [| x p IH]; intros cs.
  - destruct cs as [| y cs]; cbn; split; try done.
    + by intros (rest & Hne & <-).
    + intros _. by exists (y :: cs).
  - destruct cs as [| y cs]; cbn [strictly_below].
    + split; [done | by intros (rest & _ & ?)].
    + rewrite andb_true_iff, IH. split.
      * intros [->%String.eqb_eq (rest & Hne & ->)]. by exists rest.
      * intros (rest & Hne & [= -> ->]). split; [apply String.eqb_refl | by exists rest].
Qed.

Lemma elem_of_rev_list {A} (x : A) (l : list A) : x ∈ rev l <-> x ∈ l.
Proof. rewrite !list_elem_of_In. symmetry. apply in_rev. Qed.

Lemma elem_of_parents (p cs : list string) :
  p ∈ Py.parents cs <-> exists rest, rest ≠ [] /\ cs = p ++ rest.
Proof.
  unfold Py.parents. rewrite list_elem_of_fmap. split.
  - intros (k & -> & Hk). rewrite elem_of_rev_list, elem_of_seq in Hk.
    exists (drop k cs). split; [| by rewrite take_drop].
    intros Hnil. apply (f_equal List.length) in Hnil.
    rewrite length_drop in Hnil. cbn in Hnil. lia.
  - intros (rest & Hne & ->). exists (List.length p). split.
    + by rewrite take_app_length.
    + rewrite elem_of_rev_list, elem_of_seq, length_app.
      destruct rest; [done | cbn; lia].
Qed.

Lemma touches_strictly_below (prefix package new_file : string) :
  bool_decide (GitHistory.package_path prefix package ∈ Py.parents (Py.parts new_file)) =
  strictly_below (GitHistory.package_path prefix package) (Py.parts new_file).
Proof.
  apply eq_true_iff_eq. rewrite bool_decide_eq_true, strictly_below_spec.
  apply elem_of_parents.
Qed.

(** A path lies below the directory of at most one package. *)
Lemma below_one_package (prefix a b : string) (cs : list string) :
  strictly_below (GitHistory.package_path prefix a) cs = true ->
  strictly_below (GitHistory.package_path prefix b) cs = true ->
  a = b.
Proof.
  rewrite !strictly_below_spec. unfold GitHistory.package_path.
  intros (r1 & _ & ->) (r2 & _ & H).
  rewrite <- !app_assoc in H. apply app_inv_head in H. by injection H.
Qed.

Lemma filter_at_most_one {A} (P : A -> bool) (l : list A) :
  NoDup l -> (forall x y, x ∈ l -> y ∈ l -> P x = true -> P y = true -> x = y) ->
  (List.length (List.filter P l) <= 1)%nat.
Proof.
  induction 1 as [| x l Hx Hl IH]; intros Huniq; [cbn; lia |].
  cbn [List.filter]. destruct (P x) eqn:Hpx.
  - assert (Hnone : List.filter P l = []).
    { destruct (List.filter P l) as [| y r] eqn:Hf; [done |].
      assert (Hy : y ∈ List.filter P l) by (rewrite Hf; apply list_elem_of_here).
      apply elem_of_filter_list in Hy as [Hy Hpy].
      assert (x = y) as -> by (apply Huniq; [apply list_elem_of_here | by apply list_elem_of_further | done | done]).
      done. }
    rewrite Hnone. cbn. lia.
  - apply IH. intros a b Ha Hb. apply Huniq; by apply list_elem_of_further.
Qed.

Lemma touched_at_most_one (prefix new_file : string) (packages : list string) :
  NoDup packages ->
  (List.length (GitHistory.touched prefix packages new_file) <= 1)%nat.
Proof.
  intros Hnd. apply filter_at_most_one; [done |].
  intros a b _ _. rewrite !touches_strictly_below. apply below_one_package.
Qed.

Lemma NoDup_omap_inj {A B} (g : A -> option B) (l : list A) :
  (forall x y z, g x = Some z -> g y = Some z -> x = y) ->
  NoDup l -> NoDup (omap g l).
Proof.
  intros Hinj. induction 1 as [| x l Hx Hl IH]; [constructor |].
  cbn [omap list_omap]. destruct (g x) as [z |] eqn:Hg; [| done].
  constructor; [| done]. rewrite list_elem_of_omap. intros (y & Hy & Hgy).
  by rewrite (Hinj x y z Hg Hgy) in Hx.
Qed.

Lemma packages_run e w :
  exists packages,
    Git.packages e w = (Ok packages, w) /\ NoDup packages /\
    forall package, package ∈ packages <-> is_package w package.
Proof.
  unfold Git.packages. msimpl. eexists. split; [reflexivity |]. split.
  - apply NoDup_omap_inj; [| apply NoDup_elements].
    intros [| a |] [| b |] z; try done.
    destruct (_ || _); [done |]. destruct (_ || _); [done |]. congruence.
  - intros package. rewrite list_elem_of_omap. unfold is_package. split.
    + intros ([| pk |] & Hin & Hsome); try done.
      apply elem_of_elements in Hin.
      destruct (String.eqb_spec pk ".git"); [done |].
      destruct (String.eqb_spec pk ".obs"); [done |].
      injection Hsome as <-. done.
    + intros (Hin & Hgit & Hobs). exists (DPkg package).
      rewrite elem_of_elements. split; [done |].
      destruct (String.eqb_spec package ".git"); [done |].
      by destruct (String.eqb_spec package ".obs").
Qed.

Lemma recorded_cons (prefix : string) (packages : list string)
    (c : GitHistory.commit) (new_file : string)
    (patches : list (GitHistory.commit * string)) (m : gmap string revision) :
  recorded prefix packages ((c, new_file) :: patches) m =
  recorded prefix packages patches
    match GitHistory.touched prefix packages new_file with
    | package :: _ => GitHistory.setdefault package (GitHistory.entry_of c) m
    | [] => m
    end.
Proof. reflexivity. Qed.

Lemma set_first_entry_id (w : World) : set_first_entry (fun m => m) w = w.
Proof. by destruct w. Qed.

Lemma set_first_entry_compose (f g : gmap string revision -> gmap string revision) w :
  set_first_entry g (set_first_entry f w) = set_first_entry (fun m => g (f m)) w.
Proof. done. Qed.

Lemma analyze_history_run (walk : list GitHistory.commit) e w :
  exists packages,
    NoDup packages /\ (forall package, package ∈ packages <-> is_package w package) /\
    GitHistory.analyze_history walk e w =
    (Ok (), set_first_entry (recorded (git_prefix e) packages (GitHistory._patches walk)) w).
Proof.
  destruct (packages_run e w) as (packages & Hrun & Hnd & Hin).
  exists packages. split; [done |]. split; [done |].
  unfold GitHistory.analyze_history. rewrite run_bind.
  change (ask e w) with (Ok e, w). cbv beta iota. rewrite run_bind, Hrun.
  generalize (GitHistory._patches walk). clear Hrun Hin. intros patches.
  revert w. induction patches as [| [c new_file] patches IH]; intros w.
  - cbn. by rewrite set_first_entry_id.
  - cbn [for_each]. rewrite run_bind.
    pose proof (touched_at_most_one (git_prefix e) new_file packages Hnd) as Hone.
    apply Nat.leb_le in Hone. rewrite Hone.
    unfold recorded. cbn [foldl].
    destruct (GitHistory.touched (git_prefix e) packages new_file) as [| package rest].
    + apply IH.
    + unfold modify at 1. rewrite IH. done.
Qed.

Lemma setdefault_subseteq (package : string) (r : revision) (m : gmap string revision) :
  m ⊆ GitHistory.setdefault package r m.
Proof.
  unfold GitHistory.setdefault. destruct (m !! package) eqn:Hm; [done |].
  by apply insert_subseteq.
Qed.

Lemma recorded_subseteq (prefix : string) (packages : list string)
    (patches : list (GitHistory.commit * string)) (m : gmap string revision) :
  m ⊆ recorded prefix packages patches m.
Proof.
  revert m. induction patches as [| [c new_file] patches IH]; intros m; [done |].
  rewrite recorded_cons.
  destruct (GitHistory.touched prefix packages new_file); [apply IH |].
  etrans; [apply setdefault_subseteq | apply IH].
Qed.


Lemma touched_elem (prefix new_file package : string) (packages : list string) :
  package ∈ GitHistory.touched prefix packages new_file <->
  package ∈ packages /\
  strictly_below (GitHistory.package_path prefix package) (Py.parts new_file) = true.
Proof.
  unfold GitHistory.touched. rewrite elem_of_filter_list.
  by rewrite touches_strictly_below.
Qed.

Lemma setdefault_lookup (package key : string) (r : revision) (m : gmap string revision) :
  GitHistory.setdefault key r m !! package =
  match m !! package with
  | Some old => Some old
  | None => if String.eqb key package then Some r else None
  end.
Proof.
  unfold GitHistory.setdefault.
  destruct (String.eqb_spec key package) as [-> | Hne].
  - destruct (m !! package) eqn:Hm; [by rewrite Hm | by rewrite lookup_insert_eq].
  - destruct (m !! key) eqn:Hk; [by destruct (m !! package) |].
    rewrite lookup_insert_ne by done. by destruct (m !! package).
Qed.

Lemma recorded_lookup (prefix package : string) (packages : list string)
    (patches : list (GitHistory.commit * string)) (m : gmap string revision) :
  NoDup packages -> package ∈ packages ->
  recorded prefix packages patches m !! package =
  match m !! package with
  | Some r => Some r
  | None =>
      (fun patch => GitHistory.entry_of patch.1) <$>
        List.find (fun patch =>
                     strictly_below (GitHistory.package_path prefix package)
                                    (Py.parts patch.2))
                  patches
  end.
Proof.
  intros Hnd Hin. revert m.
  induction patches as [| [c new_file] patches IH]; intros m.
  - cbn. by destruct (m !! package).
  - rewrite recorded_cons. cbn [List.find fst snd].
    pose proof (touched_at_most_one prefix new_file packages Hnd) as Hone.
    pose proof (touched_elem prefix new_file package packages) as Helem.
    destruct (GitHistory.touched prefix packages new_file) as [| key rest] eqn:Ht.
    + destruct (strictly_below _ _) eqn:Hb; [| apply IH].
      assert (Hc : package ∈ @nil string) by by apply Helem.
      by apply elem_of_nil in Hc.
    + destruct rest; [| cbn in Hone; lia].
      rewrite IH, setdefault_lookup.
      destruct (m !! package); [done |].
      destruct (String.eqb_spec key package) as [-> | Hne].
      * assert (Hb : package ∈ packages /\
                     strictly_below (GitHistory.package_path prefix package)
                                    (Py.parts new_file) = true)
          by (apply Helem, list_elem_of_here).
        by rewrite (proj2 Hb).
      * destruct (strictly_below _ _) eqn:Hb; [| done].
        assert (Hc : package ∈ [key]) by by apply Helem.
        apply list_elem_of_singleton in Hc. congruence.
Qed.

Lemma find_app_list {A} (f : A -> bool) (a b : list A) :
  List.find f (a ++ b) =
  match List.find f a with Some x => Some x | None => List.find f b end.
Proof. induction a as [| x a IH]; [done |]. cbn. by destruct (f x). Qed.

Lemma existsb_find {A} (f : A -> bool) (l : list A) :
  existsb f l = match List.find f l with Some _ => true | None => false end.
Proof. induction l as [| x l IH]; [done |]. cbn. by destruct (f x). Qed.

Lemma find_pair {A B} (f : B -> bool) (a : A) (l : list B) :
  List.find (fun patch : A * B => f patch.2) (pair a <$> l) = pair a <$> List.find f l.
Proof. induction l as [| x l IH]; [done |]. cbn. by destruct (f x). Qed.

Lemma find_patches (prefix package : string) (walk : list GitHistory.commit) :
  (fun patch : GitHistory.commit * string => GitHistory.entry_of patch.1) <$>
    List.find (fun patch =>
                 strictly_below (GitHistory.package_path prefix package) (Py.parts patch.2))
              (GitHistory._patches walk) =
  GitHistory.entry_of <$> List.find (changes_package prefix package) walk.
Proof.
  unfold GitHistory._patches.
  induction walk as [| c walk IH]; [done |].
  cbn [mbind list_bind List.find]. rewrite find_app_list.
  unfold changes_package at 1. rewrite existsb_find.
  pose proof (find_pair (fun new_file =>
                           strictly_below (GitHistory.package_path prefix package)
                                          (Py.parts new_file)) c (GitHistory.diff c))
    as Hfind. cbv beta in Hfind.
  destruct (GitHistory.parents c) as [| [| n]]; cbn [Nat.eqb Nat.leb andb].
  - rewrite Hfind. destruct (List.find _ (GitHistory.diff c)); [done | apply IH].
  - rewrite Hfind. destruct (List.find _ (GitHistory.diff c)); [done | apply IH].
  - apply IH.
Qed.



(** ** Creation of projects and packages *)

Lemma set_log_app (a b : list event) (w : World) :
  set_log (fun l => l ++ b) (set_log (fun l => l ++ a) w) =
  set_log (fun l => l ++ (a ++ b)) w.
Proof. unfold set_log. cbn. by rewrite <- app_assoc. Qed.

Lemma set_log_nil (w : World) : set_log (fun l => l ++ []) w = w.
Proof. destruct w. unfold set_log. cbn. by rewrite app_nil_r. Qed.

Lemma missing_run (self : AsyncOBS.t) (project : string) (package : pyval)
    (status : Z) e w :
  http_status e (Head (head_url self project package)) = Some status ->
  exists evs,
    AsyncOBS.and_not (AsyncOBS.authorized self project package)
                     (AsyncOBS.exists_ self project package) e w =
    (Ok (Z.eqb status 404), set_log (fun l => l ++ evs) w) /\
    Forall (fun ev => is_put ev = false) evs.
Proof.
  intros Hstatus.
  unfold AsyncOBS.and_not, AsyncOBS.authorized, AsyncOBS.exists_, AsyncOBS.request.
  fold (head_url self project package). msimpl. rewrite Hstatus.
  destruct (Z.eqb_spec status 401) as [-> | Hne]; cbn [negb].
  - exists [Head (head_url self project package)]. split; [done | by repeat constructor].
  - rewrite set_log_app.
    exists ([Head (head_url self project package)] ++ [Head (head_url self project package)]).
    split; [| by repeat constructor].
    rewrite Hstatus. cbv beta iota. by rewrite negb_involutive.
Qed.



(** ** The order and the groups of an import *)

Lemma insert_by_key_false {A} (key : A -> bool) (x : A) (l : list A) :
  key x = false -> Py.insert_by_key key x l = x :: l.
Proof. intros Hx. destruct l as [| y l]; cbn; [done |]. by rewrite Hx, andb_false_r. Qed.

Lemma insert_by_key_true {A} (key : A -> bool) (x : A) (a b : list A) :
  key x = true -> Forall (fun y => key y = false) a -> Forall (fun y => key y = true) b ->
  Py.insert_by_key key x (a ++ b) = a ++ x :: b.
Proof.
  intros Hx Ha Hb. induction Ha as [| y a Hy _ IH].
  - destruct Hb as [| z b Hz _]; cbn; [done |]. by rewrite Hz.
  - cbn. by rewrite Hy, Hx, IH.
Qed.

(** Sorting by a Boolean key puts the items whose key is false first and
    keeps the order on both sides. *)
Lemma sorted_by_key_partition {A} (key : A -> bool) (l : list A) :
  Py.sorted_by_key key l =
  List.filter (fun x => negb (key x)) l ++ List.filter key l.
Proof.
  unfold Py.sorted_by_key. induction l as [| x l IH]; [done |].
  cbn [foldr List.filter]. rewrite IH. destruct (key x) eqn:Hx; cbn [negb].
  - apply insert_by_key_true; [done | |].
    + apply Forall_forall. intros y [_ Hy%negb_true_iff]%elem_of_filter_list. done.
    + apply Forall_forall. by intros y [_ Hy]%elem_of_filter_list.
  - by apply insert_by_key_false.
Qed.

Lemma range_step_cons (len step : nat) :
  (0 < step)%nat -> (0 < len)%nat ->
  Py.range_step len step =
  0%nat :: ((fun i => step + i)%nat <$> Py.range_step (len - step) step).
Proof.
  intros Hstep Hlen. unfold Py.range_step.
  assert (Hdiv : ((len + step - 1) / step = S ((len - step + step - 1) / step))%nat).
  { destruct (Nat.le_gt_cases step len) as [Hle | Hlt].
    - replace (len + step - 1)%nat with ((len - step + step - 1) + 1 * step)%nat by lia.
      rewrite Nat.div_add by lia. lia.
    - replace (len - step + step - 1)%nat with (step - 1)%nat by lia.
      rewrite (Nat.div_small (step - 1)) by lia.
      replace (len + step - 1)%nat with ((len - 1) + 1 * step)%nat by lia.
      rewrite Nat.div_add, Nat.div_small by lia. done. }
  rewrite Hdiv. cbn [seq fmap list_fmap]. f_equal.
  rewrite <- seq_shift, <- !list_fmap_compose.
  apply list_fmap_ext. intros _ k _. cbn. lia.
Qed.

Lemma slices_nil {A} (size : nat) : (0 < size)%nat -> Py.slices size (@nil A) = [].
Proof.
  intros Hsize. unfold Py.slices, Py.range_step. cbn [List.length].
  rewrite Nat.div_small by lia. done.
Qed.

Lemma slices_cons {A} (size : nat) (l : list A) :
  (0 < size)%nat -> l ≠ [] ->
  Py.slices size l = take size l :: Py.slices size (drop size l).
Proof.
  intros Hsize Hne. unfold Py.slices.
  rewrite range_step_cons by (done || (destruct l; [done | cbn; lia])).
  cbn [fmap list_fmap]. rewrite drop_0. f_equal.
  rewrite <- list_fmap_compose, length_drop.
  apply list_fmap_ext. intros _ i _. cbn. by rewrite drop_drop.
Qed.

(** The groups are the list cut into pieces of [size] items, the last one
    possibly shorter: none is empty, none is longer than [size], and put
    end to end they give the list back. *)
Lemma slices_spec {A} (size : nat) (l : list A) :
  (0 < size)%nat ->
  List.concat (Py.slices size l) = l /\
  Forall (fun group => (0 < List.length group <= size)%nat) (Py.slices size l).
Proof.
  intros Hsize.
  remember (List.length l) as n eqn:Hn. revert l Hn.
  induction (lt_wf n) as [n _ IH]. intros l Hn.
  destruct l as [| x l]; [by rewrite slices_nil |].
  rewrite slices_cons by done.
  destruct (IH (List.length (drop size (x :: l)))) with (l := drop size (x :: l))
    as [Hcat Hall].
  { subst n. rewrite length_drop. cbn. lia. }
  { done. }
  cbn [List.concat]. rewrite Hcat, take_drop. split; [done |].
  constructor; [| done]. rewrite length_take. cbn. lia.
Qed.

(** X7: the groups in which [Importer.project] imports the packages.  The
    sorted list is cut into consecutive groups of four, the last one
    possibly shorter: no group is empty, none holds more than four
    packages, and end to end the groups are the list, so that no package is
    left out or imported twice. *)
Theorem import_groups {A} (l : list A) :
  List.concat (Py.slices 4 l) = l /\
  Forall (fun group => (0 < List.length group <= 4)%nat) (Py.slices 4 l).
Proof. apply slices_spec. lia. Qed.

(** ** Calls of an import *)

Global Instance same_tree_preorder : PreOrder same_tree.
Proof.
  split.
  - by intros w.
  - intros w1 w2 w3 [H1 H2] [H3 H4]. unfold same_tree. split; congruence.
Qed.

Lemma keeps_bind_returns {A B} (R : World -> World -> Prop) `{!PreOrder R}
    (P : A -> Prop) (m : M A) (f : A -> M B) :
  keeps R m -> returns P m -> (forall a, P a -> keeps R (f a)) -> keeps R (m ≫= f).
Proof.
  intros Hm Hr Hf e w. rewrite run_bind. pose proof (Hm e w) as H1.
  specialize (Hr e w). destruct (m e w) as [[a | x] w']; cbn in *; [| done].
  etrans; [exact H1 | by apply Hf, (Hr a w')].
Qed.

Lemma exists_run (self : AsyncOBS.t) (project : string) (package : pyval) e w :
  AsyncOBS.exists_ self project package e w =
  match http_status e (Head (head_url self project package)) with
  | Some status => (Ok (negb (status =? 404)), logged (Head (head_url self project package)) w)
  | None => (Raise (ClientError ""), logged (Head (head_url self project package)) w)
  end.
Proof.
  unfold AsyncOBS.exists_, AsyncOBS.request. fold (head_url self project package).
  msimpl. by destruct (http_status e _).
Qed.

Section ImportCalls.
Context (P : event -> Prop).
Context (HPrint : forall s, P (Print s)) (HWarning : forall s, P (Warning s)).
Context (HGet : forall u ps, P (Get u ps)) (HPut : forall u ps body, P (Put u ps body)).
Context (HDelete : forall u, P (Delete u [("rev", Some "repository")])).
Context (HPost : forall u ps body, P (Post u ps body)).

Local Ltac allowed :=
  apply Forall_singleton;
  first [apply HPrint | apply HWarning | apply HGet | apply HPut | apply HDelete
        | apply HPost].

Lemma import_upload_emits (obs : AsyncOBS.t) (project : string) (segments : list string)
    (filename_path : option path) (data : option payload) (ps : params) :
  emits (Forall P) (AsyncOBS.upload obs project segments filename_path data ps).
Proof. emits_go allowed. Qed.

Lemma import_uploads_emits {A} (read : A -> M (M unit)) (l : list A) :
  (forall x, emits (Forall P) (read x)) ->
  (forall x, returns (emits (Forall P)) (read x)) ->
  emits (Forall P) (Importer.map_m read l ≫= gather).
Proof.
  intros Hread Htask.
  apply (emits_bind_returns _ (Forall (emits (Forall P)))); monoidal.
  - by apply emits_map_m; monoidal.
  - by apply returns_map_m.
  - intros tasks Htasks. by apply emits_gather; monoidal.
Qed.

Lemma import_project_metadata_emits (self : Importer.t) (project : string) :
  emits (Forall P) (Importer.project_metadata self project).
Proof.
  unfold Importer.project_metadata. cbv zeta.
  apply import_uploads_emits.
  - intros meta. emits_step; [apply replace_project_silent; monoidal | emits_step].
  - intros meta e w r w' Hrun. rewrite run_bind in Hrun.
    destruct (Importer.replace_project _ _ _ e w) as [[data | ?] w1]; [| done].
    injection Hrun as <- _. apply import_upload_emits.
Qed.

Lemma import_package_metadata_emits (self : Importer.t) (project package : string) :
  emits (Forall P) (Importer.package_metadata self project package).
Proof.
  unfold Importer.package_metadata. cbv zeta.
  emits_step; [unfold Importer.project_name; emits_go idtac |].
  emits_step; [emits_go idtac |].
  emits_step; [emits_step |].
  emits_step; [| emits_step].
  emits_step; [emits_go allowed |].
  apply import_uploads_emits.
  - intros meta. emits_step; [apply replace_project_silent; monoidal | emits_step].
  - intros meta env w0 r w' Hrun. rewrite run_bind in Hrun.
    destruct (Importer.replace_project _ _ _ env w0) as [[data | ?] w1]; [| done].
    injection Hrun as <- _. apply import_upload_emits.
Qed.

Lemma import_listings_allowed (self : Importer.t) (project package : string) :
  emits (Forall P) (Importer.listings self project package).
Proof.
  unfold Importer.listings.
  (apply emits_bind; monoidal); [| intros [o rev]].
  { unfold AsyncOBS.files_md5_revision. cbv zeta. emits_go allowed. }
  emits_step; [apply emits_str_pairs; monoidal |].
  emits_step.
  { unfold Importer._git_files_md5. emits_step; [emits_go idtac |].
    (apply emits_map_m; monoidal); intros [f m].
    destruct (String.eqb _ _); [| emits_step].
    emits_step; [apply prepend_changes_silent; monoidal | emits_go idtac]. }
  emits_step; [| emits_step].
  unfold Importer.read_pointer_manifest.
  emits_step; [emits_go idtac |]. emits_step.
  - emits_step; [emits_go idtac | apply pairs_of_tuples_silent; monoidal].
  - emits_step.
Qed.

Lemma import_synchronise_allowed (self : Importer.t) (project package : string)
    (O G S : gset (string * string)) :
  emits (Forall P) (Importer.synchronise self project package O G S).
Proof.
  unfold Importer.synchronise. cbv zeta.
  apply (emits_bind_returns _ (Forall (emits (Forall P)))); monoidal.
  - apply emits_map_m; monoidal. intros [f m].
    emits_step; [apply prepend_changes_silent; monoidal | emits_step].
  - apply returns_map_m. intros [f m] e w r w' Hrun.
    rewrite run_bind in Hrun.
    destruct (Importer.prepend_changes _ _ e w) as [[data | ?] w1]; [| done].
    injection Hrun as <- _. apply import_upload_emits.
  - intros changes_uploads Hchanges.
    apply (emits_bind_returns _ (Forall (emits (Forall P)))); monoidal.
    + destruct (Importer.store self); [emits_step |].
      destruct (Importer.nonempty _); emits_step.
    + intros e w r w' Hrun. destruct (Importer.store self) as [s |].
      * injection Hrun as <- _. apply Forall_fmap, Forall_forall. intros [f m] _.
        unfold compose. cbv beta iota. unfold StorageOBS.transfer. emits_go allowed.
      * destruct (Importer.nonempty _); [done |]. injection Hrun as <- _. constructor.
    + intros transfers Htransfers. emits_step.
      * apply emits_gather; monoidal.
        repeat (apply Forall_app; split); [| done | done |].
        -- apply Forall_fmap, Forall_forall. intros [f m] _.
           unfold compose. cbv beta iota. apply import_upload_emits.
        -- apply Forall_fmap, Forall_forall. intros f _.
           unfold compose. cbv beta iota. emits_go allowed.
      * destruct (_ || _); [| emits_step]. emits_go allowed.
Qed.

(** An import of a package asks once whether the package exists, right
    after its banner; all its other calls are among the allowed ones. *)
Lemma import_package_trace (self : Importer.t) (project package : string) e w :
  exists evs,
    log (Importer.package self project package e w).2 =
      log w ++ Print (project +:+ "/" +:+ package +:+ " ...") ::
               Head (head_url (Importer.obs self) project (Some package)) :: evs /\
    Forall P evs.
Proof.
  rewrite import_package_split, run_bind.
  unfold Importer.before_listings. rewrite run_bind.
  change (emit ?ev e w) with (Ok (), logged ev w). cbv beta iota.
  rewrite run_bind, exists_run.
  fold (head_url (Importer.obs self) project (Some package)).
  destruct (http_status e _) as [status |]; cbv beta iota.
  - set (w2 := logged _ (logged _ w)).
    assert (Hmeta : emits (Forall P)
                      (if negb (negb (status =? 404) && Importer.skip_all_package_meta self)
                       then Importer.package_metadata self project package
                       else mret ())).
    { destruct (negb _); [apply import_package_metadata_emits | emits_step]. }
    destruct (Hmeta e w2) as (evs1 & Hlog1 & Hall1).
    destruct ((if negb (negb (status =? 404) && Importer.skip_all_package_meta self)
               then Importer.package_metadata self project package
               else mret ()) e w2) as [[[] | x] w3]; cbn [snd] in Hlog1.
    + assert (Hrest : emits (Forall P)
                        (Importer.listings self project package ≫= fun '(o, g, s) =>
                         Importer.synchronise self project package o g s)).
      { emits_step; [apply import_listings_allowed |].
        destruct a as [[o g] s]. apply import_synchronise_allowed. }
      destruct (Hrest e w3) as (evs2 & Hlog2 & Hall2).
      exists (evs1 ++ evs2). split; [| by apply Forall_app].
      rewrite Hlog2, Hlog1. unfold w2. cbn [log logged set_log].
      by rewrite <- !app_assoc.
    + exists evs1. split; [| done]. cbn [snd]. rewrite Hlog1. unfold w2.
      cbn [log logged set_log]. by rewrite <- !app_assoc.
  - exists []. split; [| constructor]. cbn. by rewrite <- app_assoc.
Qed.

End ImportCalls.

Section Traces.
Context {B : Type} (T : list B -> list event -> Prop).
Context (Hnil : T [] []).
Context (Happ : forall l1 l2 evs1 evs2, T l1 evs1 -> T l2 evs2 -> T (l1 ++ l2) (evs1 ++ evs2)).

Lemma gather_traces (t : B -> M unit) (l : list B) :
  (forall x e w, exists evs, log (t x e w).2 = log w ++ evs /\ T [x] evs) ->
  forall e w, exists evs, log (gather (t <$> l) e w).2 = log w ++ evs /\ T l evs.
Proof.
  intros Ht. induction l as [| x l IH]; intros e w.
  - exists []. cbn. by rewrite app_nil_r.
  - cbn [fmap list_fmap]. rewrite gather_cons_world.
    destruct (Ht x e w) as (evs1 & Hlog1 & H1).
    destruct (IH e (t x e w).2) as (evs2 & Hlog2 & H2).
    exists (evs1 ++ evs2). rewrite Hlog2, Hlog1, app_assoc. split; [done |].
    by apply (Happ [x] l).
Qed.

Lemma for_each_traces {A} (g : A -> M unit) (items : A -> list B) (l : list A) :
  (forall x e w, exists evs, log (g x e w).2 = log w ++ evs /\ T (items x) evs) ->
  forall e w w', for_each g l e w = (Ok (), w') ->
    exists evs, log w' = log w ++ evs /\ T (List.concat (items <$> l)) evs.
Proof.
  intros Hg. induction l as [| x l IH]; intros e w w' Hrun.
  - injection Hrun as <-. exists []. cbn. by rewrite app_nil_r.
  - cbn [for_each] in Hrun. rewrite run_bind in Hrun.
    destruct (Hg x e w) as (evs1 & Hlog1 & H1).
    destruct (g x e w) as [[[] | ?] w1]; [| done]. cbn [snd] in Hlog1.
    destruct (IH e w1 w' Hrun) as (evs2 & Hlog2 & H2).
    exists (evs1 ++ evs2). rewrite Hlog2, Hlog1, app_assoc. split; [done |].
    cbn [fmap list_fmap List.concat]. by apply Happ.
Qed.
End Traces.

Lemma filter_quiet (evs : list event) :
  Forall quiet evs ->
  List.filter is_head evs = [] /\ List.filter is_package_delete evs = [].
Proof.
  induction 1 as [| ev evs [Hh Hd] _ [IH1 IH2]]; [done |].
  cbn. by rewrite Hh, Hd.
Qed.

Lemma imports_of_app (obs : AsyncOBS.t) (project : string) l1 l2 evs1 evs2 :
  imports_of obs project l1 evs1 -> imports_of obs project l2 evs2 ->
  imports_of obs project (l1 ++ l2) (evs1 ++ evs2).
Proof.
  intros [H1 H2] [H3 H4]. unfold imports_of.
  by rewrite !List.filter_app, H1, H2, H3, H4, fmap_app.
Qed.

Lemma import_package_imports (self : Importer.t) (project package : string) e w :
  exists evs,
    log (Importer.package self project package e w).2 = log w ++ evs /\
    imports_of (Importer.obs self) project [package] evs.
Proof.
  destruct (import_package_trace quiet) with (self := self) (project := project)
    (package := package) (e := e) (w := w) as (evs & Hlog & Hall); try done.
  eexists. split; [exact Hlog |].
  apply filter_quiet in Hall as [Hh Hd]. unfold imports_of. cbn. by rewrite Hh, Hd.
Qed.

Lemma omap_id_somes {A} (l : list (option A)) :
  None ∉ l -> Some <$> omap id l = l.
Proof.
  induction l as [| [x |] l IH]; intros Hnone; [done | |].
  - cbn. f_equal. apply IH. intros H. apply Hnone. by apply list_elem_of_further.
  - destruct Hnone. apply list_elem_of_here.
Qed.

Lemma gather_deletes (obs : AsyncOBS.t) (project : string) (l : list string) e w :
  log (gather ((fun pk => AsyncOBS.delete obs project [pk] []) <$> l) e w).2 =
  log w ++ (delete_package obs project <$> l).
Proof.
  revert w. induction l as [| pk l IH]; intros w.
  - cbn. by rewrite app_nil_r.
  - cbn [fmap list_fmap]. rewrite gather_cons_world, IH.
    unfold AsyncOBS.delete, AsyncOBS._delete, AsyncOBS.request. msimpl.
    fold (delete_package obs project pk).
    destruct (http_status e _); cbn [snd log set_log]; by rewrite <- app_assoc.
Qed.

Lemma import_project_metadata_keeps (self : Importer.t) (project : string) :
  keeps same_tree (Importer.project_metadata self project).
Proof.
  unfold Importer.project_metadata. cbv zeta.
  apply (keeps_bind_returns _ (Forall (keeps same_tree))); preorder.
  - apply keeps_map_m; preorder. intros meta.
    unfold Importer.replace_project, Importer.project_name.
    keeps_go ltac:(by split).
  - apply returns_map_m. intros meta e w r w' Hrun. rewrite run_bind in Hrun.
    destruct (Importer.replace_project _ _ _ e w) as [[data | ?] w1]; [| done].
    injection Hrun as <- _. keeps_go ltac:(by split).
  - intros tasks Htasks. by apply keeps_gather; preorder.
Qed.

Lemma registry_packages_run (obs : AsyncOBS.t) (project : string) e w :
  AsyncOBS.packages obs project e w =
  (Ok (registry_packages e obs project),
   logged (Get (AsyncOBS.url obs +:+ "/" +:+ ("source/" +:+ project)) []) w).
Proof. unfold AsyncOBS.packages. by rewrite run_bind, xml_run. Qed.

(** The run of [Importer.project] that returns normally, phase by phase. *)
Lemma import_project_run (self : Importer.t) (project : string) e w w' :
  Importer.project self project e w = (Ok (), w') ->
  exists order deleted pre imports,
    NoDup order /\ (forall pk, pk ∈ order <-> is_package w pk) /\
    NoDup deleted /\
    (forall pk, pk ∈ deleted <->
                Some pk ∈ registry_packages e (Importer.obs self) project /\
                ~ is_package w pk) /\
    log w' = log w ++ (Head (head_url (Importer.obs self) project None) :: pre) ++
                      imports ++ (delete_package (Importer.obs self) project <$> deleted) /\
    Forall quiet pre /\
    imports_of (Importer.obs self) project (links_last w order) imports.
Proof.
  unfold Importer.project. rewrite run_bind, exists_run.
  destruct (http_status e _) as [status |]; [| done]. cbv beta iota.
  set (w1 := logged _ w). rewrite run_bind.
  assert (Hmeta : emits (Forall quiet)
                    (if negb (negb (status =? 404) && Importer.skip_all_project_meta self)
                     then Importer.project_metadata self project
                     else mret ())).
  { destruct (negb _); [by apply import_project_metadata_emits | emits_step]. }
  assert (Hmeta' : keeps same_tree
                    (if negb (negb (status =? 404) && Importer.skip_all_project_meta self)
                     then Importer.project_metadata self project
                     else mret ())).
  { destruct (negb _); [apply import_project_metadata_keeps | keeps_step]. }
  destruct (Hmeta e w1) as (evs1 & Hlog1 & Hall1). specialize (Hmeta' e w1).
  destruct ((if negb (negb (status =? 404) && Importer.skip_all_project_meta self)
             then Importer.project_metadata self project
             else mret ()) e w1) as [[[] | ?] w2]; [| done].
  cbn [snd] in Hlog1, Hmeta'. cbv beta iota.
  rewrite run_bind, registry_packages_run. cbv beta iota.
  set (w3 := logged _ w2).
  destruct (packages_run e w3) as (packages & Hpk & Hnd & Hin).
  rewrite run_bind, Hpk. cbv beta iota zeta. rewrite run_bind.
  change (get_world e w3) with (Ok w3, w3). cbv beta iota.
  assert (Hfiles : files w3 = files w) by (unfold w3; cbn; apply Hmeta').
  assert (Hdirs : dirs w3 = dirs w) by (unfold w3; cbn; apply Hmeta').
  rewrite Hfiles. fold (linked w).
  rewrite sorted_by_key_partition.
  set (order := elements (list_to_set packages : gset string)).
  fold (links_last w order).
  rewrite run_bind.
  destruct (for_each _ (Py.slices 4 (links_last w order)) e w3) as [[[] | ?] w4] eqn:Hfor;
    [| done].
  apply (for_each_traces (imports_of (Importer.obs self) project)) with (items := id)
    in Hfor as (imports & Hlog4 & Himports); cycle 1.
  { done. }
  { apply imports_of_app. }
  { intros group e0 w0. apply gather_traces; [done | apply imports_of_app |].
    intros pk e1 w5. apply import_package_imports. }
  rewrite list_fmap_id in Himports.
  rewrite (proj1 (slices_spec 4 (links_last w order) ltac:(lia))) in Himports.
  intros Hdel.
  set (D := (list_to_set (registry_packages e (Importer.obs self) project) : gset pyval)
            ∖ set_map Some (list_to_set packages : gset string)) in *.
  assert (Hnone : None ∉ elements D).
  { intros Hnone.
    assert (Hfail : is_ok (gather
              ((fun pk : pyval =>
                  match pk with
                  | Some pk => AsyncOBS.delete (Importer.obs self) project [pk] []
                  | None => raise TypeError
                  end) <$> elements D) e w4).1 = false).
    { apply (gather_raises (fun _ => True) e _ (raise TypeError)); try done.
      - by apply Forall_forall.
      - apply list_elem_of_fmap. by exists None. }
    by rewrite Hdel in Hfail. }
  pose proof (omap_id_somes _ Hnone) as Hsome.
  set (deleted := omap id (elements D)) in *.
  exists order, deleted, (evs1 ++ [Get (AsyncOBS.url (Importer.obs self) +:+ "/" +:+
                                       ("source/" +:+ project)) []]), imports.
  assert (Hsame : forall pk, pk ∈ packages <-> is_package w pk).
  { intros pk. rewrite Hin. unfold is_package. by rewrite Hdirs. }
  split; [apply NoDup_elements |]. split.
  { intros pk. unfold order. by rewrite elem_of_elements, elem_of_list_to_set. }
  split.
  { apply (NoDup_fmap_1 Some). rewrite Hsome. apply NoDup_elements. }
  split.
  { intros pk. rewrite <- (list_elem_of_fmap_inj Some), Hsome.
    unfold D. rewrite elem_of_elements, elem_of_difference, elem_of_list_to_set,
      elem_of_map, <- Hsame.
    split; intros [Hreg Hnot]; (split; [done |]).
    - intros Hx. apply Hnot. exists pk. split; [done | by apply elem_of_list_to_set].
    - intros (x & [= <-] & Hx). by apply elem_of_list_to_set in Hx. }
  split; [| split; [| done]].
  - assert (Hlog' : log w' = log w4 ++ (delete_package (Importer.obs self) project <$> deleted)).
    { unfold pyval in *. rewrite <- Hsome, <- list_fmap_compose in Hdel.
      unfold compose in Hdel.
      apply (f_equal (fun r => log r.2)) in Hdel. cbv beta iota in Hdel.
      rewrite gather_deletes in Hdel. done. }
    rewrite Hlog', Hlog4. unfold w3. cbn [log logged set_log]. rewrite Hlog1.
    unfold w1. cbn [log logged set_log]. rewrite <- !app_assoc. cbn [app].
    by rewrite <- !app_assoc.
  - apply Forall_app. split; [done |]. by repeat constructor.
Qed.

(** ** An import reads the tree *)

Global Instance read_only_preorder : PreOrder read_only.
Proof.
  split.
  - by intros w.
  - intros w1 w2 w3 (H1 & H2 & H3 & H4 & H5 & H6) (H7 & H8 & H9 & H10 & H11 & H12).
    unfold read_only. split_and!; congruence.
Qed.

Section ReadOnly.
Context (R : World -> World -> Prop) `{!PreOrder R}.
Context (Hlog : forall ev w, R w (logged ev w)).
Context (Hname : forall v w, R w (set_project_name_cache v w)).
Context (Hchanges : forall f w, R w (set_changes_cache f w)).

Local Ltac frame := first [apply Hlog | apply Hname | apply Hchanges].

Lemma keeps_str_pairs l : keeps R (str_pairs l).
Proof.
  induction l as [| [[a |] [b |]] l IH]; cbn [str_pairs]; [| | keeps_step ..].
  - keeps_step.
  - keeps_step; [apply IH | keeps_step].
Qed.

Lemma keeps_pairs_of_tuples l : keeps R (Importer.pairs_of_tuples l).
Proof.
  induction l as [| t l IH]; cbn [Importer.pairs_of_tuples]; [keeps_step |].
  destruct t as [| a [| b [| c t]]]; [keeps_step | keeps_step | | keeps_step].
  keeps_step; [apply IH | keeps_step].
Qed.

Lemma keeps_upload (obs : AsyncOBS.t) (project : string) (segments : list string)
    (filename_path : option path) (data : option payload) (ps : params) :
  keeps R (AsyncOBS.upload obs project segments filename_path data ps).
Proof. keeps_go frame. Qed.

Lemma keeps_replace_project (filename_path : path) (project : string) (name : pyval) :
  keeps R (Importer.replace_project filename_path project name).
Proof. unfold Importer.replace_project, Importer.project_name. keeps_go frame. Qed.

Lemma keeps_prepend_changes (filename_path : path) (package : string) :
  keeps R (Importer.prepend_changes filename_path package).
Proof.
  unfold Importer.prepend_changes, Importer.changes_git_entry. keeps_go frame.
Qed.

Lemma keeps_uploads {A} (read : A -> M (M unit)) (l : list A) :
  (forall x, keeps R (read x)) ->
  (forall x, returns (keeps R) (read x)) ->
  keeps R (Importer.map_m read l ≫= gather).
Proof.
  intros Hread Htask.
  apply (keeps_bind_returns _ (Forall (keeps R))); preorder.
  - by apply keeps_map_m; preorder.
  - by apply returns_map_m.
  - intros tasks Htasks. by apply keeps_gather; preorder.
Qed.

Lemma keeps_import_project_metadata (self : Importer.t) (project : string) :
  keeps R (Importer.project_metadata self project).
Proof.
  unfold Importer.project_metadata. cbv zeta. apply keeps_uploads.
  - intros meta. keeps_step; [apply keeps_replace_project | keeps_step].
  - intros meta e w r w' Hrun. rewrite run_bind in Hrun.
    destruct (Importer.replace_project _ _ _ e w) as [[data | ?] w1]; [| done].
    injection Hrun as <- _. apply keeps_upload.
Qed.

Lemma keeps_import_package_metadata (self : Importer.t) (project package : string) :
  keeps R (Importer.package_metadata self project package).
Proof.
  unfold Importer.package_metadata. cbv zeta.
  keeps_step; [unfold Importer.project_name; keeps_go frame |].
  keeps_step; [keeps_go frame |].
  keeps_step; [keeps_step |].
  keeps_step; [| keeps_step].
  keeps_step; [keeps_go frame |].
  apply keeps_uploads.
  - intros meta. keeps_step; [apply keeps_replace_project | keeps_step].
  - intros meta env w0 r w' Hrun. rewrite run_bind in Hrun.
    destruct (Importer.replace_project _ _ _ env w0) as [[data | ?] w1]; [| done].
    injection Hrun as <- _. apply keeps_upload.
Qed.

Lemma keeps_import_listings (self : Importer.t) (project package : string) :
  keeps R (Importer.listings self project package).
Proof.
  unfold Importer.listings.
  (apply keeps_bind; preorder); [| intros [o rev]].
  { unfold AsyncOBS.files_md5_revision. cbv zeta. keeps_go frame. }
  keeps_step; [apply keeps_str_pairs |].
  keeps_step.
  { unfold Importer._git_files_md5. keeps_step; [keeps_go frame |].
    (apply keeps_map_m; preorder); intros [f m].
    destruct (String.eqb _ _); [| keeps_step].
    keeps_step; [apply keeps_prepend_changes | keeps_go frame]. }
  keeps_step; [| keeps_step].
  unfold Importer.read_pointer_manifest.
  keeps_step; [keeps_go frame |]. keeps_step.
  - keeps_step; [keeps_go frame | apply keeps_pairs_of_tuples].
  - keeps_step.
Qed.

Lemma keeps_import_synchronise (self : Importer.t) (project package : string)
    (O G S : gset (string * string)) :
  keeps R (Importer.synchronise self project package O G S).
Proof.
  unfold Importer.synchronise. cbv zeta.
  apply (keeps_bind_returns _ (Forall (keeps R))); preorder.
  - apply keeps_map_m; preorder. intros [f m].
    keeps_step; [apply keeps_prepend_changes | keeps_step].
  - apply returns_map_m. intros [f m] e w r w' Hrun.
    rewrite run_bind in Hrun.
    destruct (Importer.prepend_changes _ _ e w) as [[data | ?] w1]; [| done].
    injection Hrun as <- _. apply keeps_upload.
  - intros changes_uploads Hchanges_uploads.
    apply (keeps_bind_returns _ (Forall (keeps R))); preorder.
    + destruct (Importer.store self); [keeps_step |].
      destruct (Importer.nonempty _); keeps_step.
    + intros e w r w' Hrun. destruct (Importer.store self) as [s |].
      * injection Hrun as <- _. apply Forall_fmap, Forall_forall. intros [f m] _.
        unfold compose. cbv beta iota. unfold StorageOBS.transfer. keeps_go frame.
      * destruct (Importer.nonempty _); [done |]. injection Hrun as <- _. constructor.
    + intros transfers Htransfers. keeps_step.
      * apply keeps_gather; preorder.
        repeat (apply Forall_app; split); [| done | done |].
        -- apply Forall_fmap, Forall_forall. intros [f m] _.
           unfold compose. cbv beta iota. apply keeps_upload.
        -- apply Forall_fmap, Forall_forall. intros f _.
           unfold compose. cbv beta iota. keeps_go frame.
      * destruct (_ || _); [| keeps_step]. keeps_go frame.
Qed.

Lemma keeps_import_package (self : Importer.t) (project package : string) :
  keeps R (Importer.package self project package).
Proof.
  intros e w. rewrite import_package_split. revert e w.
  change (keeps R (Importer.before_listings self project package ≫= fun _ =>
                   Importer.listings self project package ≫= fun '(o, g, s) =>
                   Importer.synchronise self project package o g s)).
  keeps_step.
  - unfold Importer.before_listings.
    keeps_step; [keeps_go frame |].
    keeps_step; [keeps_go frame |].
    destruct (negb _); [apply keeps_import_package_metadata | keeps_step].
  - keeps_step; [apply keeps_import_listings |].
    destruct a0 as [[o g] s]. apply keeps_import_synchronise.
Qed.

Lemma keeps_import_project (self : Importer.t) (project : string) :
  keeps R (Importer.project self project).
Proof.
  unfold Importer.project.
  keeps_step; [keeps_go frame |].
  keeps_step.
  { destruct (negb _); [apply keeps_import_project_metadata | keeps_step]. }
  keeps_step; [keeps_go frame |].
  keeps_step; [keeps_go frame |]. cbv zeta.
  keeps_step; [keeps_step |].
  keeps_step.
  - (apply keeps_for_each; preorder). intros group.
    apply keeps_gather; preorder.
    apply Forall_fmap, Forall_forall. intros pk _. apply keeps_import_package.
  - apply keeps_gather; preorder.
    apply Forall_fmap, Forall_forall. intros [pk |] _; unfold compose.
    + keeps_go frame.
    + keeps_step.
Qed.
End ReadOnly.

(** X8: an import, whether it returns or raises, changes neither the
    files and directories of the tree, nor the index and the flags of the
    storage, nor the recorded history: it reads the tree, fills its memo
    caches and sends requests. *)
Theorem import_is_read_only (self : Importer.t) (project : string) (e : Env) (w : World) :
  read_only w (Importer.project self project e w).2.
Proof.
  revert e w. change (keeps read_only (Importer.project self project)).
  apply keeps_import_project; try done; typeclasses eauto.
Qed.

(** ** The import of a project *)



(** X10: an import of a project that returns normally deletes from the
    registry exactly the packages that the registry lists and the tree does
    not hold, each once, and it does so at the very end, after every
    package of the tree has been imported. *)
Theorem import_project_deletes (self : Importer.t) (project : string)
    (e : Env) (w w' : World) :
  Importer.project self project e w = (Ok (), w') ->
  exists deleted before,
    NoDup deleted /\
    (forall pk, pk ∈ deleted <->
                Some pk ∈ registry_packages e (Importer.obs self) project /\
                ~ is_package w pk) /\
    events_of (Importer.project self project) e w =
      before ++ (delete_package (Importer.obs self) project <$> deleted) /\
    List.filter is_package_delete before = [].
Proof.
  intros Hrun.
  destruct (import_project_run self project e w w' Hrun)
    as (order & deleted & pre & imports & _ & _ & Hnd & Hin & Hlog & Hpre & _ & Himp).
  exists deleted, ((Head (head_url (Importer.obs self) project None) :: pre) ++ imports).
  split; [done |]. split; [done |]. split.
  - apply events_of_eq. rewrite Hrun. cbn [snd]. by rewrite Hlog, <- !app_assoc.
  - rewrite List.filter_app. cbn [List.filter is_package_delete].
    by rewrite (proj2 (filter_quiet _ Hpre)), Himp.
Qed.

Lemma import_project_deletes_witness :
  Importer.project Fixture.importer_skipping "P" Fixture.env_listed Fixture.world_linked =
    (Ok (), (Importer.project Fixture.importer_skipping "P" Fixture.env_listed Fixture.world_linked).2) /\
  exists deleted before,
    NoDup deleted /\
    (forall pk, pk ∈ deleted <->
                Some pk ∈ registry_packages Fixture.env_listed (Importer.obs Fixture.importer_skipping) "P" /\
                ~ is_package Fixture.world_linked pk) /\
    events_of (Importer.project Fixture.importer_skipping "P") Fixture.env_listed Fixture.world_linked =
      before ++ (delete_package (Importer.obs Fixture.importer_skipping) "P" <$> deleted) /\
    List.filter is_package_delete before = [].
Proof.
  assert (Hrun : Importer.project Fixture.importer_skipping "P" Fixture.env_listed Fixture.world_linked =
                 (Ok (), (Importer.project Fixture.importer_skipping "P" Fixture.env_listed Fixture.world_linked).2))
    by (vm_compute; reflexivity).
  split; [exact Hrun |].
  exact (import_project_deletes Fixture.importer_skipping "P" Fixture.env_listed Fixture.world_linked _ Hrun).
Defined.

Example import_project_trace :
  List.filter (fun ev => is_head ev || is_package_delete ev)
    (events_of (Importer.project Fixture.importer_skipping "P") Fixture.env_listed Fixture.world_linked) =
  [Head "https://api/source/P"; Head "https://api/source/P/a";
   Head "https://api/source/P/l"; Delete "https://api/source/P/gone" []].
Proof. vm_compute. reflexivity. Qed.

(** ** The LFS storage *)

Lemma for_each_store (patterns : list string) e w :
  for_each StorageLFS._store patterns e w = (Ok (), tracking patterns w).
Proof.
  revert w. induction patterns as [| p l IH]; intros w; [done |].
  cbn [for_each]. rewrite run_bind, storage_lfs_store_run. cbv beta iota.
  by rewrite IH.
Qed.

Lemma for_each_fmap {A B} (f : A -> B) (g : B -> M unit) (l : list A) :
  for_each (fun x => g (f x)) l = for_each g (f <$> l).
Proof. induction l as [| x l IH]; [done |]. cbn [for_each fmap list_fmap]. by rewrite IH. Qed.

Lemma tracking_cons (p : string) (patterns : list string) (w : World) :
  tracking (p :: patterns) w =
  tracking patterns
    (logged (GitAdd GitAttributes)
       (set_tracked (fun t => t ∪ {[p]}) (logged (LfsTrack p) w))).
Proof. reflexivity. Qed.

Lemma tracking_spec (patterns : list string) (w : World) :
  tracked (tracking patterns w) = tracked w ∪ list_to_set patterns /\
  log (tracking patterns w) =
    log w ++ (patterns ≫= fun p => [LfsTrack p; GitAdd GitAttributes]) /\
  files (tracking patterns w) = files w /\ dirs (tracking patterns w) = dirs w /\
  index (tracking patterns w) = index w /\ sync (tracking patterns w) = sync w.
Proof.
  revert w. induction patterns as [| p l IH]; intros w.
  - cbn. rewrite app_nil_r. split_and!; try done. by rewrite union_empty_r_L.
  - rewrite tracking_cons.
    destruct (IH (logged (GitAdd GitAttributes)
                    (set_tracked (fun t => t ∪ {[p]}) (logged (LfsTrack p) w))))
      as (H1 & H2 & H3 & H4 & H5 & H6).
    rewrite H1, H2, H3, H4, H5, H6. cbn. rewrite <- !app_assoc.
    split_and!; try done. by rewrite union_assoc_L.
Qed.

Lemma mem_elem_of (s : string) (l : list string) :
  Exporter.mem s l = true <-> s ∈ l.
Proof.
  unfold Exporter.mem. rewrite existsb_exists. split.
  - intros (x & Hin & ->%String.eqb_eq). by apply list_elem_of_In.
  - intros Hin. exists s. split; [by apply list_elem_of_In | apply String.eqb_refl].
Qed.

(** X11: enabling the LFS extension.  When [git lfs install] fails nothing
    is tracked and nothing changes; when it succeeds one pattern ["*" +
    extension] is tracked for each of the thirteen binary extensions, and
    [.gitattributes] is staged after each of them. *)
Theorem lfs_install_tracks_defaults (returncode : Z) (e : Env) (w : World) :
  LfsInstall.is_installed returncode e w =
    (Ok (returncode =? 0), if returncode =? 0 then tracking default_patterns w else w) /\
  tracked (tracking default_patterns w) =
    tracked w ∪ set_map (fun binary => "*" +:+ binary) LfsInstall.default_extensions /\
  log (tracking default_patterns w) =
    log w ++ (default_patterns ≫= fun p => [LfsTrack p; GitAdd GitAttributes]) /\
  List.length default_patterns = 13%nat.
Proof.
  split; [| split; [| split]].
  - unfold LfsInstall.is_installed. cbv zeta. rewrite run_bind.
    destruct (returncode =? 0); [| done].
    rewrite for_each_fmap. fold default_patterns. by rewrite for_each_store.
  - by rewrite (proj1 (tracking_spec _ _)).
  - apply tracking_spec.
  - vm_compute. reflexivity.
Qed.

(** X12: once the extension is enabled, storing files whose suffix is one of
    the binary extensions tracks nothing: every such file matches a default
    pattern.  [fnmatch] is the one of Python, of which only this is used: a
    name matches ["*"] followed by its own suffix. *)
Theorem lfs_defaults_cover_binaries (package : string)
    (files_md5 : list (string * string)) (e : Env) (w : World) :
  (forall name, default_extension name = true ->
                fnmatch e name ("*" +:+ Py.suffix name) = true) ->
  Forall (fun entry => default_extension entry.1 = true) files_md5 ->
  StorageLFS.store_files package files_md5 e (tracking default_patterns w) =
  (Ok (), tracking default_patterns w).
Proof.
  intros Hfn Hall. unfold StorageLFS.store_files. rewrite run_bind.
  change (ask e ?w0) with (Ok e, w0). cbv beta iota.
  induction Hall as [| [f m] l Hf _ IH]; [done |].
  cbn [for_each]. rewrite !run_bind.
  unfold StorageLFS._tracked at 1. msimpl.
  assert (Htracked : existsb (fnmatch e f) (elements (tracked (tracking default_patterns w)))
                     = true).
  { apply existsb_exists. exists ("*" +:+ Py.suffix f). split; [| by apply Hfn].
    apply list_elem_of_In, elem_of_elements.
    rewrite (proj1 (tracking_spec _ _)). apply elem_of_union_r.
    unfold default_patterns. apply elem_of_list_to_set, list_elem_of_fmap.
    exists (Py.suffix f). split; [done |]. apply elem_of_elements.
    unfold LfsInstall.default_extensions. cbn [fst] in Hf.
    apply mem_elem_of, elem_of_app in Hf.
    rewrite elem_of_union, !elem_of_list_to_set. done. }
  rewrite Htracked. cbn [negb]. exact IH.
Qed.

(** The suffix of a name, when there is one, is an ending of the name. *)
Lemma suffix_ends (name : string) :
  Py.suffix name ≠ "" -> Py.endswith name (Py.suffix name) = true.
Proof.
  unfold Py.suffix. destruct (Py.rfind_dot name 0) as [i |] eqn:Hr; [| done].
  destruct (_ && _); [| done]. intros _.
  apply rfind_dot_inv in Hr as (a & b & -> & Hb & ->). cbn [Nat.add].
  rewrite length_append.
  replace (String.length a + String.length (String "." b) - String.length a)%nat
    with (String.length (String "." b)) by lia.
  rewrite substring_tail. apply endswith_app.
Qed.

Lemma glob_matches_suffix (name : string) :
  default_extension name = true ->
  fnmatch Fixture.env_glob name ("*" +:+ Py.suffix name) = true.
Proof.
  intros Hext. cbn [fnmatch Fixture.env_glob].
  change ("*" +:+ Py.suffix name) with (String "*" (Py.suffix name)). cbn [Fixture.glob].
  apply suffix_ends. intros Hnil. unfold default_extension in Hext.
  rewrite Hnil in Hext. discriminate Hext.
Qed.

Lemma lfs_defaults_cover_binaries_witness :
  (forall name, default_extension name = true ->
                fnmatch Fixture.env_glob name ("*" +:+ Py.suffix name) = true) /\
  Forall (fun entry => default_extension entry.1 = true)
         [("a.tar.gz", "2"); ("logo.png", "5")] /\
  StorageLFS.store_files "a" [("a.tar.gz", "2"); ("logo.png", "5")] Fixture.env_glob
    (tracking default_patterns Fixture.world_package) =
  (Ok (), tracking default_patterns Fixture.world_package).
Proof.
  assert (Hall : Forall (fun entry => default_extension entry.1 = true)
                        [("a.tar.gz", "2"); ("logo.png", "5")])
    by (repeat constructor).
  split; [exact glob_matches_suffix |]. split; [exact Hall |].
  exact (lfs_defaults_cover_binaries "a" _ Fixture.env_glob Fixture.world_package glob_matches_suffix Hall).
Defined.

Lemma combinations2_spec {A} (l : list A) (a b : A) :
  NoDup l -> (a, b) ∈ Py.combinations2 l ->
  a ∈ l /\ b ∈ l /\ a ≠ b /\ (b, a) ∉ Py.combinations2 l.
Proof.
  assert (Hin : forall (l : list A) (a b : A),
             (a, b) ∈ Py.combinations2 l -> a ∈ l /\ b ∈ l).
  { clear. intros l. induction l as [| x l IH]; intros a b; cbn [Py.combinations2].
    - by intros ?%elem_of_nil.
    - rewrite elem_of_app, list_elem_of_fmap. intros [(y & [= -> ->] & Hy) | Hc].
      + split; [apply list_elem_of_here | by apply list_elem_of_further].
      + destruct (IH _ _ Hc). split; by apply list_elem_of_further. }
  induction 1 as [| x l Hx Hnd IH]; cbn [Py.combinations2].
  - by intros ?%elem_of_nil.
  - rewrite elem_of_app, list_elem_of_fmap. intros [(y & [= -> ->] & Hy) | Hc].
    + split; [apply list_elem_of_here |]. split; [by apply list_elem_of_further |].
      split; [by intros -> |].
      rewrite elem_of_app, list_elem_of_fmap. intros [(z & [= -> ->] & Hz) | Hc].
      * done.
      * by destruct (Hin _ _ _ Hc).
    + destruct (IH Hc) as (Ha & Hb & Hne & Hrev).
      split; [by apply list_elem_of_further |]. split; [by apply list_elem_of_further |].
      split; [done |].
      rewrite elem_of_app, list_elem_of_fmap. intros [(z & [= -> ->] & Hz) | Hc'].
      * done.
      * done.
Qed.

(** X13: [overlaps] examines every pair of two different tracked patterns
    once, in one direction only: a reported pair [(a, b)] consists of two
    different tracked patterns of which the first, taken as a name, matches
    the second, and the reversed pair is never reported with it. *)
Theorem overlaps_one_direction (e : Env) (w : World) :
  exists pairs,
    StorageLFS.overlaps e w = (Ok pairs, w) /\
    Forall (fun '(a, b) =>
              a ∈ tracked w /\ b ∈ tracked w /\ a ≠ b /\ fnmatch e a b = true /\
              (b, a) ∉ pairs)
           pairs.
Proof.
  eexists. split; [reflexivity |].
  apply Forall_forall. intros [a b] [Hin Hfn]%elem_of_filter_list.
  destruct (combinations2_spec _ a b (NoDup_elements _) Hin) as (Ha & Hb & Hne & Hrev).
  rewrite !elem_of_elements in *. split_and!; try done.
  intros [Hin' _]%elem_of_filter_list. done.
Qed.

(** ** The index of the registry-backed storage *)

Lemma findall_directory_of_index (l : list string) :
  Xml.findall "entry"
    (Xml.Element "directory" []
       ((fun md5 => Xml.Element "entry" [("name", md5); ("md5", md5)] []) <$> l)) =
  (fun md5 => Xml.Element "entry" [("name", md5); ("md5", md5)] []) <$> l.
Proof.
  unfold Xml.findall, Xml.descendants. cbn [Xml.iter].
  induction l as [| h l IH]; [reflexivity |].
  cbn [fmap list_fmap] in *. cbn [Xml.iter app List.filter Xml.tag String.eqb].
  cbn. f_equal. exact IH.
Qed.

Lemma update_index_loop (s : StorageOBS.t) (l : list string) e w :
  for_each (fun '(filename, md5) =>
              if String.eqb filename md5
              then modify (set_index (fun i => i ∪ {[filename]}))
              else raise (AssertionError
                            ("Storage " +:+ StorageOBS.s_project s +:+ "/" +:+
                             StorageOBS.s_package s +:+ " not valid")))
           ((fun h => (h, h)) <$> l) e w =
  (Ok (), set_index (fun i => i ∪ list_to_set l) w).
Proof.
  revert w. induction l as [| h l IH]; intros w.
  - cbn. destruct w. unfold set_index. cbn. by rewrite union_empty_r_L.
  - cbn [fmap list_fmap for_each]. rewrite run_bind, String.eqb_refl.
    unfold modify at 1. rewrite IH. unfold set_index. cbn. do 2 f_equal.
    rewrite <- union_assoc_L. done.
Qed.

Lemma str_pairs_same (l : list string) e w :
  str_pairs ((fun h => (Some h, Some h)) <$> l) e w = (Ok ((fun h => (h, h)) <$> l), w).
Proof.
  induction l as [| h l IH]; [done |].
  cbn [fmap list_fmap str_pairs]. rewrite run_bind. cbn [fmap] in IH. by rewrite IH.
Qed.

(** X14: the directory that [StorageOBS.commit] sends is a listing that
    [StorageOBS] accepts.  A commit of an index that is out of sync sends
    one entry per hash, with the hash as name and as md5; a storage object
    that is initialised against a registry serving this document passes the
    validity check of [_update_index] and ends with the same index, in
    sync. *)
Theorem storage_commit_round_trip (s : StorageOBS.t) (e e' : Env) (w w0 : World) :
  sync w = false ->
  "_link" ∉ index w ->
  http_xml e' (storage_listing_url s) [("rev", Some "latest")] =
    Some (StorageOBS.directory_of_index (index w)) ->
  log (StorageOBS.commit s e w).2 = log w ++ [storage_commit_event e s (index w)] /\
  exists w0',
    StorageOBS.init s e' w0 = (Ok (), w0') /\ index w0' = index w /\ sync w0' = true.
Proof.
  intros Hsync Hlink Hserves. split.
  - destruct (storage_obs_commit_run s e w) as [r ->]. rewrite Hsync.
    fold (storage_commit_event e s (index w)). cbv zeta. cbn [snd].
    by destruct (is_ok r).
  - unfold StorageOBS.init, StorageOBS._update_index.
    rewrite run_bind. unfold modify at 1. cbv beta iota.
    rewrite run_bind. unfold modify at 1. cbv beta iota.
    rewrite run_bind, files_md5_revision_run. cbv zeta.
    unfold listing, answer. unfold storage_listing_url in Hserves.
    unfold params, pyval in *. rewrite Hserves. cbn [default from_option]. unfold id.
    assert (Hfind : Xml.find_attr "entry" "name" "_link"
                      (StorageOBS.directory_of_index (index w)) = None).
    { unfold Xml.find_attr, StorageOBS.directory_of_index.
      rewrite findall_directory_of_index.
      assert (Hl : "_link" ∉ elements (index w)) by by rewrite elem_of_elements.
      induction (elements (index w)) as [| h l IH]; [done |].
      cbn [fmap list_fmap List.filter Xml.get Xml.attrib List.find fst snd option_fmap
           option_map String.eqb Ascii.eqb].
      cbn. destruct (String.eqb_spec h "_link") as [-> | Hne].
      - destruct Hl. apply list_elem_of_here.
      - apply IH. intros Hin. apply Hl. by apply list_elem_of_further. }
    rewrite Hfind. cbv beta iota.
    assert (Hentries : AsyncOBS.entries (StorageOBS.directory_of_index (index w)) =
                       (fun h => (Some h, Some h)) <$> elements (index w)).
    { unfold AsyncOBS.entries, StorageOBS.directory_of_index.
      rewrite findall_directory_of_index, <- list_fmap_compose.
      apply list_fmap_ext. intros _ h _. reflexivity. }
    rewrite Hentries, run_bind, str_pairs_same. cbv beta iota.
    rewrite update_index_loop. eexists. split; [reflexivity |].
    cbn. split; [| done]. rewrite union_empty_l_L. apply list_to_set_elements_L.
Qed.

Lemma storage_commit_round_trip_witness :
  sync Fixture.world_unsynced = false /\
  "_link" ∉ index Fixture.world_unsynced /\
  http_xml (Fixture.env_storage (index Fixture.world_unsynced)) (storage_listing_url Fixture.storage_obs)
    [("rev", Some "latest")] =
    Some (StorageOBS.directory_of_index (index Fixture.world_unsynced)) /\
  log (StorageOBS.commit Fixture.storage_obs Fixture.env0 Fixture.world_unsynced).2 =
    log Fixture.world_unsynced ++ [storage_commit_event Fixture.env0 Fixture.storage_obs (index Fixture.world_unsynced)] /\
  exists w0',
    StorageOBS.init Fixture.storage_obs (Fixture.env_storage (index Fixture.world_unsynced)) Fixture.world0 = (Ok (), w0') /\
    index w0' = index Fixture.world_unsynced /\ sync w0' = true.
Proof.
  assert (Hlink : "_link" ∉ index Fixture.world_unsynced).
  { cbn. rewrite elem_of_union, !elem_of_singleton. intros [H | H]; discriminate H. }
  split; [reflexivity |]. split; [exact Hlink |]. split; [reflexivity |].
  exact (storage_commit_round_trip Fixture.storage_obs Fixture.env0 (Fixture.env_storage (index Fixture.world_unsynced))
           Fixture.world_unsynced Fixture.world0 eq_refl Hlink eq_refl).
Defined.

(** ** What an export changes *)

Section ExportCalls.
Context (P : event -> Prop).
Context (Hquiet : forall ev, is_registry_write ev = false -> P ev).

Local Ltac no_write := apply Forall_singleton, Hquiet; reflexivity.

Lemma export_download_emits (obs : AsyncOBS.t) (project : string)
    (segments : list string) (p : path) (ps : params) :
  emits (Forall P) (AsyncOBS.download obs project segments p ps).
Proof. emits_go no_write. Qed.

Lemma export_git_delete_emits (package : string) (filename : option string) :
  emits (Forall P) (Git.delete package filename).
Proof. emits_go no_write. Qed.

Lemma export_package_emits (self : Exporter.t) (project package : string) :
  (forall files_md5,
      emits (Forall P) (storage_store_files (Exporter.store self) package files_md5)) ->
  emits (Forall P) (Exporter.package self project package).
Proof.
  intros Hstore. unfold Exporter.package.
  emits_step; [emits_go idtac |].
  emits_step; [emits_go no_write |].
  emits_step; [emits_go idtac |].
  emits_step.
  { destruct (negb _); [| emits_step]. unfold Exporter.package_metadata. cbv zeta.
    emits_step; [emits_go idtac |]. gather_tasks. apply export_download_emits. }
  (apply emits_bind; monoidal); [| intros [files_md5_obs revision]].
  { unfold AsyncOBS.files_md5_revision. cbv zeta. emits_go no_write. }
  emits_step; [apply emits_str_pairs; monoidal |].
  emits_step; [emits_go idtac |].
  unfold Exporter.synchronise. emits_step; [emits_step |]. cbv zeta.
  emits_step; [gather_tasks; [apply export_download_emits | apply export_git_delete_emits] |].
  unfold Exporter.store_phase. emits_step.
  - (apply emits_filter_m; monoidal); intros [f m].
    destruct (bool_decide _); [| emits_step].
    unfold Exporter.is_binary. cbv zeta. emits_go no_write.
  - emits_step; [emits_step | apply Hstore].
Qed.

Lemma export_project_emits (self : Exporter.t) (project : string) :
  (forall package files_md5,
      emits (Forall P) (storage_store_files (Exporter.store self) package files_md5)) ->
  emits (Forall P) (storage_commit (Exporter.store self)) ->
  emits (Forall P) (Exporter.project self project).
Proof.
  intros Hstore Hcommit. unfold Exporter.project.
  emits_step; [emits_go no_write |].
  emits_step; [apply emits_strs; monoidal |].
  emits_step; [emits_go idtac |].
  emits_step; [emits_go idtac |].
  emits_step.
  { destruct (negb _); [| emits_step]. unfold Exporter.project_metadata. cbv zeta.
    emits_step; [emits_go idtac |]. gather_tasks. apply export_download_emits. }
  emits_step; [| exact Hcommit].
  gather_tasks; [by apply export_package_emits | apply export_git_delete_emits].
Qed.
End ExportCalls.


Global Instance storage_grows_preorder : PreOrder storage_grows.
Proof.
  split.
  - by intros w.
  - intros w1 w2 w3 [H1 H2] [H3 H4]. split; set_solver.
Qed.

Lemma keeps_strs (R : World -> World -> Prop) `{!PreOrder R} l : keeps R (strs l).
Proof.
  induction l as [| [a |] l IH]; cbn [strs]; [| | keeps_step].
  - keeps_step.
  - keeps_step; [apply IH | keeps_step].
Qed.

Lemma keeps_pairs (R : World -> World -> Prop) `{!PreOrder R} l : keeps R (str_pairs l).
Proof.
  induction l as [| [[a |] [b |]] l IH]; cbn [str_pairs]; [| | keeps_step ..].
  - keeps_step.
  - keeps_step; [apply IH | keeps_step].
Qed.

Ltac keeps_tasks :=
  (apply keeps_gather; preorder);
  repeat first
    [ apply Forall_nil_2
    | apply Forall_app; split
    | apply Forall_fmap, Forall_forall; intros ? _; unfold compose ].

Ltac grows := split; cbn; set_solver.

Lemma export_package_grows (self : Exporter.t) (project package : string) :
  keeps storage_grows (Exporter.package self project package).
Proof.
  unfold Exporter.package.
  keeps_step; [keeps_go grows |].
  keeps_step; [keeps_go grows |].
  keeps_step; [keeps_go grows |].
  keeps_step.
  { destruct (negb _); [| keeps_step]. unfold Exporter.package_metadata. cbv zeta.
    keeps_step; [keeps_go grows |]. keeps_tasks. keeps_go grows. }
  (apply keeps_bind; preorder); [| intros [files_md5_obs revision]].
  { unfold AsyncOBS.files_md5_revision. cbv zeta. keeps_go grows. }
  keeps_step; [apply keeps_pairs; preorder |].
  keeps_step; [keeps_go grows |].
  unfold Exporter.synchronise. keeps_step; [keeps_step |]. cbv zeta.
  keeps_step; [keeps_tasks; keeps_go grows |].
  unfold Exporter.store_phase. keeps_step.
  - (apply keeps_filter_m; preorder); intros [f m].
    destruct (bool_decide _); [| keeps_step].
    unfold Exporter.is_binary. cbv zeta. keeps_go grows.
  - keeps_step; [keeps_step |].
    destruct (Exporter.store self) as [s |].
    + unfold storage_store_files, StorageOBS.store_files.
      keeps_step; [keeps_step |].
      unfold StorageOBS.store_files_body. cbv zeta.
      keeps_step; [keeps_tasks | keeps_step; [keeps_tasks |]].
      * destruct x as [f m]. unfold StorageOBS._store. keeps_go grows.
      * destruct x as [f m]. keeps_go grows.
      * keeps_go grows.
    + unfold storage_store_files, StorageLFS.store_files, StorageLFS._tracked,
        StorageLFS._store, StorageLFS.commit.
      keeps_go grows.
Qed.

(** X16: an export never removes anything from the storage object: every
    hash that is in the index, and every pattern that is tracked, before
    the export of a project is still there afterwards, whether the export
    returns or raises. *)
Theorem export_storage_grows (self : Exporter.t) (project : string) (e : Env) (w : World) :
  index w ⊆ index (Exporter.project self project e w).2 /\
  tracked w ⊆ tracked (Exporter.project self project e w).2.
Proof.
  revert e w. change (keeps storage_grows (Exporter.project self project)).
  unfold Exporter.project.
  keeps_step; [keeps_go grows |].
  keeps_step; [apply keeps_strs; preorder |].
  keeps_step; [keeps_go grows |].
  keeps_step; [keeps_go grows |].
  keeps_step.
  { destruct (negb _); [| keeps_step]. unfold Exporter.project_metadata. cbv zeta.
    keeps_step; [keeps_go grows |]. keeps_tasks. keeps_go grows. }
  keeps_step.
  - keeps_tasks; [apply export_package_grows | keeps_go grows].
  - destruct (Exporter.store self) as [s |].
    + unfold storage_commit, StorageOBS.commit. keeps_go grows.
    + unfold storage_commit, StorageLFS.commit. keeps_go grows.
Qed.

(** ** Stored files and listed hashes *)

Lemma gather_cons_inv (t : M unit) (ts : list (M unit)) e w w' :
  gather (t :: ts) e w = (Ok (), w') ->
  exists w1, t e w = (Ok (), w1) /\ gather ts e w1 = (Ok (), w').
Proof.
  intros H. pose proof (gather_cons_ok t ts e w) as Hok.
  pose proof (gather_cons_world t ts e w) as Hw. rewrite H in Hok, Hw.
  cbn [fst snd is_ok] in Hok, Hw. symmetry in Hok. apply andb_true_iff in Hok as [H1 H2].
  destruct (t e w) as [[[] | x] w1]; [| done]. exists w1. split; [done |].
  cbn [snd] in *. destruct (gather ts e w1) as [[[] | y] w2]; [| done].
  cbn [snd] in Hw. by subst.
Qed.

Lemma git_delete_removes (package filename : string) e w w1 :
  Git.delete package (Some filename) e w = (Ok (), w1) ->
  files w1 !! PkgFile package filename = None.
Proof.
  unfold Git.delete. msimpl. destruct (truthy (Some filename)).
  - cbn. destruct (files w !! PkgFile _ _); [| done].
    intros [= <-]. cbn. apply lookup_delete_eq.
  - cbn. destruct (bool_decide _); [| done]. intros [= <-]. cbn.
    apply map_lookup_filter_None. right. intros content _. cbn.
    by rewrite String.eqb_refl.
Qed.

Lemma gather_deletes_removed (package : string) (l : list (string * string)) e w w' :
  gather ((fun '(f, _) => Git.delete package (Some f)) <$> l) e w = (Ok (), w') ->
  forall f m, (f, m) ∈ l -> files w' !! PkgFile package f = None.
Proof.
  revert w. induction l as [| [f0 m0] l IH]; intros w Hrun f m Hin.
  - by apply elem_of_nil in Hin.
  - cbn [fmap list_fmap] in Hrun.
    apply gather_cons_inv in Hrun as (w1 & Hdel & Hrest).
    apply elem_of_cons in Hin as [[= -> ->] | Hin]; [| by eapply IH].
    apply git_delete_removes in Hdel.
    replace w' with (gather ((fun '(f, _) => Git.delete package (Some f)) <$> l) e w1).2
      by (by rewrite Hrest).
    apply (gather_invariant (fun w0 => files w0 !! PkgFile package f0 = None)); [| done].
    apply Forall_fmap, Forall_forall. intros [f1 m1] _ w0 Hw0. cbn.
    by apply git_delete_lookup_none.
Qed.

Lemma storage_obs_store_keeps_tree (s : StorageOBS.t) (p : path) (md5 : string) :
  keeps same_tree (StorageOBS._store s p md5).
Proof. unfold StorageOBS._store. keeps_go ltac:(by split). Qed.

(** X17: a file that has been handed to the registry-backed storage is no
    longer in the tree.  When [store_files] returns normally, the package
    directory holds none of the files of the list: those that were there
    have been uploaded and removed, and the pointer manifest stands for
    them. *)
Theorem store_files_removes_stored (s : StorageOBS.t) (package : string)
    (files_md5 : list (string * string)) (e : Env) (w w' : World) :
  StorageOBS.store_files s package files_md5 e w = (Ok (), w') ->
  forall filename md5,
    (filename, md5) ∈ files_md5 -> files w' !! PkgFile package filename = None.
Proof.
  rewrite store_files_unfold. unfold StorageOBS.store_files_body. cbv zeta.
  set (present := List.filter _ files_md5).
  rewrite run_bind.
  pose proof (gather_invariant (fun w0 => files w0 = files w) e
                ((fun '(f, m) => StorageOBS._store s (PkgFile package f) m) <$> present))
    as Hkeep.
  destruct (gather _ e w) as [[[] | x] w1] eqn:Hstores; [| done].
  assert (Hfiles1 : files w1 = files w).
  { replace w1 with (gather ((fun '(f, m) => StorageOBS._store s (PkgFile package f) m)
                               <$> present) e w).2 by (by rewrite Hstores).
    apply Hkeep; [| done].
    apply Forall_fmap, Forall_forall. intros [f m] _ w0 Hw0. cbn.
    rewrite <- Hw0. apply storage_obs_store_keeps_tree. }
  rewrite run_bind.
  destruct (gather _ e w1) as [[[] | y] w2] eqn:Hdeletes; [| done].
  unfold Git.write_file. msimpl.
  destruct (match Git.parent _ with Some d => _ | None => _ end); [| done].
  intros [= <-] filename md5 Hin. cbn. rewrite lookup_insert_ne by done.
  destruct (files w !! PkgFile package filename) as [content |] eqn:Hfile.
  - eapply gather_deletes_removed; [exact Hdeletes |].
    apply elem_of_filter_list. split; [exact Hin |].
    apply bool_decide_eq_true. by rewrite Hfile.
  - replace w2 with (gather ((fun '(f, _) => Git.delete package (Some f)) <$> present)
                              e w1).2 by (by rewrite Hdeletes).
    apply (gather_invariant (fun w0 => files w0 !! PkgFile package filename = None)).
    + apply Forall_fmap, Forall_forall. intros [f1 m1] _ w0 Hw0. cbn.
      by apply git_delete_lookup_none.
    + by rewrite Hfiles1.
Qed.

Lemma store_files_removes_stored_witness :
  StorageOBS.store_files Fixture.storage_obs "a" [("b.tar.gz", "3")] Fixture.env0 Fixture.world_indexed =
    (Ok (), (StorageOBS.store_files Fixture.storage_obs "a" [("b.tar.gz", "3")] Fixture.env0
               Fixture.world_indexed).2) /\
  ("b.tar.gz", "3") ∈ [("b.tar.gz", "3")] /\
  files Fixture.world_indexed !! PkgFile "a" "b.tar.gz" = Some (list_byte_of_string "old content") /\
  files (StorageOBS.store_files Fixture.storage_obs "a" [("b.tar.gz", "3")] Fixture.env0 Fixture.world_indexed).2
    !! PkgFile "a" "b.tar.gz" = None.
Proof.
  assert (Hrun : StorageOBS.store_files Fixture.storage_obs "a" [("b.tar.gz", "3")] Fixture.env0
                   Fixture.world_indexed =
                 (Ok (), (StorageOBS.store_files Fixture.storage_obs "a" [("b.tar.gz", "3")] Fixture.env0
                            Fixture.world_indexed).2))
    by (vm_compute; reflexivity).
  assert (Hin : ("b.tar.gz", "3") ∈ [("b.tar.gz", "3")]) by apply list_elem_of_here.
  split; [exact Hrun |]. split; [exact Hin |]. split; [vm_compute; reflexivity |].
  exact (store_files_removes_stored Fixture.storage_obs "a" _ Fixture.env0 Fixture.world_indexed _ Hrun
           "b.tar.gz" "3" Hin).
Defined.

Lemma prepend_changes_run (p : path) (package : string) (r : revision)
    (content : bytes) e w :
  changes_cache_ok w -> first_entry w !! package = Some r ->
  files w !! p = Some content ->
  exists w',
    Importer.prepend_changes p package e w =
      (Ok (list_byte_of_string (Importer.changes_entry r) ++ content), w') /\
    files w' = files w /\ dirs w' = dirs w /\ log w' = log w /\
    first_entry w' = first_entry w /\ changes_cache_ok w'.
Proof.
  intros Hok Hfirst Hfile.
  destruct (changes_git_entry_run package r e w Hok Hfirst) as (w' & Hrun & Hrest).
  exists w'. split; [| exact Hrest].
  unfold Importer.prepend_changes, Git.read_file. msimpl.
  unfold bytes in *. rewrite Hfile. by rewrite Hrun.
Qed.

Lemma git_files_md5_loop (package : string) (r : revision)
    (l : list (string * bytes)) e w :
  changes_cache_ok w -> first_entry w !! package = Some r ->
  (forall f b, (f, b) ∈ l -> files w !! PkgFile package f = Some b) ->
  exists w',
    Importer.map_m
      (fun '(filename, md5) =>
         if String.eqb (Py.suffix filename) ".changes" then
           content ← Importer.prepend_changes (PkgFile package filename) package;
           e ← ask;
           mret (filename, md5_hexdigest e content)
         else mret (filename, md5))
      ((fun entry => (entry.1, md5_hexdigest e entry.2)) <$> l) e w =
    (Ok ((fun entry => (entry.1, md5_hexdigest e (hashed_content r entry.1 entry.2))) <$> l),
     w') /\
    files w' = files w /\ dirs w' = dirs w /\ log w' = log w /\
    first_entry w' = first_entry w.
Proof.
  revert w. induction l as [| [f b] l IH]; intros w Hok Hfirst Hl.
  - by exists w.
  - cbn [fmap list_fmap Importer.map_m fst snd]. rewrite run_bind.
    assert (Hstep : exists w1,
               (if String.eqb (Py.suffix f) ".changes" then
                  content ← Importer.prepend_changes (PkgFile package f) package;
                  e ← ask;
                  mret (f, md5_hexdigest e content)
                else mret (f, md5_hexdigest e b)) e w =
               (Ok (f, md5_hexdigest e (hashed_content r f b)), w1) /\
               files w1 = files w /\ dirs w1 = dirs w /\ log w1 = log w /\
               first_entry w1 = first_entry w /\ changes_cache_ok w1).
    { unfold hashed_content. destruct (String.eqb (Py.suffix f) ".changes").
      - destruct (prepend_changes_run (PkgFile package f) package r b e w Hok Hfirst)
          as (w1 & Hrun & Hrest1).
        { apply Hl. apply list_elem_of_here. }
        exists w1. split; [| exact Hrest1]. rewrite run_bind, Hrun. reflexivity.
      - by exists w. }
    destruct Hstep as (w1 & -> & Hf1 & Hd1 & Hl1 & He1 & Hok1). cbv beta iota.
    destruct (IH w1 Hok1) as (w' & Hrest & Hf & Hd & Hlg & He).
    { by rewrite He1. }
    { intros f' b' Hin. rewrite Hf1. apply Hl. by apply list_elem_of_further. }
    cbn [fmap] in Hrest. rewrite run_bind, Hrest. exists w'.
    split; [done |]. split_and!; congruence.
Qed.

(** X18: the hashes that the importer lists for the files of a package.  For
    every regular file of the package directory the importer lists the MD5
    of its content, except for a file with the suffix [.changes]: there it
    is the MD5 of the content behind the changelog entry of the package,
    the bytes that [prepend_changes] hands to the upload.  Listing changes
    nothing in the tree and sends nothing. *)
Theorem import_hashes_stamped_changes (package : string) (r : revision)
    (e : Env) (w : World) :
  changes_cache_ok w ->
  first_entry w !! package = Some r ->
  DPkg package ∈ dirs w ->
  exists w',
    Importer._git_files_md5 package e w =
      (Ok ((fun entry => (entry.1, md5_hexdigest e (hashed_content r entry.1 entry.2)))
             <$> Git.package_files package (files w)), w') /\
    files w' = files w /\ dirs w' = dirs w /\ log w' = log w.
Proof.
  intros Hok Hfirst Hdir. unfold Importer._git_files_md5.
  rewrite run_bind. unfold Git.files_md5 at 1. msimpl.
  rewrite bool_decide_true by done.
  destruct (git_files_md5_loop package r (Git.package_files package (files w)) e w
              Hok Hfirst) as (w' & Hrun & Hf & Hd & Hl & _).
  { intros f b. apply elem_of_package_files. }
  exists w'. split; [| done]. rewrite <- Hrun. f_equal.
  apply list_fmap_ext. by intros _ [f b] _.
Qed.

Lemma import_hashes_stamped_changes_witness :
  changes_cache_ok Fixture.world_changes /\
  first_entry Fixture.world_changes !! "a" = Some Fixture.jane /\
  DPkg "a" ∈ dirs Fixture.world_changes /\
  exists w',
    Importer._git_files_md5 "a" Fixture.env0 Fixture.world_changes =
      (Ok ((fun entry => (entry.1, md5_hexdigest Fixture.env0 (hashed_content Fixture.jane entry.1 entry.2)))
             <$> Git.package_files "a" (files Fixture.world_changes)), w') /\
    files w' = files Fixture.world_changes /\ dirs w' = dirs Fixture.world_changes /\
    log w' = log Fixture.world_changes.
Proof.
  assert (Hok : changes_cache_ok Fixture.world_changes).
  { intros package entry Hcache. cbn in Hcache. by rewrite lookup_empty in Hcache. }
  assert (Hfirst : first_entry Fixture.world_changes !! "a" = Some Fixture.jane) by reflexivity.
  assert (Hdir : DPkg "a" ∈ dirs Fixture.world_changes).
  { cbn. apply elem_of_union_l, elem_of_singleton. reflexivity. }
  split; [exact Hok |]. split; [exact Hfirst |]. split; [exact Hdir |].
  exact (import_hashes_stamped_changes "a" Fixture.jane Fixture.env0 Fixture.world_changes Hok Hfirst Hdir).
Defined.

(** ** The command-line tool *)

Lemma authorized_run (self : AsyncOBS.t) (project : string) (package : pyval) e w :
  AsyncOBS.authorized self project package e w =
  match http_status e (Head (head_url self project package)) with
  | Some status => (Ok (negb (status =? 401)), logged (Head (head_url self project package)) w)
  | None => (Raise (ClientError ""), logged (Head (head_url self project package)) w)
  end.
Proof.
  unfold AsyncOBS.authorized, AsyncOBS.request. fold (head_url self project package).
  msimpl. by destruct (http_status e _).
Qed.

(** X19: [export] starts nothing for a project or package that it may not
    read or that does not exist.  When the registry answers 401 or 404 to
    the question, the tool prints its message and leaves with exit status
    -1: it has sent HEAD requests only, and the tree, the storage object and
    the recorded history are as before. *)
Theorem export_refused (a : App.args) (c : App.config) (h : App.host)
    (status : Z) (e : Env) (w : World) :
  http_status e (Head (head_url (export_client c) (App.project a) (App.package a)))
    = Some status ->
  status = 401 \/ status = 404 ->
  App.export a c h e w =
  (Ok (App.SystemExit (-1)), set_log (fun l => l ++ export_refusal a c status) w).
Proof.
  intros Hstatus Hrefused. unfold App.export. cbv zeta.
  fold (export_client c). rewrite run_bind, authorized_run, Hstatus. cbv beta iota.
  unfold export_refusal. cbv zeta.
  destruct Hrefused as [-> | ->]; cbn [Z.eqb Pos.eqb negb].
  - msimpl. unfold logged, set_log. cbn. by rewrite <- !app_assoc.
  - rewrite run_bind, exists_run, Hstatus. cbv beta iota. cbn [Z.eqb Pos.eqb negb].
    msimpl. unfold logged, set_log. cbn. by rewrite <- !app_assoc.
Qed.

Lemma export_refused_witness :
  http_status (Fixture.env_head 401)
    (Head (head_url (export_client Fixture.config_obs) (App.project Fixture.args_project)
             (App.package Fixture.args_project))) = Some 401 /\
  (401 = 401 \/ 401 = 404) /\
  App.export Fixture.args_project Fixture.config_obs Fixture.host_repository (Fixture.env_head 401) Fixture.world_import =
  (Ok (App.SystemExit (-1)),
   set_log (fun l => l ++ export_refusal Fixture.args_project Fixture.config_obs 401) Fixture.world_import).
Proof.
  split; [reflexivity |]. split; [by left |].
  exact (export_refused Fixture.args_project Fixture.config_obs Fixture.host_repository 401 (Fixture.env_head 401)
           Fixture.world_import eq_refl (or_introl eq_refl)).
Defined.


